(** * Baseline MCP adapter: validation, sanitisation, upstream client and
      tool handlers of [tools.ts]

    The development embeds the TypeScript module that holds the REST client
    ([createBaselineClient]), the input helpers ([validateRequiredArgs],
    [sanitizeString], [sanitizeObject]) and the [toolHandlers] table, and
    proves the properties the specification states about them.

    Layout: the part of the JavaScript language the module relies on
    (module [JS]), the engine and the network as a [runtime] record, the
    functions of the module in source order, the descriptions the
    statements use, then the theorems. *)

From Stdlib Require Import String Ascii ZArith List Bool Lia DecimalString.
Import ListNotations.
Local Open Scope string_scope.
Local Open Scope Z_scope.
Set Warnings "-register-all".

(* ===================================================================== *)
(** * The JavaScript values and primitives the module uses *)
(* ===================================================================== *)

Module JS.

(** A string is a sequence of UTF-16 code units.  The embedding carries the
    code units below 256 as [ascii] (the Latin-1 slice), so that [length],
    [substring] and [includes] count exactly as the engine does. *)

(** The values that reach the handlers come from a JSON-RPC message, those
    the client reads come from [JSON.parse]: [undefined], [null], booleans,
    numbers, strings, arrays and plain objects.  A number is an IEEE double
    in the engine; the embedding carries the integer-valued ones (page
    indices, HTTP status codes, lengths) as [Z].  An object is the list of
    its own enumerable properties in the order [Object.entries] lists
    them. *)
Inductive value : Type :=
| VUndefined
| VNull
| VBool (b : bool)
| VNum (n : Z)
| VStr (s : string)
| VArr (elems : list value)
| VObj (props : list (string * value)).

(** What [throw] carries: an [Error] instance with its [message], or any
    other value (for which [error instanceof Error] is false). *)
Inductive thrown : Type :=
| ErrorObj (message : string)
| ThrownOther.

(** The result of the [typeof] operator on the values above. *)
Inductive js_type : Type :=
| TUndefined | TObject | TBoolean | TNumber | TString.

Definition typeof (v : value) : js_type :=
  match v with
  | VUndefined => TUndefined
  | VNull | VArr _ | VObj _ => TObject
  | VBool _ => TBoolean
  | VNum _ => TNumber
  | VStr _ => TString
  end.

Definition js_type_eqb (a b : js_type) : bool :=
  match a, b with
  | TUndefined, TUndefined | TObject, TObject | TBoolean, TBoolean
  | TNumber, TNumber | TString, TString => true
  | _, _ => false
  end.

(** ToBoolean: what [if (v)], [!v] and [a || b] test. *)
Definition truthy (v : value) : bool :=
  match v with
  | VUndefined | VNull => false
  | VBool b => b
  | VNum n => negb (n =? 0)
  | VStr s => negb (s =? "")%string
  | VArr _ | VObj _ => true
  end.

Definition is_undefined (v : value) : bool :=
  match v with VUndefined => true | _ => false end.

Definition is_null (v : value) : bool :=
  match v with VNull => true | _ => false end.

(** ** Strings *)

(** White space and line terminators of the language, below 256:
    TAB, LF, VT, FF, CR, SP and NBSP. *)
Definition isWhiteSpace (c : ascii) : bool :=
  let n := N_of_ascii c in
  ((9 <=? n) && (n <=? 13) || (n =? 32) || (n =? 160))%N.

Fixpoint trimStart (s : string) : string :=
  match s with
  | EmptyString => EmptyString
  | String c rest => if isWhiteSpace c then trimStart rest else s
  end.

Fixpoint trimEnd (s : string) : string :=
  match s with
  | EmptyString => EmptyString
  | String c rest =>
      match trimEnd rest with
      | EmptyString => if isWhiteSpace c then EmptyString else String c EmptyString
      | r => String c r
      end
  end.

(** [String.prototype.trim]. *)
Definition trim (s : string) : string := trimEnd (trimStart s).

(** [s.replace(/[...]/g, '')] for a character class: every code unit of the
    class is dropped. *)
Fixpoint remove_class (cls : ascii -> bool) (s : string) : string :=
  match s with
  | EmptyString => EmptyString
  | String c rest =>
      if cls c then remove_class cls rest else String c (remove_class cls rest)
  end.

(** [String.prototype.includes]. *)
Fixpoint includes (s sub : string) : bool :=
  String.prefix sub s
  || match s with
     | EmptyString => false
     | String _ rest => includes rest sub
     end.

(** [Number.prototype.toString] on an integer-valued number: its decimal
    digits.  That is the text of the engine for every safe integer (a
    magnitude of at most 2^53 - 1); above, not every integer is a number
    of the engine, and from 10^21 the engine prints an exponent.  A
    statement about the text of a number an argument carries is made for
    safe integers. *)
Definition Number_toString (n : Z) : string :=
  NilZero.string_of_int (Z.to_int n).

(** ** Properties *)

Fixpoint assoc (k : string) (l : list (string * value)) : option value :=
  match l with
  | [] => None
  | (k', v) :: rest => if (k =? k')%string then Some v else assoc k rest
  end.

(** [v[k]] and [v.k].  Reading a property of [null] or [undefined] throws a
    TypeError.  Strings and arrays answer [length]; their index keys and
    the properties inherited from the prototypes ([constructor],
    [toString], [__proto__], the methods of arrays and strings) are left
    out: the module reads fields by fixed names, none of them an index
    or inherited.  A statement about a name the caller chooses is made
    for own reads only. *)
Definition get_prop (v : value) (k : string) : thrown + value :=
  match v with
  | VUndefined =>
      inl (ErrorObj ("Cannot read properties of undefined (reading '" ++ k ++ "')"))
  | VNull =>
      inl (ErrorObj ("Cannot read properties of null (reading '" ++ k ++ "')"))
  | VObj props =>
      inr match assoc k props with Some x => x | None => VUndefined end
  | VArr elems =>
      inr (if (k =? "length")%string then VNum (Z.of_nat (List.length elems))
           else VUndefined)
  | VStr s =>
      inr (if (k =? "length")%string then VNum (Z.of_nat (String.length s))
           else VUndefined)
  | VBool _ | VNum _ => inr VUndefined
  end.

(** [obj[k] = x] on an object built from [{}].  The key [__proto__] is the
    accessor inherited from [Object.prototype]: assigning to it runs the
    setter and creates no own property.  Any other key replaces the
    property in place or appends a new one. *)
Fixpoint replace_prop (k : string) (x : value) (props : list (string * value))
  : list (string * value) :=
  match props with
  | [] => []
  | (k', v) :: rest =>
      if (k =? k')%string then (k', x) :: rest
      else (k', v) :: replace_prop k x rest
  end.

Definition set_prop (props : list (string * value)) (k : string) (x : value)
  : list (string * value) :=
  if (k =? "__proto__")%string then props
  else match assoc k props with
       | Some _ => replace_prop k x props
       | None => props ++ [(k, x)]
       end.

(** [Object.values] of an array or a plain object. *)
Definition Object_values (v : value) : list value :=
  match v with
  | VArr elems => elems
  | VObj props => map snd props
  | _ => []
  end.

(** ** URLSearchParams *)

Definition hex_digit (n : N) : ascii :=
  ascii_of_N (if (n <? 10)%N then 48 + n else 55 + n)%N.

Definition percent_byte (n : N) : string :=
  String "%" (String (hex_digit (n / 16)) (String (hex_digit (n mod 16)) EmptyString)).

(** The application/x-www-form-urlencoded serialisation of one code unit:
    alphanumerics and [* - . _] stay, a space becomes [+], anything else is
    percent-encoded through its UTF-8 bytes. *)
Definition urlencode_char (c : ascii) : string :=
  let n := N_of_ascii c in
  if ((48 <=? n) && (n <=? 57) || (65 <=? n) && (n <=? 90)
      || (97 <=? n) && (n <=? 122)
      || (n =? 42) || (n =? 45) || (n =? 46) || (n =? 95))%N
  then String c EmptyString
  else if (n =? 32)%N then "+"
  else if (n <? 128)%N then percent_byte n
  else percent_byte (192 + n / 64) ++ percent_byte (128 + n mod 64).

Fixpoint urlencode (s : string) : string :=
  match s with
  | EmptyString => EmptyString
  | String c rest => urlencode_char c ++ urlencode rest
  end.

(** [params.toString()] for the list of pairs appended so far. *)
Definition URLSearchParams_toString (params : list (string * string)) : string :=
  String.concat "&" (map (fun p => urlencode (fst p) ++ "=" ++ urlencode (snd p)) params).

End JS.

Import JS.

(* ===================================================================== *)
(** * The engine and the network *)
(* ===================================================================== *)

(** What [fetch] is called with: the method, the URL, the headers in the
    order of the object literal, and the body when one was set. *)
Record request : Type := mkRequest {
  req_method : string;
  req_url : string;
  req_headers : list (string * string);
  req_body : option string
}.

(** What [fetch] resolves to: the status line and the outcome of
    [response.text()]. *)
Record response : Type := mkResponse {
  status : Z;
  statusText : string;
  body_text : thrown + string
}.

(** [response.ok]: the status is in the range 200-299. *)
Definition ok (r : response) : bool :=
  (200 <=? status r) && (status r <=? 299).

(** The services of the engine the module calls and does not define.
    [JSON_parse] returns the value or throws a SyntaxError.
    [JSON_stringify None v] is [JSON.stringify(v)] and
    [JSON_stringify (Some 2) v] is [JSON.stringify(v, null, 2)], on the
    values the module renders (parsed data and objects built from it).
    [fetch] resolves to a response or rejects.  [invoke_toString] is
    [v.toString()] and [ToPrimitive_string] the conversion of a template
    literal, both on arrays and objects, where either returns a string or
    throws a TypeError. *)
Record runtime : Type := mkRuntime {
  JSON_parse : string -> thrown + value;
  JSON_stringify : option nat -> value -> string;
  fetch : request -> thrown + response;
  invoke_toString : value -> thrown + string;
  ToPrimitive_string : value -> thrown + string
}.

(** ** Computations that may throw, and computations that also call out *)

Definition E (A : Type) : Type := (thrown + A)%type.

Definition bindE {A B : Type} (e : E A) (k : A -> E B) : E B :=
  match e with
  | inl t => inl t
  | inr a => k a
  end.

(** An asynchronous computation: the requests it handed to [fetch], in
    order, and how it settled. *)
Definition M (A : Type) : Type := (list request * E A)%type.

Definition ret {A : Type} (a : A) : M A := ([], inr a).

Definition lift {A : Type} (e : E A) : M A := ([], e).

Definition bind {A B : Type} (m : M A) (k : A -> M B) : M B :=
  match m with
  | (log, inl t) => (log, inl t)
  | (log, inr a) => let (log', r) := k a in ((log ++ log')%list, r)
  end.

(** [try { m } catch (error) { h error }]. *)
Definition try_catch {A : Type} (m : M A) (h : thrown -> M A) : M A :=
  match m with
  | (log, inl t) => let (log', r) := h t in ((log ++ log')%list, r)
  | (log, inr a) => (log, inr a)
  end.

Declare Scope js_scope.
Delimit Scope js_scope with js.
Notation "x <- m ;; k" := (bind m (fun x => k))
  (at level 61, m at next level, right associativity) : js_scope.
Notation "x <-? e ;; k" := (bindE e (fun x => k))
  (at level 61, e at next level, right associativity) : js_scope.
Local Open Scope js_scope.

(** String conversions of a value: the method call [v.toString()] and the
    conversion inside a template literal. *)
Definition toString_method (rt : runtime) (v : value) : E string :=
  match v with
  | VUndefined =>
      inl (ErrorObj "Cannot read properties of undefined (reading 'toString')")
  | VNull =>
      inl (ErrorObj "Cannot read properties of null (reading 'toString')")
  | VBool b => inr (if b then "true" else "false")
  | VNum n => inr (Number_toString n)
  | VStr s => inr s
  | VArr _ | VObj _ => invoke_toString rt v
  end.

Definition ToString (rt : runtime) (v : value) : E string :=
  match v with
  | VUndefined => inr "undefined"
  | VNull => inr "null"
  | VBool b => inr (if b then "true" else "false")
  | VNum n => inr (Number_toString n)
  | VStr s => inr s
  | VArr _ | VObj _ => ToPrimitive_string rt v
  end.

(* ===================================================================== *)
(** * Baseline REST client *)
(* ===================================================================== *)

(** The two module-level variables [BASELINE_API_KEY] and
    [BASELINE_API_URL]. *)
Record config : Type := mkConfig {
  BASELINE_API_KEY : string;
  BASELINE_API_URL : string
}.

(** [setBaselineApiKey(key)], with [None] for [undefined]. *)
Definition setBaselineApiKey (key : option string) (st : config) : config :=
  match key with
  | Some k =>
      if truthy (VStr k) then mkConfig k (BASELINE_API_URL st) else st
  | None => st
  end.

Definition setBaselineApiUrl (url : string) (st : config) : config :=
  mkConfig (BASELINE_API_KEY st) url.

Section Module_tools.

Variable rt : runtime.
Variable st : config.

(** The block of [makeRequest] that reads the credential ("Handle AWS
    Secrets Manager JSON format for the API key"): the value of the local
    [apiKey] when the [try] statement is left.  A throw inside the block is
    swallowed by its [catch] and leaves [apiKey] as initialised. *)
Definition resolveApiKey : value :=
  let apiKey := VStr (BASELINE_API_KEY st) in
  let block : E value :=
    parsed <-? JSON_parse rt (BASELINE_API_KEY st) ;;
    if truthy parsed && js_type_eqb (typeof parsed) TObject then
      k1 <-? get_prop parsed "BASELINE_API_KEY" ;;
      if truthy k1 then inr k1 else
      k2 <-? get_prop parsed "apiKey" ;;
      if truthy k2 then inr k2 else
      k3 <-? get_prop parsed "key" ;;
      if truthy k3 then inr k3 else
      k4 <-? get_prop parsed "value" ;;
      if truthy k4 then inr k4 else
      k5 <-? get_prop parsed "secret" ;;
      if truthy k5 then inr k5 else
      let values := Object_values parsed in
      let stringValues :=
        filter (fun v => js_type_eqb (typeof v) TString) values in
      if (0 <? List.length stringValues)%nat
      then inr (nth 0 stringValues VUndefined)
      else inr apiKey
    else inr apiKey in
  match block with
  | inr k => k
  | inl _ => apiKey
  end.

(** [await fetch(url, config)]: the request is recorded, the engine
    answers. *)
Definition do_fetch (req : request) : M response := ([req], fetch rt req).

(** [makeRequest(method, path, body)]; an absent [body] is [VUndefined].
    The result is the [data] of the returned [{ data }]. *)
Definition makeRequest (method path : string) (body : value) : M value :=
  if negb (truthy (VStr (BASELINE_API_KEY st))) then
    lift (inl (ErrorObj "BASELINE_API_KEY is not configured. Please set it via environment variables or the 'setBaselineApiKey' function."))
  else
    let apiKey := resolveApiKey in
    token <- lift (ToString rt apiKey) ;;
    let headers :=
      [ ("Authorization", "Token " ++ token);
        ("Content-Type", "application/json");
        ("Accept", "application/json") ] in
    let config_body :=
      if truthy body then Some (JSON_stringify rt None body) else None in
    response <- do_fetch
      (mkRequest method (BASELINE_API_URL st ++ path) headers config_body) ;;
    if negb (ok response) then
      errorBody <- lift (body_text response) ;;
      lift (inl (ErrorObj ("API request failed: "
                           ++ Number_toString (status response) ++ " "
                           ++ statusText response ++ " - Body: " ++ errorBody)))
    else
      responseText <- lift (body_text response) ;;
      (if truthy (VStr responseText)
       then lift (JSON_parse rt responseText)
       else ret (VObj [])).

(** The object [createBaselineClient()] returns. *)
Definition client_get (path : string) : M value :=
  makeRequest "GET" path VUndefined.
Definition client_post (path : string) (data : value) : M value :=
  makeRequest "POST" path data.
Definition client_patch (path : string) (data : value) : M value :=
  makeRequest "PATCH" path data.
Definition client_put (path : string) (data : value) : M value :=
  makeRequest "PUT" path data.
Definition client_delete (path : string) : M value :=
  makeRequest "DELETE" path VUndefined.

(* ===================================================================== *)
(** * Input validation and sanitisation *)
(* ===================================================================== *)

Fixpoint validateRequiredArgs (args : value) (requiredFields : list string)
  : E unit :=
  match requiredFields with
  | [] => inr tt
  | field :: rest =>
      missing <-? (if negb (truthy args) then inr true
                   else v <-? get_prop args field ;;
                        inr (is_undefined v || is_null v)) ;;
      if (missing : bool)
      then inl (ErrorObj ("Missing required argument: " ++ field))
      else validateRequiredArgs args rest
  end.

(** The character class of the regular expression in [sanitizeString]:
    less-than, greater-than, double quote, single quote, ampersand. *)
Definition dangerous (c : ascii) : bool :=
  let n := N_of_ascii c in
  ((n =? 60) || (n =? 62) || (n =? 34) || (n =? 39) || (n =? 38))%N.

Definition sanitizeString (input : value) : E string :=
  match input with
  | VStr s => inr (substring 0 1000 (remove_class dangerous (trim s)))
  | _ => inl (ErrorObj "Input must be a string")
  end.

(** The inner [sanitizeValue] of [sanitizeObject].  [obj.map(sanitizeValue)]
    is the first local loop; the second is the [for ... of
    Object.entries(obj)] loop that assigns into [sanitized], which starts
    as the empty object. *)
Fixpoint sanitizeValue (obj : value) : E value :=
  match obj with
  | VStr _ => s <-? sanitizeString obj ;; inr (VStr s)
  | VArr elems =>
      let map_ := fix map_ (l : list value) : E (list value) :=
        match l with
        | [] => inr []
        | x :: rest =>
            y <-? sanitizeValue x ;;
            ys <-? map_ rest ;;
            inr (y :: ys)
        end in
      ys <-? map_ elems ;; inr (VArr ys)
  | VObj props =>
      let loop := fix loop (entries sanitized : list (string * value))
        : E (list (string * value)) :=
        match entries with
        | [] => inr sanitized
        | (key, value) :: rest =>
            y <-? sanitizeValue value ;;
            loop rest (set_prop sanitized key y)
        end in
      sanitized <-? loop props [] ;; inr (VObj sanitized)
  | _ => inr obj
  end.

Definition sanitizeObject (input : value) : E value :=
  if negb (js_type_eqb (typeof input) TObject) || is_null input
  then inl (ErrorObj "Input must be an object")
  else sanitizeValue input.

(* ===================================================================== *)
(** * Tool handlers *)
(* ===================================================================== *)

Record content_item : Type := mkContent {
  type : string;
  text : string
}.

Record ToolResult : Type := mkToolResult {
  content : list content_item;
  isError : bool
}.

(** [{ content: [{ type: "text", text: t }], isError: e }]. *)
Definition text_result (t : string) (e : bool) : ToolResult :=
  mkToolResult [mkContent "text" t] e.

(** [error instanceof Error ? error.message : 'Unknown error']. *)
Definition error_message (error : thrown) : string :=
  match error with
  | ErrorObj message => message
  | ThrownOther => "Unknown error"
  end.

(** [JSON.stringify(response.data, null, 2)]. *)
Definition pretty (data : value) : string := JSON_stringify rt (Some 2%nat) data.

(** [typeof id !== 'string' || !id.trim()]. *)
Definition not_nonempty_string (id : value) : bool :=
  match id with
  | VStr s => negb (truthy (VStr (trim s)))
  | _ => true
  end.

(** [typeof x !== 'object' || x === null], the test of [updateLoan] and
    [createLoan]. *)
Definition not_object_or_null (x : value) : bool :=
  negb (js_type_eqb (typeof x) TObject) || is_null x.

(** [!x || typeof x !== 'object'], the test of the other handlers. *)
Definition falsy_or_not_object (x : value) : bool :=
  negb (truthy x) || negb (js_type_eqb (typeof x) TObject).


(** ** Loans *)

Definition getLoan (args : value) : M ToolResult :=
  try_catch
    (_ <- lift (validateRequiredArgs args ["loanId"]) ;;
     loanId <- lift (get_prop args "loanId") ;;
     if not_nonempty_string loanId then
       ret (text_result "Error: loanId must be a non-empty string" true)
     else
       sanitizedLoanId <- lift (sanitizeString loanId) ;;
       data <- client_get ("/loan/" ++ sanitizedLoanId) ;;
       ret (text_result (pretty data) false))
    (fun error =>
       ret (text_result ("Error retrieving loan: " ++ error_message error) true)).

(** The post-processing of [listLoans]: [loans] is
    [response.data.loans || response.data], and the result pairs it with
    [loans.length]. *)
Definition loans_result (data : value) : E value :=
  data_loans <-? get_prop data "loans" ;;
  let loans := if truthy data_loans then data_loans else data in
  totalCount <-? get_prop loans "length" ;;
  inr (VObj [("loans", loans); ("totalCount", totalCount)]).

(** The [console.error] of the [catch] block writes to the log of the
    worker and is left out. *)
Definition listLoans (args : value) : M ToolResult :=
  try_catch
    (data <- client_get "/loan" ;;
     result <- lift (loans_result data) ;;
     ret (text_result (pretty result) false))
    (fun error =>
       ret (text_result ("Error listing loans: " ++ error_message error) true)).

Definition updateLoan (args : value) : M ToolResult :=
  try_catch
    (_ <- lift (validateRequiredArgs args ["loanId"; "updates"]) ;;
     loanId <- lift (get_prop args "loanId") ;;
     updates <- lift (get_prop args "updates") ;;
     if not_nonempty_string loanId then
       ret (text_result "Error: loanId must be a non-empty string" true)
     else if not_object_or_null updates then
       ret (text_result "Error: updates must be an object" true)
     else
       sanitizedLoanId <- lift (sanitizeString loanId) ;;
       sanitizedUpdates <- lift (sanitizeObject updates) ;;
       data <- client_patch ("/loan/" ++ sanitizedLoanId) sanitizedUpdates ;;
       ret (text_result (pretty data) false))
    (fun error =>
       ret (text_result ("Error updating loan: " ++ error_message error) true)).

Definition createLoan (args : value) : M ToolResult :=
  try_catch
    (_ <- lift (validateRequiredArgs args ["loanData"]) ;;
     loanData <- lift (get_prop args "loanData") ;;
     if not_object_or_null loanData then
       ret (text_result "Error: loanData must be an object" true)
     else
       sanitizedLoanData <- lift (sanitizeObject loanData) ;;
       data <- client_post "/loan" sanitizedLoanData ;;
       ret (text_result (pretty data) false))
    (fun error =>
       ret (text_result ("Error creating loan: " ++ error_message error) true)).

Definition getLoanLedger (args : value) : M ToolResult :=
  try_catch
    (_ <- lift (validateRequiredArgs args ["loanId"]) ;;
     loanId <- lift (get_prop args "loanId") ;;
     if not_nonempty_string loanId then
       ret (text_result "Error: loanId must be a non-empty string" true)
     else
       sanitizedLoanId <- lift (sanitizeString loanId) ;;
       data <- client_get ("/loan/" ++ sanitizedLoanId ++ "/transaction") ;;
       ret (text_result (pretty data) false))
    (fun error =>
       ret (text_result ("Error retrieving loan ledger: " ++ error_message error) true)).

(** ** Tasks *)

Definition getTask (args : value) : M ToolResult :=
  try_catch
    (_ <- lift (validateRequiredArgs args ["taskId"]) ;;
     taskId <- lift (get_prop args "taskId") ;;
     if not_nonempty_string taskId then
       ret (text_result "Error: taskId must be a non-empty string" true)
     else
       sanitizedTaskId <- lift (sanitizeString taskId) ;;
       data <- client_get ("/task/" ++ sanitizedTaskId) ;;
       ret (text_result (pretty data) false))
    (fun error =>
       ret (text_result ("Error retrieving task: " ++ error_message error) true)).

Definition listTasks (args : value) : M ToolResult :=
  try_catch
    (page <- lift (get_prop (if truthy args then args else VObj []) "page") ;;
     let url := "/task" in
     let continue (params : list (string * string)) : M ToolResult :=
       let url := if truthy (VStr (URLSearchParams_toString params))
                  then url ++ "?" ++ URLSearchParams_toString params
                  else url in
       data <- client_get url ;;
       ret (text_result (pretty data) false) in
     if truthy page then
       if negb (js_type_eqb (typeof page) TNumber)
          || match page with VNum n => n <? 0 | _ => false end
       then ret (text_result "Error: page must be a non-negative number" true)
       else s <- lift (toString_method rt page) ;; continue [("page", s)]
     else continue [])
    (fun error =>
       ret (text_result ("Error listing tasks: " ++ error_message error) true)).

Definition createTask (args : value) : M ToolResult :=
  try_catch
    (_ <- lift (validateRequiredArgs args ["Name"]) ;;
     sanitizedTaskData <- lift (sanitizeObject args) ;;
     data <- client_post "/task" sanitizedTaskData ;;
     ret (text_result (pretty data) false))
    (fun error =>
       ret (text_result ("Error creating task: " ++ error_message error) true)).

Definition updateTask (args : value) : M ToolResult :=
  try_catch
    (_ <- lift (validateRequiredArgs args ["taskId"; "updates"]) ;;
     taskId <- lift (get_prop args "taskId") ;;
     updates <- lift (get_prop args "updates") ;;
     if not_nonempty_string taskId then
       ret (text_result "Error: taskId must be a non-empty string" true)
     else if falsy_or_not_object updates then
       ret (text_result "Error: updates must be an object" true)
     else
       sanitizedTaskId <- lift (sanitizeString taskId) ;;
       sanitizedUpdates <- lift (sanitizeObject updates) ;;
       data <- client_patch ("/task/" ++ sanitizedTaskId) sanitizedUpdates ;;
       ret (text_result (pretty data) false))
    (fun error =>
       ret (text_result ("Error updating task: " ++ error_message error) true)).

Definition deleteTask (args : value) : M ToolResult :=
  try_catch
    (_ <- lift (validateRequiredArgs args ["taskId"]) ;;
     taskId <- lift (get_prop args "taskId") ;;
     if not_nonempty_string taskId then
       ret (text_result "Error: taskId must be a non-empty string" true)
     else
       sanitizedTaskId <- lift (sanitizeString taskId) ;;
       data <- client_delete ("/task/" ++ sanitizedTaskId) ;;
       ret (text_result (pretty data) false))
    (fun error =>
       ret (text_result ("Error deleting task: " ++ error_message error) true)).

(** ** Borrowers *)

Definition createBorrower (args : value) : M ToolResult :=
  try_catch
    (_ <- lift (validateRequiredArgs args ["borrowerData"]) ;;
     borrowerData <- lift (get_prop args "borrowerData") ;;
     if falsy_or_not_object borrowerData then
       ret (text_result "Error: borrowerData must be an object" true)
     else
       sanitizedBorrowerData <- lift (sanitizeObject borrowerData) ;;
       data <- client_post "/borrower" sanitizedBorrowerData ;;
       ret (text_result (pretty data) false))
    (fun error =>
       ret (text_result ("Error creating borrower: " ++ error_message error) true)).

Definition listBorrowers (args : value) : M ToolResult :=
  try_catch
    (page <- lift (get_prop (if truthy args then args else VObj []) "page") ;;
     params <- (if truthy page then
                  s <- lift (toString_method rt page) ;; ret [("page", s)]
                else ret []) ;;
     let url := "/borrower" in
     let url := if truthy (VStr (URLSearchParams_toString params))
                then url ++ "?" ++ URLSearchParams_toString params
                else url in
     data <- client_get url ;;
     ret (text_result (pretty data) false))
    (fun error =>
       ret (text_result ("Error listing borrowers: " ++ error_message error) true)).

Definition getBorrower (args : value) : M ToolResult :=
  try_catch
    (_ <- lift (validateRequiredArgs args ["borrowerId"]) ;;
     borrowerId <- lift (get_prop args "borrowerId") ;;
     if not_nonempty_string borrowerId then
       ret (text_result "Error: borrowerId must be a non-empty string" true)
     else
       sanitizedBorrowerId <- lift (sanitizeString borrowerId) ;;
       data <- client_get ("/borrower/" ++ sanitizedBorrowerId) ;;
       ret (text_result (pretty data) false))
    (fun error =>
       ret (text_result ("Error retrieving borrower: " ++ error_message error) true)).

Definition updateBorrower (args : value) : M ToolResult :=
  try_catch
    (_ <- lift (validateRequiredArgs args ["borrowerId"; "updates"]) ;;
     borrowerId <- lift (get_prop args "borrowerId") ;;
     updates <- lift (get_prop args "updates") ;;
     if not_nonempty_string borrowerId then
       ret (text_result "Error: borrowerId must be a non-empty string" true)
     else if falsy_or_not_object updates then
       ret (text_result "Error: updates must be an object" true)
     else
       sanitizedBorrowerId <- lift (sanitizeString borrowerId) ;;
       sanitizedUpdates <- lift (sanitizeObject updates) ;;
       data <- client_patch ("/borrower/" ++ sanitizedBorrowerId) sanitizedUpdates ;;
       ret (text_result (pretty data) false))
    (fun error =>
       ret (text_result ("Error updating borrower: " ++ error_message error) true)).

Definition deleteBorrower (args : value) : M ToolResult :=
  try_catch
    (_ <- lift (validateRequiredArgs args ["borrowerId"]) ;;
     borrowerId <- lift (get_prop args "borrowerId") ;;
     if not_nonempty_string borrowerId then
       ret (text_result "Error: borrowerId must be a non-empty string" true)
     else
       sanitizedBorrowerId <- lift (sanitizeString borrowerId) ;;
       data <- client_delete ("/borrower/" ++ sanitizedBorrowerId) ;;
       ret (text_result (pretty data) false))
    (fun error =>
       ret (text_result ("Error deleting borrower: " ++ error_message error) true)).

Definition connectBorrowers (args : value) : M ToolResult :=
  try_catch
    (_ <- lift (validateRequiredArgs args ["borrowerId"; "connectToBorrowerId"]) ;;
     borrowerId <- lift (get_prop args "borrowerId") ;;
     connectToBorrowerId <- lift (get_prop args "connectToBorrowerId") ;;
     if not_nonempty_string borrowerId || not_nonempty_string connectToBorrowerId then
       ret (text_result "Error: borrowerId and connectToBorrowerId must be non-empty strings" true)
     else
       sanitizedBorrowerId <- lift (sanitizeString borrowerId) ;;
       sanitizedConnectToBorrowerId <- lift (sanitizeString connectToBorrowerId) ;;
       data <- client_put ("/borrower/" ++ sanitizedBorrowerId ++ "/connect/" ++ sanitizedConnectToBorrowerId) (VObj []) ;;
       ret (text_result (pretty data) false))
    (fun error =>
       ret (text_result ("Error connecting borrowers: " ++ error_message error) true)).

Definition disconnectBorrowers (args : value) : M ToolResult :=
  try_catch
    (_ <- lift (validateRequiredArgs args ["borrowerId"; "disconnectFromBorrowerId"]) ;;
     borrowerId <- lift (get_prop args "borrowerId") ;;
     disconnectFromBorrowerId <- lift (get_prop args "disconnectFromBorrowerId") ;;
     if not_nonempty_string borrowerId || not_nonempty_string disconnectFromBorrowerId then
       ret (text_result "Error: borrowerId and disconnectFromBorrowerId must be non-empty strings" true)
     else
       sanitizedBorrowerId <- lift (sanitizeString borrowerId) ;;
       sanitizedDisconnectFromBorrowerId <- lift (sanitizeString disconnectFromBorrowerId) ;;
       data <- client_delete ("/borrower/" ++ sanitizedBorrowerId ++ "/connect/" ++ sanitizedDisconnectFromBorrowerId) ;;
       ret (text_result (pretty data) false))
    (fun error =>
       ret (text_result ("Error disconnecting borrowers: " ++ error_message error) true)).

(** ** Vendors *)

Definition createVendor (args : value) : M ToolResult :=
  try_catch
    (_ <- lift (validateRequiredArgs args ["vendorData"]) ;;
     vendorData <- lift (get_prop args "vendorData") ;;
     if falsy_or_not_object vendorData then
       ret (text_result "Error: vendorData must be an object" true)
     else
       sanitizedVendorData <- lift (sanitizeObject vendorData) ;;
       data <- client_post "/vendor" sanitizedVendorData ;;
       ret (text_result (pretty data) false))
    (fun error =>
       ret (text_result ("Error creating vendor: " ++ error_message error) true)).

Definition listVendors (args : value) : M ToolResult :=
  try_catch
    (page <- lift (get_prop (if truthy args then args else VObj []) "page") ;;
     params <- (if truthy page then
                  s <- lift (toString_method rt page) ;; ret [("page", s)]
                else ret []) ;;
     let url := "/vendor" in
     let url := if truthy (VStr (URLSearchParams_toString params))
                then url ++ "?" ++ URLSearchParams_toString params
                else url in
     data <- client_get url ;;
     ret (text_result (pretty data) false))
    (fun error =>
       ret (text_result ("Error listing vendors: " ++ error_message error) true)).

Definition getVendor (args : value) : M ToolResult :=
  try_catch
    (_ <- lift (validateRequiredArgs args ["vendorId"]) ;;
     vendorId <- lift (get_prop args "vendorId") ;;
     if not_nonempty_string vendorId then
       ret (text_result "Error: vendorId must be a non-empty string" true)
     else
       sanitizedVendorId <- lift (sanitizeString vendorId) ;;
       data <- client_get ("/vendor/" ++ sanitizedVendorId) ;;
       ret (text_result (pretty data) false))
    (fun error =>
       ret (text_result ("Error retrieving vendor: " ++ error_message error) true)).

Definition updateVendor (args : value) : M ToolResult :=
  try_catch
    (_ <- lift (validateRequiredArgs args ["vendorId"; "updates"]) ;;
     vendorId <- lift (get_prop args "vendorId") ;;
     updates <- lift (get_prop args "updates") ;;
     if not_nonempty_string vendorId then
       ret (text_result "Error: vendorId must be a non-empty string" true)
     else if falsy_or_not_object updates then
       ret (text_result "Error: updates must be an object" true)
     else
       sanitizedVendorId <- lift (sanitizeString vendorId) ;;
       sanitizedUpdates <- lift (sanitizeObject updates) ;;
       data <- client_patch ("/vendor/" ++ sanitizedVendorId) sanitizedUpdates ;;
       ret (text_result (pretty data) false))
    (fun error =>
       ret (text_result ("Error updating vendor: " ++ error_message error) true)).

Definition deleteVendor (args : value) : M ToolResult :=
  try_catch
    (_ <- lift (validateRequiredArgs args ["vendorId"]) ;;
     vendorId <- lift (get_prop args "vendorId") ;;
     if not_nonempty_string vendorId then
       ret (text_result "Error: vendorId must be a non-empty string" true)
     else
       sanitizedVendorId <- lift (sanitizeString vendorId) ;;
       data <- client_delete ("/vendor/" ++ sanitizedVendorId) ;;
       ret (text_result (pretty data) false))
    (fun error =>
       ret (text_result ("Error deleting vendor: " ++ error_message error) true)).

Definition connectVendors (args : value) : M ToolResult :=
  try_catch
    (_ <- lift (validateRequiredArgs args ["vendorId"; "connectToVendorId"]) ;;
     vendorId <- lift (get_prop args "vendorId") ;;
     connectToVendorId <- lift (get_prop args "connectToVendorId") ;;
     if not_nonempty_string vendorId || not_nonempty_string connectToVendorId then
       ret (text_result "Error: vendorId and connectToVendorId must be non-empty strings" true)
     else
       sanitizedVendorId <- lift (sanitizeString vendorId) ;;
       sanitizedConnectToVendorId <- lift (sanitizeString connectToVendorId) ;;
       data <- client_put ("/vendor/" ++ sanitizedVendorId ++ "/connect/" ++ sanitizedConnectToVendorId) (VObj []) ;;
       ret (text_result (pretty data) false))
    (fun error =>
       ret (text_result ("Error connecting vendors: " ++ error_message error) true)).

Definition disconnectVendors (args : value) : M ToolResult :=
  try_catch
    (_ <- lift (validateRequiredArgs args ["vendorId"; "disconnectFromVendorId"]) ;;
     vendorId <- lift (get_prop args "vendorId") ;;
     disconnectFromVendorId <- lift (get_prop args "disconnectFromVendorId") ;;
     if not_nonempty_string vendorId || not_nonempty_string disconnectFromVendorId then
       ret (text_result "Error: vendorId and disconnectFromVendorId must be non-empty strings" true)
     else
       sanitizedVendorId <- lift (sanitizeString vendorId) ;;
       sanitizedDisconnectFromVendorId <- lift (sanitizeString disconnectFromVendorId) ;;
       data <- client_delete ("/vendor/" ++ sanitizedVendorId ++ "/connect/" ++ sanitizedDisconnectFromVendorId) ;;
       ret (text_result (pretty data) false))
    (fun error =>
       ret (text_result ("Error disconnecting vendors: " ++ error_message error) true)).

(** ** Investors *)

Definition createInvestor (args : value) : M ToolResult :=
  try_catch
    (_ <- lift (validateRequiredArgs args ["investorData"]) ;;
     investorData <- lift (get_prop args "investorData") ;;
     if falsy_or_not_object investorData then
       ret (text_result "Error: investorData must be an object" true)
     else
       sanitizedInvestorData <- lift (sanitizeObject investorData) ;;
       data <- client_post "/investor" sanitizedInvestorData ;;
       ret (text_result (pretty data) false))
    (fun error =>
       ret (text_result ("Error creating investor: " ++ error_message error) true)).

Definition listInvestors (args : value) : M ToolResult :=
  try_catch
    (page <- lift (get_prop (if truthy args then args else VObj []) "page") ;;
     params <- (if truthy page then
                  s <- lift (toString_method rt page) ;; ret [("page", s)]
                else ret []) ;;
     let url := "/investor" in
     let url := if truthy (VStr (URLSearchParams_toString params))
                then url ++ "?" ++ URLSearchParams_toString params
                else url in
     data <- client_get url ;;
     ret (text_result (pretty data) false))
    (fun error =>
       ret (text_result ("Error listing investors: " ++ error_message error) true)).

Definition getInvestor (args : value) : M ToolResult :=
  try_catch
    (_ <- lift (validateRequiredArgs args ["investorId"]) ;;
     investorId <- lift (get_prop args "investorId") ;;
     if not_nonempty_string investorId then
       ret (text_result "Error: investorId must be a non-empty string" true)
     else
       sanitizedInvestorId <- lift (sanitizeString investorId) ;;
       data <- client_get ("/investor/" ++ sanitizedInvestorId) ;;
       ret (text_result (pretty data) false))
    (fun error =>
       ret (text_result ("Error retrieving investor: " ++ error_message error) true)).

Definition updateInvestor (args : value) : M ToolResult :=
  try_catch
    (_ <- lift (validateRequiredArgs args ["investorId"; "updates"]) ;;
     investorId <- lift (get_prop args "investorId") ;;
     updates <- lift (get_prop args "updates") ;;
     if not_nonempty_string investorId then
       ret (text_result "Error: investorId must be a non-empty string" true)
     else if falsy_or_not_object updates then
       ret (text_result "Error: updates must be an object" true)
     else
       sanitizedInvestorId <- lift (sanitizeString investorId) ;;
       sanitizedUpdates <- lift (sanitizeObject updates) ;;
       data <- client_patch ("/investor/" ++ sanitizedInvestorId) sanitizedUpdates ;;
       ret (text_result (pretty data) false))
    (fun error =>
       ret (text_result ("Error updating investor: " ++ error_message error) true)).

Definition deleteInvestor (args : value) : M ToolResult :=
  try_catch
    (_ <- lift (validateRequiredArgs args ["investorId"]) ;;
     investorId <- lift (get_prop args "investorId") ;;
     if not_nonempty_string investorId then
       ret (text_result "Error: investorId must be a non-empty string" true)
     else
       sanitizedInvestorId <- lift (sanitizeString investorId) ;;
       data <- client_delete ("/investor/" ++ sanitizedInvestorId) ;;
       ret (text_result (pretty data) false))
    (fun error =>
       ret (text_result ("Error deleting investor: " ++ error_message error) true)).

Definition connectInvestors (args : value) : M ToolResult :=
  try_catch
    (_ <- lift (validateRequiredArgs args ["investorId"; "connectToInvestorId"]) ;;
     investorId <- lift (get_prop args "investorId") ;;
     connectToInvestorId <- lift (get_prop args "connectToInvestorId") ;;
     if not_nonempty_string investorId || not_nonempty_string connectToInvestorId then
       ret (text_result "Error: investorId and connectToInvestorId must be non-empty strings" true)
     else
       sanitizedInvestorId <- lift (sanitizeString investorId) ;;
       sanitizedConnectToInvestorId <- lift (sanitizeString connectToInvestorId) ;;
       data <- client_put ("/investor/" ++ sanitizedInvestorId ++ "/connect/" ++ sanitizedConnectToInvestorId) (VObj []) ;;
       ret (text_result (pretty data) false))
    (fun error =>
       ret (text_result ("Error connecting investors: " ++ error_message error) true)).

Definition disconnectInvestors (args : value) : M ToolResult :=
  try_catch
    (_ <- lift (validateRequiredArgs args ["investorId"; "disconnectFromInvestorId"]) ;;
     investorId <- lift (get_prop args "investorId") ;;
     disconnectFromInvestorId <- lift (get_prop args "disconnectFromInvestorId") ;;
     if not_nonempty_string investorId || not_nonempty_string disconnectFromInvestorId then
       ret (text_result "Error: investorId and disconnectFromInvestorId must be non-empty strings" true)
     else
       sanitizedInvestorId <- lift (sanitizeString investorId) ;;
       sanitizedDisconnectFromInvestorId <- lift (sanitizeString disconnectFromInvestorId) ;;
       data <- client_delete ("/investor/" ++ sanitizedInvestorId ++ "/connect/" ++ sanitizedDisconnectFromInvestorId) ;;
       ret (text_result (pretty data) false))
    (fun error =>
       ret (text_result ("Error disconnecting investors: " ++ error_message error) true)).

End Module_tools.

(** The keys of the [toolHandlers] object. *)
Inductive tool : Type :=
| T_getLoan
| T_listLoans
| T_updateLoan
| T_createLoan
| T_getLoanLedger
| T_getTask
| T_listTasks
| T_createTask
| T_updateTask
| T_deleteTask
| T_createBorrower
| T_listBorrowers
| T_getBorrower
| T_updateBorrower
| T_deleteBorrower
| T_connectBorrowers
| T_disconnectBorrowers
| T_createVendor
| T_listVendors
| T_getVendor
| T_updateVendor
| T_deleteVendor
| T_connectVendors
| T_disconnectVendors
| T_createInvestor
| T_listInvestors
| T_getInvestor
| T_updateInvestor
| T_deleteInvestor
| T_connectInvestors
| T_disconnectInvestors.

(** [toolHandlers[name](args)]. *)
Definition toolHandlers (rt : runtime) (st : config) (name : tool) (args : value)
  : M ToolResult :=
  match name with
  | T_getLoan => getLoan rt st args
  | T_listLoans => listLoans rt st args
  | T_updateLoan => updateLoan rt st args
  | T_createLoan => createLoan rt st args
  | T_getLoanLedger => getLoanLedger rt st args
  | T_getTask => getTask rt st args
  | T_listTasks => listTasks rt st args
  | T_createTask => createTask rt st args
  | T_updateTask => updateTask rt st args
  | T_deleteTask => deleteTask rt st args
  | T_createBorrower => createBorrower rt st args
  | T_listBorrowers => listBorrowers rt st args
  | T_getBorrower => getBorrower rt st args
  | T_updateBorrower => updateBorrower rt st args
  | T_deleteBorrower => deleteBorrower rt st args
  | T_connectBorrowers => connectBorrowers rt st args
  | T_disconnectBorrowers => disconnectBorrowers rt st args
  | T_createVendor => createVendor rt st args
  | T_listVendors => listVendors rt st args
  | T_getVendor => getVendor rt st args
  | T_updateVendor => updateVendor rt st args
  | T_deleteVendor => deleteVendor rt st args
  | T_connectVendors => connectVendors rt st args
  | T_disconnectVendors => disconnectVendors rt st args
  | T_createInvestor => createInvestor rt st args
  | T_listInvestors => listInvestors rt st args
  | T_getInvestor => getInvestor rt st args
  | T_updateInvestor => updateInvestor rt st args
  | T_deleteInvestor => deleteInvestor rt st args
  | T_connectInvestors => connectInvestors rt st args
  | T_disconnectInvestors => disconnectInvestors rt st args
  end.

(** ** What the table says about each handler

    Read off the handler bodies: the phrase of the [catch] block, the
    fields handed to [validateRequiredArgs], those tested as identifiers,
    and the one tested as an object. *)

Definition doing (name : tool) : string :=
  match name with
  | T_getLoan => "retrieving loan"
  | T_listLoans => "listing loans"
  | T_updateLoan => "updating loan"
  | T_createLoan => "creating loan"
  | T_getLoanLedger => "retrieving loan ledger"
  | T_getTask => "retrieving task"
  | T_listTasks => "listing tasks"
  | T_createTask => "creating task"
  | T_updateTask => "updating task"
  | T_deleteTask => "deleting task"
  | T_createBorrower => "creating borrower"
  | T_listBorrowers => "listing borrowers"
  | T_getBorrower => "retrieving borrower"
  | T_updateBorrower => "updating borrower"
  | T_deleteBorrower => "deleting borrower"
  | T_connectBorrowers => "connecting borrowers"
  | T_disconnectBorrowers => "disconnecting borrowers"
  | T_createVendor => "creating vendor"
  | T_listVendors => "listing vendors"
  | T_getVendor => "retrieving vendor"
  | T_updateVendor => "updating vendor"
  | T_deleteVendor => "deleting vendor"
  | T_connectVendors => "connecting vendors"
  | T_disconnectVendors => "disconnecting vendors"
  | T_createInvestor => "creating investor"
  | T_listInvestors => "listing investors"
  | T_getInvestor => "retrieving investor"
  | T_updateInvestor => "updating investor"
  | T_deleteInvestor => "deleting investor"
  | T_connectInvestors => "connecting investors"
  | T_disconnectInvestors => "disconnecting investors"
  end.

Definition required (name : tool) : list string :=
  match name with
  | T_getLoan => ["loanId"]
  | T_listLoans => []
  | T_updateLoan => ["loanId"; "updates"]
  | T_createLoan => ["loanData"]
  | T_getLoanLedger => ["loanId"]
  | T_getTask => ["taskId"]
  | T_listTasks => []
  | T_createTask => ["Name"]
  | T_updateTask => ["taskId"; "updates"]
  | T_deleteTask => ["taskId"]
  | T_createBorrower => ["borrowerData"]
  | T_listBorrowers => []
  | T_getBorrower => ["borrowerId"]
  | T_updateBorrower => ["borrowerId"; "updates"]
  | T_deleteBorrower => ["borrowerId"]
  | T_connectBorrowers => ["borrowerId"; "connectToBorrowerId"]
  | T_disconnectBorrowers => ["borrowerId"; "disconnectFromBorrowerId"]
  | T_createVendor => ["vendorData"]
  | T_listVendors => []
  | T_getVendor => ["vendorId"]
  | T_updateVendor => ["vendorId"; "updates"]
  | T_deleteVendor => ["vendorId"]
  | T_connectVendors => ["vendorId"; "connectToVendorId"]
  | T_disconnectVendors => ["vendorId"; "disconnectFromVendorId"]
  | T_createInvestor => ["investorData"]
  | T_listInvestors => []
  | T_getInvestor => ["investorId"]
  | T_updateInvestor => ["investorId"; "updates"]
  | T_deleteInvestor => ["investorId"]
  | T_connectInvestors => ["investorId"; "connectToInvestorId"]
  | T_disconnectInvestors => ["investorId"; "disconnectFromInvestorId"]
  end.

Definition identifier_fields (name : tool) : list string :=
  match name with
  | T_getLoan => ["loanId"]
  | T_listLoans => []
  | T_updateLoan => ["loanId"]
  | T_createLoan => []
  | T_getLoanLedger => ["loanId"]
  | T_getTask => ["taskId"]
  | T_listTasks => []
  | T_createTask => []
  | T_updateTask => ["taskId"]
  | T_deleteTask => ["taskId"]
  | T_createBorrower => []
  | T_listBorrowers => []
  | T_getBorrower => ["borrowerId"]
  | T_updateBorrower => ["borrowerId"]
  | T_deleteBorrower => ["borrowerId"]
  | T_connectBorrowers => ["borrowerId"; "connectToBorrowerId"]
  | T_disconnectBorrowers => ["borrowerId"; "disconnectFromBorrowerId"]
  | T_createVendor => []
  | T_listVendors => []
  | T_getVendor => ["vendorId"]
  | T_updateVendor => ["vendorId"]
  | T_deleteVendor => ["vendorId"]
  | T_connectVendors => ["vendorId"; "connectToVendorId"]
  | T_disconnectVendors => ["vendorId"; "disconnectFromVendorId"]
  | T_createInvestor => []
  | T_listInvestors => []
  | T_getInvestor => ["investorId"]
  | T_updateInvestor => ["investorId"]
  | T_deleteInvestor => ["investorId"]
  | T_connectInvestors => ["investorId"; "connectToInvestorId"]
  | T_disconnectInvestors => ["investorId"; "disconnectFromInvestorId"]
  end.

Definition object_field (name : tool) : option string :=
  match name with
  | T_getLoan => None
  | T_listLoans => None
  | T_updateLoan => Some "updates"
  | T_createLoan => Some "loanData"
  | T_getLoanLedger => None
  | T_getTask => None
  | T_listTasks => None
  | T_createTask => None
  | T_updateTask => Some "updates"
  | T_deleteTask => None
  | T_createBorrower => Some "borrowerData"
  | T_listBorrowers => None
  | T_getBorrower => None
  | T_updateBorrower => Some "updates"
  | T_deleteBorrower => None
  | T_connectBorrowers => None
  | T_disconnectBorrowers => None
  | T_createVendor => Some "vendorData"
  | T_listVendors => None
  | T_getVendor => None
  | T_updateVendor => Some "updates"
  | T_deleteVendor => None
  | T_connectVendors => None
  | T_disconnectVendors => None
  | T_createInvestor => Some "investorData"
  | T_listInvestors => None
  | T_getInvestor => None
  | T_updateInvestor => Some "updates"
  | T_deleteInvestor => None
  | T_connectInvestors => None
  | T_disconnectInvestors => None
  end.

(* ===================================================================== *)
(** * Schemas: the part of zod the module builds and reads *)
(* ===================================================================== *)

(** A zod schema as the module builds it with [z.string()], [z.number()],
    [z.boolean()], [z.enum([...])], [z.array(...)], [z.object({...})],
    [.optional()] and [.describe(...)].  Each node carries the
    [description] of its [_def]: [.describe(d)] sets it, [.optional()]
    wraps the node and copies the description the node has at that
    point. *)
Inductive zod : Type :=
| ZodString (description : option string)
| ZodNumber (description : option string)
| ZodBoolean (description : option string)
| ZodEnum (values : list string) (description : option string)
| ZodArray (element : zod) (description : option string)
| ZodObject (shape : list (string * zod)) (description : option string)
| ZodOptional (innerType : zod) (description : option string).

(** [schema._def.typeName]. *)
Definition typeName (schema : zod) : string :=
  match schema with
  | ZodString _ => "ZodString"
  | ZodNumber _ => "ZodNumber"
  | ZodBoolean _ => "ZodBoolean"
  | ZodEnum _ _ => "ZodEnum"
  | ZodArray _ _ => "ZodArray"
  | ZodObject _ _ => "ZodObject"
  | ZodOptional _ _ => "ZodOptional"
  end.

(** [schema._def.description]. *)
Definition zod_description (schema : zod) : option string :=
  match schema with
  | ZodString d | ZodNumber d | ZodBoolean d | ZodEnum _ d | ZodArray _ d
  | ZodObject _ d | ZodOptional _ d => d
  end.

(** [inputSchema.shape] and [inputSchema._def.shape()] of an object
    schema. *)
Definition shape_of (schema : zod) : list (string * zod) :=
  match schema with
  | ZodObject shape _ => shape
  | _ => []
  end.

(** [{ type: "object", properties: {}, required: [] }]. *)
Definition json_schema (properties : list (string * value)) (required : list value)
  : value :=
  VObj [("type", VStr "object");
        ("properties", VObj properties);
        ("required", VArr required)].

(** [{ type: ty, description: description }]. *)
Definition json_property (ty description : string) : value :=
  VObj [("type", VStr ty); ("description", VStr description)].

(** The loop of [convertZodSchemaToJsonSchema] over
    [Object.entries(shape)]: [properties] and [required] are
    [jsonSchema.properties] and [jsonSchema.required] as built so far.
    The entries of a shape are schemas, so the guard [schema && typeof
    schema === 'object' && '_def' in schema] holds for each. *)
Fixpoint convert_entries (entries : list (string * zod))
         (properties : list (string * value)) (required : list value)
  : list (string * value) * list value :=
  match entries with
  | [] => (properties, required)
  | (key, zodSchema) :: rest =>
      let description :=
        match zod_description zodSchema with
        | Some d => if truthy (VStr d) then d else key
        | None => key
        end in
      match zodSchema with
      | ZodString _ =>
          convert_entries rest
            (set_prop properties key (json_property "string" description))
            (required ++ [VStr key])
      | ZodNumber _ =>
          convert_entries rest
            (set_prop properties key (json_property "number" description))
            (required ++ [VStr key])
      | ZodBoolean _ =>
          convert_entries rest
            (set_prop properties key (json_property "boolean" description))
            (required ++ [VStr key])
      | ZodOptional innerSchema _ =>
          match innerSchema with
          | ZodString _ =>
              convert_entries rest
                (set_prop properties key (json_property "string" description))
                required
          | ZodNumber _ =>
              convert_entries rest
                (set_prop properties key (json_property "number" description))
                required
          | ZodBoolean _ =>
              convert_entries rest
                (set_prop properties key (json_property "boolean" description))
                required
          | ZodObject _ _ =>
              convert_entries rest
                (set_prop properties key (json_property "object" description))
                required
          | _ => convert_entries rest properties required
          end
      | ZodObject _ _ =>
          convert_entries rest
            (set_prop properties key (json_property "object" description))
            (required ++ [VStr key])
      | _ => convert_entries rest properties required
      end
  end.

(** [convertZodSchemaToJsonSchema(inputSchema)]; [None] stands for an
    argument that is falsy or has no [_def]. *)
Definition convertZodSchemaToJsonSchema (inputSchema : option zod) : value :=
  match inputSchema with
  | None => json_schema [] []
  | Some schema =>
      if (typeName schema =? "ZodObject")%string then
        let (properties, required) := convert_entries (shape_of schema) [] [] in
        json_schema properties required
      else json_schema [] []
  end.

(* ===================================================================== *)
(** * Tool definitions *)
(* ===================================================================== *)

(** The four hints of [annotations].  The [title] and the documentation
    link beside them, and the [description] of a definition, are texts
    that no function of the module reads; they are left out. *)
Record annotations : Type := mkAnnotations {
  readOnlyHint : bool;
  destructiveHint : bool;
  idempotentHint : bool;
  openWorldHint : bool
}.

Record tool_definition : Type := mkToolDefinition {
  tool_name : string;
  tool_inputSchema : zod;
  tool_annotations : annotations
}.

Definition def_getLoan : tool_definition :=
  mkToolDefinition "getLoan"
    (ZodObject
      [
        ("loanId", ZodString (Some "The numerical ID of the loan to retrieve")) ]
      None)
    (mkAnnotations true false true false).

Definition def_listLoans : tool_definition :=
  mkToolDefinition "listLoans"
    (ZodObject [] None)
    (mkAnnotations true false true false).

Definition def_updateLoan : tool_definition :=
  mkToolDefinition "updateLoan"
    (ZodObject
      [
        ("loanId", ZodString (Some "The numerical ID of the loan to update"));
        ("updates", ZodObject
          [
            ("Name", ZodOptional (ZodString None) (Some "Property address or loan name"));
            ("Status", ZodOptional (ZodEnum ["lead"; "processing"; "underwriting"; "approved"; "closed"; "servicing"; "archived"] None) (Some "Loan workflow status"));
            ("Borrower_Name", ZodOptional (ZodString None) (Some "Primary borrower's name"));
            ("Borrower_Email", ZodOptional (ZodString None) (Some "Primary borrower's email address"));
            ("Address_Street1", ZodOptional (ZodString None) (Some "Property street address"));
            ("Address_City", ZodOptional (ZodString None) (Some "Property city"));
            ("Address_State", ZodOptional (ZodString None) (Some "Property state"));
            ("Address_Zipcode", ZodOptional (ZodString None) (Some "Property ZIP code"));
            ("Loan_Amount", ZodOptional (ZodNumber None) (Some "Loan amount in dollars"));
            ("Rate", ZodOptional (ZodNumber None) (Some "Interest rate as decimal (e.g., 0.065 for 6.5%)"));
            ("Origination", ZodOptional (ZodString None) (Some "Loan origination date (YYYY-MM-DD)"));
            ("Maturity", ZodOptional (ZodString None) (Some "Loan maturity date (YYYY-MM-DD)")) ]
          (Some "The specific loan fields to update based on available API fields")) ]
      None)
    (mkAnnotations false false false false).

Definition def_createLoan : tool_definition :=
  mkToolDefinition "createLoan"
    (ZodObject
      [
        ("Id", ZodOptional (ZodString None) (Some "(Optional) If not set, an ID will be generated automatically"));
        ("Name", ZodOptional (ZodString None) (Some "Property address or loan name"));
        ("Status", ZodOptional (ZodEnum ["lead"; "processing"; "underwriting"; "approved"; "closed"; "servicing"; "archived"] None) (Some "Loan workflow status (default: servicing)"));
        ("Borrower_Name", ZodOptional (ZodString None) (Some "Primary borrower's name"));
        ("Borrower_Email", ZodOptional (ZodString None) (Some "Primary borrower's email address - if borrower exists, will be attached to loan"));
        ("Borrower_Id", ZodOptional (ZodString None) (Some "Primary borrower's ID - if borrower exists, will be attached to loan"));
        ("Address_Street1", ZodOptional (ZodString None) (Some "Property street address"));
        ("Address_City", ZodOptional (ZodString None) (Some "Property city"));
        ("Address_State", ZodOptional (ZodString None) (Some "Property state"));
        ("Address_Zipcode", ZodOptional (ZodString None) (Some "Property ZIP code"));
        ("Loan_Amount", ZodOptional (ZodNumber None) (Some "Loan amount in dollars"));
        ("Rate", ZodOptional (ZodNumber None) (Some "Interest rate as decimal (e.g., 0.065 for 6.5%)"));
        ("Origination", ZodOptional (ZodString None) (Some "Loan origination date (YYYY-MM-DD)"));
        ("Maturity", ZodOptional (ZodString None) (Some "Loan maturity date (YYYY-MM-DD)")) ]
      None)
    (mkAnnotations false false false false).

Definition def_getLoanLedger : tool_definition :=
  mkToolDefinition "getLoanLedger"
    (ZodObject
      [
        ("loanId", ZodString (Some "The numerical ID of the loan to retrieve the ledger for")) ]
      None)
    (mkAnnotations true false true false).

Definition def_getTask : tool_definition :=
  mkToolDefinition "getTask"
    (ZodObject
      [
        ("taskId", ZodString (Some "The numerical ID of the task to retrieve")) ]
      None)
    (mkAnnotations true false true false).

Definition def_listTasks : tool_definition :=
  mkToolDefinition "listTasks"
    (ZodObject
      [
        ("page", ZodOptional (ZodNumber None) (Some "Page number for pagination (default: 0)")) ]
      None)
    (mkAnnotations true false true false).

Definition def_createTask : tool_definition :=
  mkToolDefinition "createTask"
    (ZodObject
      [
        ("Name", ZodString (Some "Task title/name"));
        ("Description", ZodOptional (ZodString None) (Some "Task description"));
        ("Date_Due", ZodOptional (ZodString None) (Some "Due date in YYYY-MM-DD format"));
        ("Status", ZodOptional (ZodEnum ["To Do"; "In Progress"; "Done"; "Not Required"] None) (Some "Task status"));
        ("Loan_Id", ZodOptional (ZodString None) (Some "ID of a loan to be associated with"));
        ("Subtasks", ZodOptional (ZodArray
            (ZodObject
              [
                ("Name", ZodString (Some "Subtask name"));
                ("Done", ZodOptional (ZodBoolean None) (Some "Whether subtask is completed")) ]
              None)
            None) (Some "Array of subtask objects")) ]
      None)
    (mkAnnotations false false false false).

Definition def_updateTask : tool_definition :=
  mkToolDefinition "updateTask"
    (ZodObject
      [
        ("taskId", ZodString (Some "The numerical ID of the task to update"));
        ("updates", ZodObject
          [
            ("Name", ZodOptional (ZodString None) (Some "Task title/name"));
            ("Description", ZodOptional (ZodString None) (Some "Task description"));
            ("Date_Due", ZodOptional (ZodString None) (Some "Due date in YYYY-MM-DD format"));
            ("Status", ZodOptional (ZodEnum ["To Do"; "In Progress"; "Done"; "Not Required"] None) (Some "Task status"));
            ("Loan_Id", ZodOptional (ZodString None) (Some "ID of a loan to be associated with"));
            ("Subtasks", ZodOptional (ZodArray
                (ZodObject
                  [
                    ("Name", ZodString (Some "Subtask name"));
                    ("Done", ZodOptional (ZodBoolean None) (Some "Whether subtask is completed")) ]
                  None)
                None) (Some "Array of subtask objects")) ]
          (Some "The specific task fields to update")) ]
      None)
    (mkAnnotations false false false false).

Definition def_deleteTask : tool_definition :=
  mkToolDefinition "deleteTask"
    (ZodObject
      [
        ("taskId", ZodString (Some "The numerical ID of the task to delete")) ]
      None)
    (mkAnnotations false true true false).

Definition def_createBorrower : tool_definition :=
  mkToolDefinition "createBorrower"
    (ZodObject
      [
        ("borrowerData", ZodObject
          [
            ("Name", ZodOptional (ZodString None) None);
            ("First_Name", ZodOptional (ZodString None) None);
            ("Last_Name", ZodOptional (ZodString None) None);
            ("Phone", ZodOptional (ZodString None) None);
            ("Email", ZodOptional (ZodString None) None);
            ("Date_Birth", ZodOptional (ZodString None) (Some "YYYY-MM-DD"));
            ("Is_Company", ZodOptional (ZodBoolean None) None);
            ("Address_Street1", ZodOptional (ZodString None) None);
            ("Address_Street2", ZodOptional (ZodString None) None);
            ("Address_City", ZodOptional (ZodString None) None);
            ("Address_State", ZodOptional (ZodString None) None);
            ("Address_Country", ZodOptional (ZodString None) None) ]
          (Some "Data for the new borrower.")) ]
      None)
    (mkAnnotations false false false false).

Definition def_listBorrowers : tool_definition :=
  mkToolDefinition "listBorrowers"
    (ZodObject
      [
        ("page", ZodOptional (ZodNumber None) (Some "Page number for pagination (default: 0)")) ]
      None)
    (mkAnnotations true false true false).

Definition def_getBorrower : tool_definition :=
  mkToolDefinition "getBorrower"
    (ZodObject
      [
        ("borrowerId", ZodString (Some "The ID of the borrower to retrieve.")) ]
      None)
    (mkAnnotations true false true false).

Definition def_updateBorrower : tool_definition :=
  mkToolDefinition "updateBorrower"
    (ZodObject
      [
        ("borrowerId", ZodString (Some "The ID of the borrower to update."));
        ("updates", ZodObject
          [
            ("Name", ZodOptional (ZodString None) None);
            ("First_Name", ZodOptional (ZodString None) None);
            ("Last_Name", ZodOptional (ZodString None) None);
            ("Phone", ZodOptional (ZodString None) None);
            ("Date_Birth", ZodOptional (ZodString None) (Some "YYYY-MM-DD"));
            ("Is_Company", ZodOptional (ZodBoolean None) None);
            ("Address_Street1", ZodOptional (ZodString None) None);
            ("Address_Street2", ZodOptional (ZodString None) None);
            ("Address_City", ZodOptional (ZodString None) None);
            ("Address_State", ZodOptional (ZodString None) None);
            ("Address_Country", ZodOptional (ZodString None) None) ]
          (Some "The fields to update for the borrower.")) ]
      None)
    (mkAnnotations false false false false).

Definition def_deleteBorrower : tool_definition :=
  mkToolDefinition "deleteBorrower"
    (ZodObject
      [
        ("borrowerId", ZodString (Some "The ID of the borrower to delete.")) ]
      None)
    (mkAnnotations false true true false).

Definition def_connectBorrowers : tool_definition :=
  mkToolDefinition "connectBorrowers"
    (ZodObject
      [
        ("borrowerId", ZodString (Some "The ID of the first borrower."));
        ("connectToBorrowerId", ZodString (Some "The ID of the borrower to connect to.")) ]
      None)
    (mkAnnotations false false false false).

Definition def_disconnectBorrowers : tool_definition :=
  mkToolDefinition "disconnectBorrowers"
    (ZodObject
      [
        ("borrowerId", ZodString (Some "The ID of the first borrower."));
        ("disconnectFromBorrowerId", ZodString (Some "The ID of the borrower to disconnect from.")) ]
      None)
    (mkAnnotations false false false false).

Definition def_createVendor : tool_definition :=
  mkToolDefinition "createVendor"
    (ZodObject
      [
        ("vendorData", ZodObject
          [
            ("Name", ZodOptional (ZodString None) None);
            ("First_Name", ZodOptional (ZodString None) None);
            ("Last_Name", ZodOptional (ZodString None) None);
            ("Phone", ZodOptional (ZodString None) None);
            ("Email", ZodOptional (ZodString None) None);
            ("Date_Birth", ZodOptional (ZodString None) (Some "YYYY-MM-DD"));
            ("Is_Company", ZodOptional (ZodBoolean None) None);
            ("Address_Street1", ZodOptional (ZodString None) None);
            ("Address_Street2", ZodOptional (ZodString None) None);
            ("Address_City", ZodOptional (ZodString None) None);
            ("Address_State", ZodOptional (ZodString None) None);
            ("Address_Country", ZodOptional (ZodString None) None) ]
          (Some "Data for the new vendor.")) ]
      None)
    (mkAnnotations false false false false).

Definition def_listVendors : tool_definition :=
  mkToolDefinition "listVendors"
    (ZodObject
      [
        ("page", ZodOptional (ZodNumber None) (Some "Page number for pagination (default: 0)")) ]
      None)
    (mkAnnotations true false true false).

Definition def_getVendor : tool_definition :=
  mkToolDefinition "getVendor"
    (ZodObject
      [
        ("vendorId", ZodString (Some "The ID of the vendor to retrieve.")) ]
      None)
    (mkAnnotations true false true false).

Definition def_updateVendor : tool_definition :=
  mkToolDefinition "updateVendor"
    (ZodObject
      [
        ("vendorId", ZodString (Some "The ID of the vendor to update."));
        ("updates", ZodObject
          [
            ("Name", ZodOptional (ZodString None) None);
            ("First_Name", ZodOptional (ZodString None) None);
            ("Last_Name", ZodOptional (ZodString None) None);
            ("Phone", ZodOptional (ZodString None) None);
            ("Date_Birth", ZodOptional (ZodString None) (Some "YYYY-MM-DD"));
            ("Is_Company", ZodOptional (ZodBoolean None) None);
            ("Address_Street1", ZodOptional (ZodString None) None);
            ("Address_Street2", ZodOptional (ZodString None) None);
            ("Address_City", ZodOptional (ZodString None) None);
            ("Address_State", ZodOptional (ZodString None) None);
            ("Address_Country", ZodOptional (ZodString None) None) ]
          (Some "The fields to update for the vendor.")) ]
      None)
    (mkAnnotations false false false false).

Definition def_deleteVendor : tool_definition :=
  mkToolDefinition "deleteVendor"
    (ZodObject
      [
        ("vendorId", ZodString (Some "The ID of the vendor to delete.")) ]
      None)
    (mkAnnotations false true true false).

Definition def_connectVendors : tool_definition :=
  mkToolDefinition "connectVendors"
    (ZodObject
      [
        ("vendorId", ZodString (Some "The ID of the first vendor."));
        ("connectToVendorId", ZodString (Some "The ID of the vendor to connect to.")) ]
      None)
    (mkAnnotations false false false false).

Definition def_disconnectVendors : tool_definition :=
  mkToolDefinition "disconnectVendors"
    (ZodObject
      [
        ("vendorId", ZodString (Some "The ID of the first vendor."));
        ("disconnectFromVendorId", ZodString (Some "The ID of the vendor to disconnect from.")) ]
      None)
    (mkAnnotations false false false false).

Definition def_createInvestor : tool_definition :=
  mkToolDefinition "createInvestor"
    (ZodObject
      [
        ("investorData", ZodObject
          [
            ("Name", ZodOptional (ZodString None) None);
            ("First_Name", ZodOptional (ZodString None) None);
            ("Last_Name", ZodOptional (ZodString None) None);
            ("Phone", ZodOptional (ZodString None) None);
            ("Email", ZodOptional (ZodString None) None);
            ("Date_Birth", ZodOptional (ZodString None) (Some "YYYY-MM-DD"));
            ("Is_Company", ZodOptional (ZodBoolean None) None);
            ("Address_Street1", ZodOptional (ZodString None) None);
            ("Address_Street2", ZodOptional (ZodString None) None);
            ("Address_City", ZodOptional (ZodString None) None);
            ("Address_State", ZodOptional (ZodString None) None);
            ("Address_Country", ZodOptional (ZodString None) None) ]
          (Some "Data for the new investor.")) ]
      None)
    (mkAnnotations false false false false).

Definition def_listInvestors : tool_definition :=
  mkToolDefinition "listInvestors"
    (ZodObject
      [
        ("page", ZodOptional (ZodNumber None) (Some "Page number for pagination (default: 0)")) ]
      None)
    (mkAnnotations true false true false).

Definition def_getInvestor : tool_definition :=
  mkToolDefinition "getInvestor"
    (ZodObject
      [
        ("investorId", ZodString (Some "The ID of the investor to retrieve.")) ]
      None)
    (mkAnnotations true false true false).

Definition def_updateInvestor : tool_definition :=
  mkToolDefinition "updateInvestor"
    (ZodObject
      [
        ("investorId", ZodString (Some "The ID of the investor to update."));
        ("updates", ZodObject
          [
            ("Name", ZodOptional (ZodString None) None);
            ("First_Name", ZodOptional (ZodString None) None);
            ("Last_Name", ZodOptional (ZodString None) None);
            ("Phone", ZodOptional (ZodString None) None);
            ("Date_Birth", ZodOptional (ZodString None) (Some "YYYY-MM-DD"));
            ("Is_Company", ZodOptional (ZodBoolean None) None);
            ("Address_Street1", ZodOptional (ZodString None) None);
            ("Address_Street2", ZodOptional (ZodString None) None);
            ("Address_City", ZodOptional (ZodString None) None);
            ("Address_State", ZodOptional (ZodString None) None);
            ("Address_Country", ZodOptional (ZodString None) None) ]
          (Some "The fields to update for the investor.")) ]
      None)
    (mkAnnotations false false false false).

Definition def_deleteInvestor : tool_definition :=
  mkToolDefinition "deleteInvestor"
    (ZodObject
      [
        ("investorId", ZodString (Some "The ID of the investor to delete.")) ]
      None)
    (mkAnnotations false true true false).

Definition def_connectInvestors : tool_definition :=
  mkToolDefinition "connectInvestors"
    (ZodObject
      [
        ("investorId", ZodString (Some "The ID of the first investor."));
        ("connectToInvestorId", ZodString (Some "The ID of the investor to connect to.")) ]
      None)
    (mkAnnotations false false false false).

Definition def_disconnectInvestors : tool_definition :=
  mkToolDefinition "disconnectInvestors"
    (ZodObject
      [
        ("investorId", ZodString (Some "The ID of the first investor."));
        ("disconnectFromInvestorId", ZodString (Some "The ID of the investor to disconnect from.")) ]
      None)
    (mkAnnotations false false false false).

Definition toolDefinitions : list tool_definition :=
  [ def_getLoan;
    def_listLoans;
    def_updateLoan;
    def_createLoan;
    def_getLoanLedger;
    def_getTask;
    def_listTasks;
    def_createTask;
    def_updateTask;
    def_deleteTask;
    def_createBorrower;
    def_listBorrowers;
    def_getBorrower;
    def_updateBorrower;
    def_deleteBorrower;
    def_connectBorrowers;
    def_disconnectBorrowers;
    def_createVendor;
    def_listVendors;
    def_getVendor;
    def_updateVendor;
    def_deleteVendor;
    def_connectVendors;
    def_disconnectVendors;
    def_createInvestor;
    def_listInvestors;
    def_getInvestor;
    def_updateInvestor;
    def_deleteInvestor;
    def_connectInvestors;
    def_disconnectInvestors ].

(* ===================================================================== *)
(** * The worker: [init] of the agent *)
(* ===================================================================== *)

(** The keys of the [toolHandlers] object, in source order, each with the
    handler it names. *)
Definition tool_names : list (string * tool) :=
  [ ("getLoan", T_getLoan);
    ("listLoans", T_listLoans);
    ("updateLoan", T_updateLoan);
    ("createLoan", T_createLoan);
    ("getLoanLedger", T_getLoanLedger);
    ("getTask", T_getTask);
    ("listTasks", T_listTasks);
    ("createTask", T_createTask);
    ("updateTask", T_updateTask);
    ("deleteTask", T_deleteTask);
    ("createBorrower", T_createBorrower);
    ("listBorrowers", T_listBorrowers);
    ("getBorrower", T_getBorrower);
    ("updateBorrower", T_updateBorrower);
    ("deleteBorrower", T_deleteBorrower);
    ("connectBorrowers", T_connectBorrowers);
    ("disconnectBorrowers", T_disconnectBorrowers);
    ("createVendor", T_createVendor);
    ("listVendors", T_listVendors);
    ("getVendor", T_getVendor);
    ("updateVendor", T_updateVendor);
    ("deleteVendor", T_deleteVendor);
    ("connectVendors", T_connectVendors);
    ("disconnectVendors", T_disconnectVendors);
    ("createInvestor", T_createInvestor);
    ("listInvestors", T_listInvestors);
    ("getInvestor", T_getInvestor);
    ("updateInvestor", T_updateInvestor);
    ("deleteInvestor", T_deleteInvestor);
    ("connectInvestors", T_connectInvestors);
    ("disconnectInvestors", T_disconnectInvestors) ].

(** [(toolHandlers as any)[name]], for a name that is no property of
    [Object.prototype]: the handler, or [None] for [undefined]. *)
Definition handler_named (name : string) : option tool :=
  match find (fun p => (fst p =? name)%string) tool_names with
  | Some p => Some (snd p)
  | None => None
  end.

(** What [this.server.tool(name, description, shape, callback)] is given:
    the name, the shape, and the handler the callback forwards to. *)
Record registration : Type := mkRegistration {
  reg_name : string;
  reg_shape : list (string * zod);
  reg_handler : tool
}.

(** The loop of [init] over [toolDefinitions]. *)
Fixpoint register_tools (definitions : list tool_definition) : list registration :=
  match definitions with
  | [] => []
  | tool :: rest =>
      match handler_named (tool_name tool) with
      | Some handler =>
          mkRegistration (tool_name tool) (shape_of (tool_inputSchema tool)) handler
          :: register_tools rest
      | None => register_tools rest
      end
  end.

(** [init()]: [env_key] is [this.env?.BASELINE_API_KEY], [None] when the
    binding is absent.  The result is the state of the module afterwards
    and the tools registered with the server, in order. *)
Definition init (env_key : option string) (st : config)
  : E (config * list registration) :=
  let apiKey :=
    match env_key with
    | Some k => if truthy (VStr k) then k else ""
    | None => ""
    end in
  if negb (truthy (VStr apiKey)) then
    inl (ErrorObj "BASELINE_API_KEY environment variable is required")
  else
    inr (setBaselineApiKey (Some apiKey) st, register_tools toolDefinitions).

(* ===================================================================== *)
(** * Descriptions on the side of the specification *)
(* ===================================================================== *)

(** A string made of white space only; the empty string is one. *)
Fixpoint whitespace_only (s : string) : bool :=
  match s with
  | EmptyString => true
  | String c rest => isWhiteSpace c && whitespace_only rest
  end.

Fixpoint drop_ws (l : list ascii) : list ascii :=
  match l with
  | [] => []
  | c :: rest => if isWhiteSpace c then drop_ws rest else l
  end.

(** [sanitizeText] as the specification words it: trim the surrounding
    white space, remove every occurrence of the five characters, keep at
    most 1000 characters. *)
Definition sanitizeText_spec (s : string) : string :=
  let trimmed := rev (drop_ws (rev (drop_ws (list_ascii_of_string s)))) in
  let stripped :=
    filter (fun c => negb (existsb (Ascii.eqb c) ["<"; ">"; "034"; "'"; "&"]%char))
           trimmed in
  string_of_list_ascii (firstn 1000 stripped).

(** [sanitizeStructure] as the specification words it: the same shape,
    every string leaf sanitised, every other leaf as it is. *)
Fixpoint sanitizeStructure_spec (v : value) : value :=
  match v with
  | VStr s => VStr (sanitizeText_spec s)
  | VArr elems => VArr (map sanitizeStructure_spec elems)
  | VObj props =>
      VObj (map (fun kv => (fst kv, sanitizeStructure_spec (snd kv))) props)
  | _ => v
  end.

(** The keys of every object inside [v] are pairwise distinct, as the own
    properties of an object are. *)
Fixpoint distinct_keys (v : value) : bool :=
  match v with
  | VArr elems => forallb distinct_keys elems
  | VObj props =>
      (fix go (l : list (string * value)) : bool :=
         match l with
         | [] => true
         | (k, x) :: rest =>
             negb (existsb (String.eqb k) (map fst rest))
             && distinct_keys x && go rest
         end) props
  | _ => true
  end.

(** No object inside [v] has an own property named [__proto__]. *)
Fixpoint no_proto_key (v : value) : bool :=
  match v with
  | VArr elems => forallb no_proto_key elems
  | VObj props =>
      (fix go (l : list (string * value)) : bool :=
         match l with
         | [] => true
         | (k, x) :: rest =>
             negb (k =? "__proto__")%string && no_proto_key x && go rest
         end) props
  | _ => true
  end.





(** A non-null object: a plain object or an array. *)
Definition is_plain_object (v : value) : bool :=
  js_type_eqb (typeof v) TObject && negb (is_null v).

(** A value that is neither an object nor [null] nor [undefined]. *)
Definition scalar (v : value) : bool :=
  match v with
  | VBool _ | VNum _ | VStr _ => true
  | _ => false
  end.

(** An argument that is there: neither [undefined] nor [null]. *)
Definition present (v : value) : bool := negb (is_undefined v || is_null v).

(** A field [validateRequiredArgs] reports: the bag is falsy, or the field
    reads as [undefined] or [null]. *)
Definition missing (args : value) (field : string) : bool :=
  negb (truthy args)
  || match get_prop args field with
     | inr v => negb (present v)
     | inl _ => true
     end.

(** A computation that sends nothing, and one that sends at most one
    request. *)
Definition sends_nothing {X : Type} (m : M X) : Prop := fst m = [].

Definition sends_at_most_one {X : Type} (m : M X) : Prop :=
  (List.length (fst m) <= 1)%nat.



(** The request [makeRequest] builds once the credential is resolved. *)
Definition request_for (rt : runtime) (st : config)
           (token method path : string) (body : value) : request :=
  mkRequest method (BASELINE_API_URL st ++ path)
    [ ("Authorization", "Token " ++ token);
      ("Content-Type", "application/json");
      ("Accept", "application/json") ]
    (if truthy body then Some (JSON_stringify rt None body) else None).

(** What [makeRequest] makes of the outcome of [fetch]. *)
Definition settle (rt : runtime) (outcome : E response) : E value :=
  match outcome with
  | inl t => inl t
  | inr response =>
      if negb (ok response) then
        match body_text response with
        | inl t => inl t
        | inr errorBody =>
            inl (ErrorObj ("API request failed: "
                           ++ Number_toString (status response) ++ " "
                           ++ statusText response ++ " - Body: " ++ errorBody))
        end
      else
        match body_text response with
        | inl t => inl t
        | inr responseText =>
            if truthy (VStr responseText)
            then JSON_parse rt responseText
            else inr (VObj [])
        end
  end.

(** The message of the error the client throws for the response [resp]
    with body text [b]. *)
Definition failure_message (resp : response) (b : string) : string :=
  "API request failed: " ++ Number_toString (status resp) ++ " "
  ++ statusText resp ++ " - Body: " ++ b.

(** Of a computation whose requests the upstream answers with [resp]:
    either nothing was sent, or the failure of the upstream was thrown. *)
Definition stopped_by_upstream (rt : runtime) (resp : response) (b : string)
           {X : Type} (m : M X) : Prop :=
  (forall req, In req (fst m) -> fetch rt req = inr resp) ->
  fst m = [] \/ snd m = inl (ErrorObj (failure_message resp b)).


(* ===================================================================== *)
(** * A canned engine for the examples *)
(* ===================================================================== *)

Definition dquote : string := String "034"%char EmptyString.

(** The text [{"apiKey":"abc"}]. *)
Definition json_apiKey_abc : string :=
  "{" ++ dquote ++ "apiKey" ++ dquote ++ ":" ++ dquote ++ "abc" ++ dquote ++ "}".

(** An engine that parses the one text above, renders every value as [{}]
    and reaches an upstream that answers every request with the given
    response. *)
Definition canned_runtime (answer : response) : runtime :=
  mkRuntime
    (fun s => if (s =? json_apiKey_abc)%string
              then inr (VObj [("apiKey", VStr "abc")])
              else inl (ErrorObj "Unexpected token"))
    (fun _ _ => "{}")
    (fun _ => inr answer)
    (fun _ => inr "[object Object]")
    (fun _ => inr "[object Object]").

Definition not_found : response := mkResponse 404 "Not Found" (inr "not found").
Definition no_content : response := mkResponse 204 "No Content" (inr "").

Definition plain_config : config := mkConfig "secret-token" "https://api.test".

(** The two loops of [sanitizeValue] on their own, to reason about them. *)
Fixpoint sanitize_elems (l : list value) : E (list value) :=
  match l with
  | [] => inr []
  | x :: rest =>
      y <-? sanitizeValue x ;;
      ys <-? sanitize_elems rest ;;
      inr (y :: ys)
  end.

Fixpoint sanitize_entries (entries sanitized : list (string * value))
  : E (list (string * value)) :=
  match entries with
  | [] => inr sanitized
  | (key, value) :: rest =>
      y <-? sanitizeValue value ;;
      sanitize_entries rest (set_prop sanitized key y)
  end.

(* ===================================================================== *)
(** * Further descriptions: requests, routes, sanitised values, schemas *)
(* ===================================================================== *)

(** The method of the one client call in each handler, and the resource
    its path starts with. *)
Definition method_of (name : tool) : string :=
  match name with
  | T_getLoan => "GET"
  | T_listLoans => "GET"
  | T_updateLoan => "PATCH"
  | T_createLoan => "POST"
  | T_getLoanLedger => "GET"
  | T_getTask => "GET"
  | T_listTasks => "GET"
  | T_createTask => "POST"
  | T_updateTask => "PATCH"
  | T_deleteTask => "DELETE"
  | T_createBorrower => "POST"
  | T_listBorrowers => "GET"
  | T_getBorrower => "GET"
  | T_updateBorrower => "PATCH"
  | T_deleteBorrower => "DELETE"
  | T_connectBorrowers => "PUT"
  | T_disconnectBorrowers => "DELETE"
  | T_createVendor => "POST"
  | T_listVendors => "GET"
  | T_getVendor => "GET"
  | T_updateVendor => "PATCH"
  | T_deleteVendor => "DELETE"
  | T_connectVendors => "PUT"
  | T_disconnectVendors => "DELETE"
  | T_createInvestor => "POST"
  | T_listInvestors => "GET"
  | T_getInvestor => "GET"
  | T_updateInvestor => "PATCH"
  | T_deleteInvestor => "DELETE"
  | T_connectInvestors => "PUT"
  | T_disconnectInvestors => "DELETE"
  end.

Definition root_of (name : tool) : string :=
  match name with
  | T_getLoan => "/loan"
  | T_listLoans => "/loan"
  | T_updateLoan => "/loan"
  | T_createLoan => "/loan"
  | T_getLoanLedger => "/loan"
  | T_getTask => "/task"
  | T_listTasks => "/task"
  | T_createTask => "/task"
  | T_updateTask => "/task"
  | T_deleteTask => "/task"
  | T_createBorrower => "/borrower"
  | T_listBorrowers => "/borrower"
  | T_getBorrower => "/borrower"
  | T_updateBorrower => "/borrower"
  | T_deleteBorrower => "/borrower"
  | T_connectBorrowers => "/borrower"
  | T_disconnectBorrowers => "/borrower"
  | T_createVendor => "/vendor"
  | T_listVendors => "/vendor"
  | T_getVendor => "/vendor"
  | T_updateVendor => "/vendor"
  | T_deleteVendor => "/vendor"
  | T_connectVendors => "/vendor"
  | T_disconnectVendors => "/vendor"
  | T_createInvestor => "/investor"
  | T_listInvestors => "/investor"
  | T_getInvestor => "/investor"
  | T_updateInvestor => "/investor"
  | T_deleteInvestor => "/investor"
  | T_connectInvestors => "/investor"
  | T_disconnectInvestors => "/investor"
  end.


(** The handlers that take one identifier and send no body: the method,
    the field of the identifier, and the path before and after it. *)
Definition identifier_route (name : tool)
  : option (string * string * string * string) :=
  match name with
  | T_getLoan => Some ("GET", "loanId", "/loan/", "")
  | T_getLoanLedger => Some ("GET", "loanId", "/loan/", "/transaction")
  | T_getTask => Some ("GET", "taskId", "/task/", "")
  | T_deleteTask => Some ("DELETE", "taskId", "/task/", "")
  | T_getBorrower => Some ("GET", "borrowerId", "/borrower/", "")
  | T_deleteBorrower => Some ("DELETE", "borrowerId", "/borrower/", "")
  | T_getVendor => Some ("GET", "vendorId", "/vendor/", "")
  | T_deleteVendor => Some ("DELETE", "vendorId", "/vendor/", "")
  | T_getInvestor => Some ("GET", "investorId", "/investor/", "")
  | T_deleteInvestor => Some ("DELETE", "investorId", "/investor/", "")
  | _ => None
  end.

(** The handlers that PATCH [updates]: the field of the identifier and the
    path before it. *)
Definition update_route (name : tool) : option (string * string) :=
  match name with
  | T_updateLoan => Some ("loanId", "/loan/")
  | T_updateTask => Some ("taskId", "/task/")
  | T_updateBorrower => Some ("borrowerId", "/borrower/")
  | T_updateVendor => Some ("vendorId", "/vendor/")
  | T_updateInvestor => Some ("investorId", "/investor/")
  | _ => None
  end.

(** The handlers that POST one object field: the field and the path. *)
Definition create_route (name : tool) : option (string * string) :=
  match name with
  | T_createLoan => Some ("loanData", "/loan")
  | T_createBorrower => Some ("borrowerData", "/borrower")
  | T_createVendor => Some ("vendorData", "/vendor")
  | T_createInvestor => Some ("investorData", "/investor")
  | _ => None
  end.

(** The handlers that connect and disconnect: the method, the two
    identifier fields, and the path before the first identifier. *)
Definition connect_route (name : tool)
  : option (string * string * string * string) :=
  match name with
  | T_connectBorrowers => Some ("PUT", "borrowerId", "connectToBorrowerId", "/borrower/")
  | T_disconnectBorrowers => Some ("DELETE", "borrowerId", "disconnectFromBorrowerId", "/borrower/")
  | T_connectVendors => Some ("PUT", "vendorId", "connectToVendorId", "/vendor/")
  | T_disconnectVendors => Some ("DELETE", "vendorId", "disconnectFromVendorId", "/vendor/")
  | T_connectInvestors => Some ("PUT", "investorId", "connectToInvestorId", "/investor/")
  | T_disconnectInvestors => Some ("DELETE", "investorId", "disconnectFromInvestorId", "/investor/")
  | _ => None
  end.

(** The three list handlers that do not test [page], with their path. *)
Definition unchecked_list_route (name : tool) : option string :=
  match name with
  | T_listBorrowers => Some "/borrower"
  | T_listVendors => Some "/vendor"
  | T_listInvestors => Some "/investor"
  | _ => None
  end.

(** How a handler renders what its client call settled to: the
    pretty-printed data, or the phrase of the [catch] block with the
    message of what was thrown. *)
Definition rendered (rt : runtime) (name : tool) (outcome : E value) : ToolResult :=
  match outcome with
  | inl error =>
      text_result ("Error " ++ doing name ++ ": " ++ error_message error) true
  | inr data => text_result (JSON_stringify rt (Some 2%nat) data) false
  end.

(** What stands between the client call and the rendering: [listLoans]
    post-processes the data, the other handlers pass it on. *)
Definition post_process (name : tool) (outcome : E value) : E value :=
  match name with
  | T_listLoans => bindE outcome loans_result
  | _ => outcome
  end.

(** Of the body of a handler, before its [catch]: it sent nothing, or it
    sent one request and settled as the client did on the answer. *)
Definition follows_upstream (rt : runtime) (m : M ToolResult) : Prop :=
  fst m = []
  \/ exists req,
       fst m = [req]
       /\ snd m = match settle rt (fetch rt req) with
                  | inl t => inl t
                  | inr data => inr (text_result (JSON_stringify rt (Some 2%nat) data) false)
                  end.

(** Every request a computation sent satisfies [P]. *)
Definition all_sent (P : request -> Prop) {X : Type} (m : M X) : Prop :=
  forall req, In req (fst m) -> P req.

(** A request as the handler [name] sends them: its method, a URL under
    the base URL and the resource of the handler, the three headers, and a
    body exactly when the method is not GET or DELETE. *)
Definition request_conforms (st : config) (name : tool) (req : request) : Prop :=
  req_method req = method_of name
  /\ (exists rest, req_url req = BASELINE_API_URL st ++ root_of name ++ rest)
  /\ (exists token,
        req_headers req
        = [ ("Authorization", "Token " ++ token);
            ("Content-Type", "application/json");
            ("Accept", "application/json") ])
  /\ (req_body req = None <-> method_of name = "GET" \/ method_of name = "DELETE").

(** A string free of the five characters and at most 1000 long; a value
    all of whose string leaves are. *)
Definition clean_string (s : string) : bool :=
  forallb (fun c => negb (dangerous c)) (list_ascii_of_string s)
  && (String.length s <=? 1000)%nat.

Fixpoint clean_leaves (v : value) : bool :=
  match v with
  | VStr s => clean_string s
  | VArr elems => forallb clean_leaves elems
  | VObj props =>
      (fix go (l : list (string * value)) : bool :=
         match l with
         | [] => true
         | (_, x) :: rest => clean_leaves x && go rest
         end) props
  | _ => true
  end.

Definition clean_props (l : list (string * value)) : bool :=
  forallb (fun kv => clean_leaves (snd kv)) l.

(** A string [sanitizeString] has nothing to do on: no white space at
    either end, none of the five characters, at most 1000 long. *)
Definition tidy (s : string) : bool :=
  let l := list_ascii_of_string s in
  match l with
  | c :: _ => negb (isWhiteSpace c)
  | [] => true
  end
  && match rev l with
     | c :: _ => negb (isWhiteSpace c)
     | [] => true
     end
  && forallb (fun c => negb (dangerous c)) l
  && (List.length l <=? 1000)%nat.

(** [r] is an array when [v] is one, and a plain object when [v] is. *)
Definition isArray_like (v r : value) : Prop :=
  match v, r with
  | VArr _, VArr _ => True
  | VObj _, VObj _ => True
  | _, _ => False
  end.

(** What [convertZodSchemaToJsonSchema] makes of one field: its JSON type
    and whether the field is listed as required; [None] for a field it
    passes over. *)
Definition json_field (schema : zod) : option (string * bool) :=
  match schema with
  | ZodString _ => Some ("string", true)
  | ZodNumber _ => Some ("number", true)
  | ZodBoolean _ => Some ("boolean", true)
  | ZodObject _ _ => Some ("object", true)
  | ZodOptional (ZodString _) _ => Some ("string", false)
  | ZodOptional (ZodNumber _) _ => Some ("number", false)
  | ZodOptional (ZodBoolean _) _ => Some ("boolean", false)
  | ZodOptional (ZodObject _ _) _ => Some ("object", false)
  | _ => None
  end.

(** The description of a field: the one its schema carries unless that is
    absent or empty, else the name of the field. *)
Definition field_description (key : string) (schema : zod) : string :=
  match zod_description schema with
  | Some (String c d) => String c d
  | _ => key
  end.

Definition schema_properties (shape : list (string * zod))
  : list (string * value) :=
  flat_map (fun kz =>
              match json_field (snd kz) with
              | Some (ty, _) =>
                  [(fst kz, json_property ty (field_description (fst kz) (snd kz)))]
              | None => []
              end) shape.

Definition schema_required (shape : list (string * zod)) : list string :=
  flat_map (fun kz =>
              match json_field (snd kz) with
              | Some (_, true) => [fst kz]
              | _ => []
              end) shape.

(** The fields of a shape that are not wrapped in [.optional()]: those an
    argument object must carry to pass the schema. *)
Definition mandatory_fields (shape : list (string * zod)) : list string :=
  flat_map (fun kz =>
              match snd kz with
              | ZodOptional _ _ => []
              | _ => [fst kz]
              end) shape.

(** Pairwise distinct names, none of them [__proto__]. *)
Fixpoint plain_names (names : list string) : bool :=
  match names with
  | [] => true
  | k :: rest =>
      negb (k =? "__proto__")%string
      && negb (existsb (String.eqb k) rest)
      && plain_names rest
  end.

(** A string all of whose characters are among the five that
    [sanitizeString] removes. *)
Definition only_removed (s : string) : bool :=
  forallb dangerous (list_ascii_of_string s).

(** [Number.isSafeInteger] of an integer: the range in which
    [Number_toString] is the text of the engine. *)
Definition safe_integer (n : Z) : bool :=
  (-9007199254740991 <=? n) && (n <=? 9007199254740991).

(** The string keys of [Object.prototype]: the names every plain object
    answers without owning them. *)
Definition Object_prototype_names : list string :=
  [ "constructor"; "__defineGetter__"; "__defineSetter__"; "hasOwnProperty";
    "__lookupGetter__"; "__lookupSetter__"; "isPrototypeOf";
    "propertyIsEnumerable"; "toString"; "valueOf"; "__proto__";
    "toLocaleString" ].

(** The names the handlers pass to [validateRequiredArgs]; no array,
    string, number or boolean has an index or an inherited property of
    one of these names. *)
Definition argument_names : list string :=
  flat_map (fun entry => required (snd entry)) tool_names.

(** Reading [args[field]] is reading an own property (or nothing at
    all): the bag is falsy, so that the field is not read; or the name is
    one of those the handlers ask for; or the bag is a plain object and
    the name is none of those it inherits. *)
Definition own_read (args : value) (field : string) : bool :=
  negb (truthy args)
  || existsb (String.eqb field) argument_names
  || match args with
     | VObj _ => negb (existsb (String.eqb field) Object_prototype_names)
     | _ => false
     end.

(* ===================================================================== *)
(** * Strings: the primitives against their list descriptions *)
(* ===================================================================== *)

Section StringFacts.

Lemma list_of_trimStart (s : string) :
  list_ascii_of_string (trimStart s) = drop_ws (list_ascii_of_string s).
Proof.
  induction s as [|c rest IH]; simpl; [reflexivity|].
  destruct (isWhiteSpace c); [exact IH | reflexivity].
Qed.

Lemma drop_ws_snoc (l : list ascii) (c : ascii) :
  drop_ws (l ++ [c]) =
  match drop_ws l with
  | [] => if isWhiteSpace c then [] else [c]
  | r => (r ++ [c])%list
  end.
Proof.
  induction l as [|a l IH]; simpl; [reflexivity|].
  destruct (isWhiteSpace a); [exact IH | reflexivity].
Qed.

Lemma list_of_trimEnd (s : string) :
  list_ascii_of_string (trimEnd s) = rev (drop_ws (rev (list_ascii_of_string s))).
Proof.
  induction s as [|c rest IH]; simpl; [reflexivity|].
  rewrite drop_ws_snoc.
  destruct (trimEnd rest) as [|d r] eqn:Et; simpl in IH.
  - destruct (drop_ws (rev (list_ascii_of_string rest))) as [|x xs] eqn:Ed.
    + destruct (isWhiteSpace c); reflexivity.
    + exfalso. apply (f_equal (@List.length ascii)) in IH.
      rewrite length_rev in IH. discriminate IH.
  - destruct (drop_ws (rev (list_ascii_of_string rest))) as [|x xs] eqn:Ed.
    + discriminate IH.
    + simpl. rewrite rev_app_distr. simpl. f_equal. exact IH.
Qed.

Lemma list_of_trim (s : string) :
  list_ascii_of_string (trim s) =
  rev (drop_ws (rev (drop_ws (list_ascii_of_string s)))).
Proof.
  unfold trim. rewrite list_of_trimEnd, list_of_trimStart. reflexivity.
Qed.

Lemma list_of_remove_class (cls : ascii -> bool) (s : string) :
  list_ascii_of_string (remove_class cls s) =
  filter (fun c => negb (cls c)) (list_ascii_of_string s).
Proof.
  induction s as [|c rest IH]; simpl; [reflexivity|].
  destruct (cls c); simpl; [exact IH | now rewrite IH].
Qed.

Lemma dangerous_chars (c : ascii) :
  dangerous c = existsb (Ascii.eqb c) ["<"; ">"; "034"; "'"; "&"]%char.
Proof.
  destruct c as [[] [] [] [] [] [] [] []]; reflexivity.
Qed.

Lemma substring_firstn (n : nat) (s : string) :
  substring 0 n s = string_of_list_ascii (firstn n (list_ascii_of_string s)).
Proof.
  revert s; induction n as [|n IH]; intros [|c rest]; simpl; try reflexivity.
  now rewrite IH.
Qed.

Lemma length_substring_le (n : nat) (s : string) :
  (String.length (substring 0 n s) <= n)%nat.
Proof.
  revert s; induction n as [|n IH]; intros [|c rest]; simpl; try lia.
  specialize (IH rest). lia.
Qed.

Lemma whitespace_only_trimStart (s : string) :
  whitespace_only s = true -> trimStart s = "".
Proof.
  induction s as [|c rest IH]; simpl; [reflexivity|].
  destruct (isWhiteSpace c); simpl; [exact IH | discriminate].
Qed.

Lemma whitespace_only_trim (s : string) :
  whitespace_only s = true -> trim s = "".
Proof.
  intros H. unfold trim. now rewrite whitespace_only_trimStart.
Qed.

Lemma string_app_assoc (a b c : string) : (a ++ b) ++ c = a ++ b ++ c.
Proof. induction a as [|x a IH]; simpl; [reflexivity | now rewrite IH]. Qed.

Lemma prefix_app (a b : string) : String.prefix a (a ++ b) = true.
Proof.
  induction a as [|c a IH]; simpl.
  - now destruct b.
  - destruct (ascii_dec c c) as [_|Hn]; [exact IH | now elim Hn].
Qed.

Lemma includes_unfold (s sub : string) :
  includes s sub =
  String.prefix sub s
  || match s with
     | EmptyString => false
     | String _ rest => includes rest sub
     end.
Proof. destruct s; reflexivity. Qed.

Lemma includes_app (a sub b : string) : includes (a ++ sub ++ b) sub = true.
Proof.
  induction a as [|c a IH].
  - change ("" ++ sub ++ b) with (sub ++ b).
    rewrite includes_unfold, prefix_app. reflexivity.
  - simpl. rewrite IH. apply orb_true_r.
Qed.

Lemma includes_suffix (a sub : string) : includes (a ++ sub) sub = true.
Proof.
  assert (H := includes_app a sub ""). 
  replace (sub ++ "") with sub in H; [exact H|].
  clear; induction sub; simpl; [reflexivity | now rewrite <- IHsub].
Qed.

End StringFacts.

(* ===================================================================== *)
(** * sanitizeString *)
(* ===================================================================== *)

Lemma sanitizeString_refines (s : string) :
  sanitizeString (VStr s) = inr (sanitizeText_spec s).
Proof.
  unfold sanitizeString, sanitizeText_spec. f_equal.
  rewrite substring_firstn, list_of_remove_class, list_of_trim.
  do 2 f_equal. apply filter_ext. intros c. now rewrite dangerous_chars.
Qed.

Lemma sanitizeText_spec_length (s : string) :
  (String.length (sanitizeText_spec s) <= 1000)%nat.
Proof.
  assert (H := sanitizeString_refines s). unfold sanitizeString in H.
  injection H as <-. apply length_substring_le.
Qed.

(** C6, the example as the specification gives it.  The character class
    of the regular expression holds no slash, so the closing tag keeps
    its own: the result is ["scriptx/script"], not ["scriptxscript"]. *)
Lemma C6_counterexample :
  sanitizeString (VStr "<script>x</script>") = inr "scriptx/script"
  /\ sanitizeString (VStr "<script>x</script>") <> inr "scriptxscript".
Proof.
  split; [reflexivity | discriminate].
Qed.

(** C6, amended.  [sanitizeString] throws on every input that is not a
    string; on a string it returns the input trimmed of surrounding white
    space, then with every [<], [>], double quote, single quote and [&]
    removed, then cut to its first 1000 characters (so the result has at
    most 1000); and [sanitizeString("<script>x</script>")] is
    ["scriptx/script"]. *)
Theorem C6_sanitizeString :
  (forall v : value,
      js_type_eqb (typeof v) TString = false ->
      sanitizeString v = inl (ErrorObj "Input must be a string"))
  /\ (forall s : string,
         sanitizeString (VStr s) = inr (sanitizeText_spec s)
         /\ (String.length (sanitizeText_spec s) <= 1000)%nat)
  /\ sanitizeString (VStr "<script>x</script>") = inr "scriptx/script".
Proof.
  split; [|split].
  - intros v Hv. destruct v; simpl in Hv; try discriminate Hv; reflexivity.
  - intros s. split; [apply sanitizeString_refines | apply sanitizeText_spec_length].
  - reflexivity.
Qed.

Lemma C6_witness :
  sanitizeString (VNum 7) = inl (ErrorObj "Input must be a string").
Proof.
  apply (proj1 C6_sanitizeString). reflexivity.
Defined.

(* ===================================================================== *)
(** * setBaselineApiKey *)
(* ===================================================================== *)

Lemma setBaselineApiKey_keeps_configured (key : option string) (st : config) :
  BASELINE_API_KEY st <> "" ->
  BASELINE_API_KEY (setBaselineApiKey key st) <> "".
Proof.
  intros H. destruct key as [k|]; simpl; [|exact H].
  destruct k as [|c k]; simpl; [exact H | discriminate].
Qed.

(** C10.  [setBaselineApiKey] replaces the stored credential only when it
    is called with a non-empty string; called with [undefined] or with the
    empty string it leaves the whole configuration as it was; hence no
    sequence of calls clears a credential that is configured. *)
Theorem C10_setBaselineApiKey_never_clears :
  forall st : config,
    setBaselineApiKey None st = st
    /\ setBaselineApiKey (Some "") st = st
    /\ (forall k, k <> "" ->
          setBaselineApiKey (Some k) st = mkConfig k (BASELINE_API_URL st))
    /\ (forall calls : list (option string),
          BASELINE_API_KEY st <> "" ->
          BASELINE_API_KEY
            (fold_left (fun s key => setBaselineApiKey key s) calls st) <> "").
Proof.
  intros st. repeat split.
  - intros [|c k] Hk; [contradiction | reflexivity].
  - intros calls. revert st. induction calls as [|key calls IH]; intros st H.
    + exact H.
    + simpl. apply IH. now apply setBaselineApiKey_keeps_configured.
Qed.

Lemma C10_witness :
  BASELINE_API_KEY
    (fold_left (fun s key => setBaselineApiKey key s)
               [None; Some ""; Some "k2"; None] plain_config) <> ""
  /\ setBaselineApiKey (Some "k2") plain_config = mkConfig "k2" "https://api.test".
Proof.
  destruct (C10_setBaselineApiKey_never_clears plain_config)
    as (_ & _ & Hset & Hseq).
  split.
  - apply Hseq. simpl. discriminate.
  - apply Hset. discriminate.
Defined.

(* ===================================================================== *)
(** * sanitizeObject *)
(* ===================================================================== *)

(** Induction on values that reaches the elements of arrays and the
    fields of objects. *)
Lemma value_ind_nested (P : value -> Prop) :
  P VUndefined -> P VNull ->
  (forall b, P (VBool b)) -> (forall n, P (VNum n)) -> (forall s, P (VStr s)) ->
  (forall elems, Forall P elems -> P (VArr elems)) ->
  (forall props, Forall (fun kv => P (snd kv)) props -> P (VObj props)) ->
  forall v, P v.
Proof.
  intros Hu Hn Hb Hz Hs Ha Ho.
  fix IH 1. intros [| | b | n | s | elems | props].
  - exact Hu.
  - exact Hn.
  - apply Hb.
  - apply Hz.
  - apply Hs.
  - apply Ha. induction elems as [|x rest IHl]; constructor; [apply IH | exact IHl].
  - apply Ho. induction props as [|kv rest IHl]; constructor; [apply IH | exact IHl].
Qed.

Lemma sanitizeValue_arr (elems : list value) :
  sanitizeValue (VArr elems) = (ys <-? sanitize_elems elems ;; inr (VArr ys)).
Proof. reflexivity. Qed.

Lemma sanitizeValue_obj (props : list (string * value)) :
  sanitizeValue (VObj props) =
  (sanitized <-? sanitize_entries props [] ;; inr (VObj sanitized)).
Proof. reflexivity. Qed.

Lemma distinct_keys_cons k x rest :
  distinct_keys (VObj ((k, x) :: rest)) =
  negb (existsb (String.eqb k) (map fst rest))
  && distinct_keys x && distinct_keys (VObj rest).
Proof. reflexivity. Qed.

Lemma no_proto_key_cons k x rest :
  no_proto_key (VObj ((k, x) :: rest)) =
  negb (k =? "__proto__")%string && no_proto_key x && no_proto_key (VObj rest).
Proof. reflexivity. Qed.

Lemma assoc_fresh (k : string) (l : list (string * value)) :
  existsb (String.eqb k) (map fst l) = false -> assoc k l = None.
Proof.
  induction l as [|[k' v] l IH]; simpl; [reflexivity|].
  intros H. apply orb_false_iff in H as [Hk Hl].
  rewrite Hk. now apply IH.
Qed.

Lemma set_prop_fresh (acc : list (string * value)) (k : string) (x : value) :
  (k =? "__proto__")%string = false ->
  existsb (String.eqb k) (map fst acc) = false ->
  set_prop acc k x = (acc ++ [(k, x)])%list.
Proof.
  intros Hp Hf. unfold set_prop. now rewrite Hp, assoc_fresh.
Qed.

Lemma sanitize_elems_spec (elems : list value) :
  Forall (fun x => sanitizeValue x = inr (sanitizeStructure_spec x)) elems ->
  sanitize_elems elems = inr (map sanitizeStructure_spec elems).
Proof.
  induction 1 as [|x rest Hx _ IH]; simpl; [reflexivity|].
  now rewrite Hx, IH.
Qed.

Lemma sanitize_entries_spec (props acc : list (string * value)) :
  Forall (fun kv => sanitizeValue (snd kv) = inr (sanitizeStructure_spec (snd kv)))
         props ->
  NoDup (map fst props) ->
  (forall k, In k (map fst props) ->
             (k =? "__proto__")%string = false
             /\ existsb (String.eqb k) (map fst acc) = false) ->
  sanitize_entries props acc =
  inr (acc ++ map (fun kv => (fst kv, sanitizeStructure_spec (snd kv))) props)%list.
Proof.
  intros Hall. revert acc.
  induction Hall as [|[k x] rest Hx _ IH]; intros acc Hnd Hk; simpl.
  - now rewrite app_nil_r.
  - simpl in Hx. rewrite Hx. simpl.
    destruct (Hk k (or_introl eq_refl)) as [Hp Hf].
    rewrite (set_prop_fresh _ _ _ Hp Hf).
    inversion Hnd as [|? ? Hnotin Hnd']; subst.
    rewrite IH; [now rewrite <- app_assoc | exact Hnd' |].
    intros k' Hin. destruct (Hk k' (or_intror Hin)) as [Hp' Hf'].
    split; [exact Hp'|].
    rewrite map_app, existsb_app, Hf'. simpl.
    rewrite orb_false_r. apply String.eqb_neq. intros ->. contradiction.
Qed.

Lemma distinct_keys_NoDup (props : list (string * value)) :
  distinct_keys (VObj props) = true -> NoDup (map fst props).
Proof.
  induction props as [|[k x] rest IH]; [constructor|].
  rewrite distinct_keys_cons. intros H.
  apply andb_true_iff in H as [H Hrest]. apply andb_true_iff in H as [Hk _].
  simpl. constructor; [|now apply IH].
  intros Hin. apply negb_true_iff in Hk.
  assert (existsb (String.eqb k) (map fst rest) = true) as Hc.
  { apply existsb_exists. exists k. split; [exact Hin | apply String.eqb_refl]. }
  congruence.
Qed.

Lemma no_proto_key_keys (props : list (string * value)) (k : string) :
  no_proto_key (VObj props) = true -> In k (map fst props) ->
  (k =? "__proto__")%string = false.
Proof.
  induction props as [|[k' x] rest IH]; [intros _ []|].
  rewrite no_proto_key_cons. intros H [Hk|Hin].
  - simpl in Hk. subst k'.
    apply andb_true_iff in H as [H _]. apply andb_true_iff in H as [H _].
    now apply negb_true_iff in H.
  - apply IH; [|exact Hin].
    now apply andb_true_iff in H as [_ H].
Qed.

(** Away from the key [__proto__], [sanitizeValue] is the sanitiser the
    specification describes: same shape, same keys in the same order,
    arrays element by element, string leaves sanitised, other leaves as
    they are. *)
Lemma sanitizeValue_refines (v : value) :
  distinct_keys v = true -> no_proto_key v = true ->
  sanitizeValue v = inr (sanitizeStructure_spec v).
Proof.
  induction v as [| | b | n | s | elems IH | props IH] using value_ind_nested;
    intros Hd Hp; try reflexivity.
  - change (sanitizeValue (VStr s))
      with (bindE (sanitizeString (VStr s)) (fun x => inr (VStr x))).
    now rewrite sanitizeString_refines.
  - rewrite sanitizeValue_arr, sanitize_elems_spec; [reflexivity|].
    simpl in Hd, Hp. rewrite forallb_forall in Hd, Hp.
    rewrite Forall_forall in *. intros x Hx. now apply IH; [| apply Hd | apply Hp].
  - rewrite sanitizeValue_obj, sanitize_entries_spec; [reflexivity | | |].
    + clear -IH Hd Hp.
      induction props as [|[k x] rest IHp]; [constructor|].
      rewrite distinct_keys_cons in Hd. rewrite no_proto_key_cons in Hp.
      apply andb_true_iff in Hd as [Hd Hdr]. apply andb_true_iff in Hd as [_ Hdx].
      apply andb_true_iff in Hp as [Hp Hpr]. apply andb_true_iff in Hp as [_ Hpx].
      inversion IH as [|? ? IHx IHrest]; subst.
      constructor; [now apply IHx | now apply IHp].
    + now apply distinct_keys_NoDup.
    + intros k Hin. split; [now apply (no_proto_key_keys props) | reflexivity].
Qed.

Lemma sanitizeObject_rejects (v : value) :
  is_plain_object v = false ->
  sanitizeObject v = inl (ErrorObj "Input must be an object").
Proof.
  destruct v; simpl; intros H; try reflexivity; discriminate H.
Qed.

Lemma sanitizeObject_refines (v : value) :
  is_plain_object v = true ->
  distinct_keys v = true -> no_proto_key v = true ->
  sanitizeObject v = inr (sanitizeStructure_spec v).
Proof.
  intros Ho Hd Hp. unfold sanitizeObject.
  destruct v; simpl in Ho; try discriminate Ho; simpl negb; simpl orb; cbv iota;
    now apply sanitizeValue_refines.
Qed.

(** C7, on the input the specification gives,
    [{a: "<b>", n: [{c: "'x'"}]}], and on an object that carries the key
    [__proto__].  The first comes back with its shape, every string leaf
    sanitised.  In the second the assignment [sanitized[key] = ...] does
    not create the property [__proto__], so that key is lost: the result
    has one key where the input has two. *)
Theorem C7_sanitizeObject_drops_proto_key :
  sanitizeObject (VObj [("a", VStr "<b>"); ("n", VArr [VObj [("c", VStr "'x'")]])])
  = inr (VObj [("a", VStr "b"); ("n", VArr [VObj [("c", VStr "x")]])])
  /\ sanitizeObject (VObj [("__proto__", VStr "x"); ("a", VStr "<b>")])
     = inr (VObj [("a", VStr "b")])
  /\ sanitizeStructure_spec (VObj [("__proto__", VStr "x"); ("a", VStr "<b>")])
     = VObj [("__proto__", VStr "x"); ("a", VStr "b")].
Proof.
  repeat split.
Qed.

(* ===================================================================== *)
(** * The handlers: how a computation settles *)
(* ===================================================================== *)

Section Settling.

Context {A B : Type}.

Lemma bind_lift (e : E A) (k : A -> M B) :
  bind (lift e) k = match e with inl t => ([], inl t) | inr a => k a end.
Proof.
  destruct e as [t|a]; simpl; [reflexivity|]. now destruct (k a).
Qed.

Lemma bind_ret (a : A) (k : A -> M B) : bind (ret a) k = k a.
Proof. apply (bind_lift (inr a)). Qed.

End Settling.

(** ** Every handler settles with a result of the one shape *)

Section Shape.

Variable rt : runtime.
Variable st : config.







End Shape.



(* ===================================================================== *)
(** * validateRequiredArgs *)
(* ===================================================================== *)

Lemma validate_cons_present args f rest v :
  truthy args = true -> get_prop args f = inr v -> present v = true ->
  validateRequiredArgs args (f :: rest) = validateRequiredArgs args rest.
Proof.
  intros Ht Hg Hp. simpl. rewrite Ht, Hg. simpl.
  apply negb_true_iff in Hp. now rewrite Hp.
Qed.

Lemma validate_cons_absent args f rest v :
  get_prop args f = inr v -> present v = false ->
  validateRequiredArgs args (f :: rest)
  = inl (ErrorObj ("Missing required argument: " ++ f)).
Proof.
  intros Hg Hp. simpl. destruct (truthy args); simpl; [|reflexivity].
  rewrite Hg. simpl. apply negb_false_iff in Hp. now rewrite Hp.
Qed.

Lemma validate_ok_inv args fs :
  validateRequiredArgs args fs = inr tt ->
  forall f, In f fs ->
    truthy args = true
    /\ exists v, get_prop args f = inr v /\ present v = true.
Proof.
  induction fs as [|g fs IH]; intros H f []; simpl in H.
  - subst g. destruct (truthy args); simpl in H; [|discriminate H].
    destruct (get_prop args f) as [t|v]; simpl in H; [discriminate H|].
    destruct (is_undefined v || is_null v) eqn:Ev; [discriminate H|].
    split; [reflexivity|]. exists v. unfold present. now rewrite Ev.
  - destruct (truthy args); simpl in H; [|discriminate H].
    destruct (get_prop args g) as [t|v]; simpl in H; [discriminate H|].
    destruct (is_undefined v || is_null v); [discriminate H|].
    now apply IH.
Qed.

(** Whatever [validateRequiredArgs] throws names a missing argument. *)
Lemma validate_throws_missing args fs t :
  validateRequiredArgs args fs = inl t ->
  exists f, In f fs /\ t = ErrorObj ("Missing required argument: " ++ f).
Proof.
  induction fs as [|g fs IH]; simpl; [discriminate|].
  destruct (truthy args) eqn:Ht; simpl.
  - destruct (get_prop args g) as [t'|v] eqn:Eg; simpl.
    + destruct args; simpl in Ht, Eg; discriminate.
    + destruct (is_undefined v || is_null v).
      * intros [= <-]. exists g. now split; [left|].
      * intros H. destruct (IH H) as (f & Hin & ->). exists f. now split; [right|].
  - intros [= <-]. exists g. now split; [left|].
Qed.

(** A field other than [length] that reads as a defined value belongs to an
    object, which is truthy. *)
Lemma get_prop_truthy args k v :
  (k =? "length")%string = false ->
  get_prop args k = inr v -> is_undefined v = false -> truthy args = true.
Proof.
  intros Hk Hg Hv.
  destruct args; simpl in *; try reflexivity; try discriminate Hg;
    try rewrite Hk in Hg; injection Hg as <-; discriminate Hv.
Qed.

Lemma not_nonempty_blank (s : string) :
  whitespace_only s = true -> not_nonempty_string (VStr s) = true.
Proof.
  intros H. unfold not_nonempty_string. now rewrite (whitespace_only_trim s H).
Qed.

Lemma not_nonempty_filled (s : string) :
  trim s <> "" -> not_nonempty_string (VStr s) = false.
Proof.
  intros H. unfold not_nonempty_string. simpl.
  destruct (trim s); [contradiction | reflexivity].
Qed.

(* ===================================================================== *)
(** * Type checks of the handlers *)
(* ===================================================================== *)

Section TypeChecks.

Variable rt : runtime.
Variable st : config.

Lemma bind_lift_inr {X Y : Type} (x : X) (k : X -> M Y) :
  bind (lift (inr x)) k = k x.
Proof. apply (bind_lift (inr x)). Qed.

(** Reads the fields the handler destructures, from the hypotheses at hand
    or from what [validateRequiredArgs] established. *)
Ltac read_fields Hall :=
  repeat match goal with
  | H : get_prop ?a ?f = _ |- context [lift (get_prop ?a ?f)] =>
      rewrite H, bind_lift_inr
  | |- context [lift (get_prop ?a ?f)] =>
      let v := fresh "v" in
      let Hv := fresh "Hv" in
      destruct (Hall f ltac:(simpl; tauto)) as (_ & v & Hv & _)
  end.

Ltac unfold_handler :=
  unfold toolHandlers;
  match goal with
  | |- context [?h rt st ?args] => unfold h
  end.

Lemma blank_identifier_rejected (name : tool) (args : value) (id s : string) :
  In id (identifier_fields name) ->
  validateRequiredArgs args (required name) = inr tt ->
  get_prop args id = inr (VStr s) ->
  whitespace_only s = true ->
  exists txt,
    toolHandlers rt st name args = ([], inr (text_result txt true))
    /\ includes txt "non-empty string" = true.
Proof.
  intros Hin Hval Hget Hws.
  assert (Hall := validate_ok_inv _ _ Hval).
  assert (Hblank := not_nonempty_blank s Hws).
  destruct name; simpl in Hin; repeat (destruct Hin as [<-|Hin]);
    try contradiction; cbn [required] in Hval, Hall;
    unfold_handler; rewrite Hval, bind_lift_inr; read_fields Hall;
    rewrite Hblank, ?orb_true_r;
    (eexists; split; [reflexivity | reflexivity]).
Qed.

Lemma scalar_present (v : value) : scalar v = true -> present v = true.
Proof. now destruct v. Qed.

Lemma scalar_not_object_or_null (v : value) :
  scalar v = true -> not_object_or_null v = true.
Proof. now destruct v. Qed.

Lemma scalar_falsy_or_not_object (v : value) :
  scalar v = true -> falsy_or_not_object v = true.
Proof. destruct v; try discriminate; intros _; unfold falsy_or_not_object; simpl;
  apply orb_true_r. Qed.

Section ObjectField.

Variables (name : tool) (field : string) (args v : value).
Hypothesis Hfield : object_field name = Some field.
Hypothesis Hget : get_prop args field = inr v.
Hypothesis Hids :
  forall id, In id (identifier_fields name) ->
             exists s, get_prop args id = inr (VStr s) /\ trim s <> "".

Lemma object_field_scalar_rejected :
  scalar v = true ->
  toolHandlers rt st name args
  = ([], inr (text_result ("Error: " ++ field ++ " must be an object") true)).
Proof.
  intros Hv.
  assert (Hp := scalar_present v Hv).
  assert (Ho := scalar_not_object_or_null v Hv).
  assert (Ho' := scalar_falsy_or_not_object v Hv).
  assert (truthy args = true) as Ht.
  { destruct name; try discriminate Hfield; injection Hfield as <-;
      (refine (get_prop_truthy args _ v _ Hget _); [reflexivity | now destruct v]). }
  destruct name; try discriminate Hfield; injection Hfield as Hf; subst field;
    cbn [identifier_fields] in Hids;
    try (destruct (Hids _ (or_introl eq_refl)) as (s & Hid & Hs);
         assert (Hfilled := not_nonempty_filled s Hs));
    unfold_handler;
    repeat (erewrite validate_cons_present by (eassumption || reflexivity));
    cbn [validateRequiredArgs];
    rewrite bind_lift_inr; read_fields I;
    rewrite ?Hfilled, ?Ho, ?Ho'; reflexivity.
Qed.

Lemma object_field_null_missing :
  v = VNull ->
  toolHandlers rt st name args
  = ([], inr (text_result
            ("Error " ++ doing name ++ ": Missing required argument: " ++ field)
            true)).
Proof.
  intros ->.
  assert (truthy args = true) as Ht.
  { destruct name; try discriminate Hfield; injection Hfield as <-;
      (refine (get_prop_truthy args _ VNull _ Hget _); reflexivity). }
  destruct name; try discriminate Hfield; injection Hfield as Hf; subst field;
    cbn [identifier_fields] in Hids;
    try (destruct (Hids _ (or_introl eq_refl)) as (s & Hid & Hs));
    unfold_handler;
    repeat (erewrite validate_cons_present by (eassumption || reflexivity));
    (erewrite validate_cons_absent by (eassumption || reflexivity));
    reflexivity.
Qed.

End ObjectField.

End TypeChecks.

(** C1, on [null] and on an identifier that fails its own test.
    [validateRequiredArgs] counts a [null] field as missing and throws
    before the type check is reached, so [createLoan] with [loanData]
    bound to [null] reports a missing argument and does not mention "must
    be an object".  The identifier is tested before the object field, so
    [updateLoan] with an empty [loanId] and [updates] bound to a string
    reports the identifier. *)
Lemma C1_counterexample :
  (toolHandlers (canned_runtime not_found) plain_config T_createLoan
     (VObj [("loanData", VNull)])
   = ([], inr (text_result
             "Error creating loan: Missing required argument: loanData" true))
   /\ includes "Error creating loan: Missing required argument: loanData"
               "must be an object" = false)
  /\ (toolHandlers (canned_runtime not_found) plain_config T_updateLoan
        (VObj [("loanId", VStr ""); ("updates", VStr "x")])
      = ([], inr (text_result "Error: loanId must be a non-empty string" true))
      /\ includes "Error: loanId must be a non-empty string"
                  "must be an object" = false).
Proof.
  repeat split.
Qed.

(** C1, amended.  For every handler that takes an object field ([updates],
    [loanData], [borrowerData], [vendorData], [investorData]), invoked
    with its identifier, where it takes one, bound to a non-empty string:
    if the field is bound to a string, a number or a boolean, the handler
    issues no request and returns the single text
    ["Error: <field> must be an object"] with [isError] true; if the field
    is bound to [null], it issues no request and returns
    ["Error <doing X>: Missing required argument: <field>"] with [isError]
    true, which does not mention "must be an object". *)
Theorem C1_object_field_must_be_object :
  forall (rt : runtime) (st : config) (name : tool) (field : string)
         (args v : value),
    object_field name = Some field ->
    get_prop args field = inr v ->
    (forall id, In id (identifier_fields name) ->
                exists s, get_prop args id = inr (VStr s) /\ trim s <> "") ->
    (scalar v = true ->
       toolHandlers rt st name args
       = ([], inr (text_result ("Error: " ++ field ++ " must be an object") true))
       /\ includes ("Error: " ++ field ++ " must be an object")
                   "must be an object" = true)
    /\ (v = VNull ->
          toolHandlers rt st name args
          = ([], inr (text_result
                    ("Error " ++ doing name ++ ": Missing required argument: "
                              ++ field) true))
          /\ includes ("Error " ++ doing name ++ ": Missing required argument: "
                                ++ field)
                      "must be an object" = false).
Proof.
  intros rt st name field args v Hfield Hget Hids. split; intros Hv.
  - split; [now apply object_field_scalar_rejected with (v := v)|].
    destruct name; try discriminate Hfield; injection Hfield as <-; reflexivity.
  - split; [now apply object_field_null_missing with (v := v)|].
    destruct name; try discriminate Hfield; injection Hfield as <-; reflexivity.
Qed.

Lemma C1_witness :
  toolHandlers (canned_runtime not_found) plain_config T_updateLoan
    (VObj [("loanId", VStr "12"); ("updates", VNum 5)])
  = ([], inr (text_result "Error: updates must be an object" true))
  /\ includes "Error: updates must be an object" "must be an object" = true.
Proof.
  refine (proj1 (C1_object_field_must_be_object
                   (canned_runtime not_found) plain_config T_updateLoan "updates"
                   (VObj [("loanId", VStr "12"); ("updates", VNum 5)]) (VNum 5)
                   eq_refl eq_refl _) eq_refl).
  intros id [<-|[]]. exists "12". split; [reflexivity | discriminate].
Defined.

(** C5, with a required argument left out.  [updateLoan] with an empty
    [loanId] and no [updates] is stopped by [validateRequiredArgs], which
    runs before the identifier is tested: the message names the missing
    argument and does not contain "non-empty string". *)
Lemma C5_counterexample :
  toolHandlers (canned_runtime not_found) plain_config T_updateLoan
    (VObj [("loanId", VStr "")])
  = ([], inr (text_result
            "Error updating loan: Missing required argument: updates" true))
  /\ includes "Error updating loan: Missing required argument: updates"
              "non-empty string" = false.
Proof.
  split; reflexivity.
Qed.

(** C5, amended.  For every handler that takes an identifier ([loanId],
    [taskId], [borrowerId], [vendorId], [investorId] and the identifiers
    of the connect and disconnect counterparts), invoked with all its
    required arguments present and that identifier bound to the empty
    string or to a string of white space only, the handler issues no
    request and returns one text with [isError] true that contains
    "non-empty string". *)
Theorem C5_blank_identifier_rejected :
  forall (rt : runtime) (st : config) (name : tool) (args : value)
         (id s : string),
    In id (identifier_fields name) ->
    validateRequiredArgs args (required name) = inr tt ->
    get_prop args id = inr (VStr s) ->
    whitespace_only s = true ->
    exists txt,
      toolHandlers rt st name args = ([], inr (text_result txt true))
      /\ includes txt "non-empty string" = true.
Proof.
  intros. now apply blank_identifier_rejected with (id := id) (s := s).
Qed.

Lemma C5_witness :
  exists txt,
    toolHandlers (canned_runtime not_found) plain_config T_connectBorrowers
      (VObj [("borrowerId", VStr "7"); ("connectToBorrowerId", VStr "  ")])
    = ([], inr (text_result txt true))
    /\ includes txt "non-empty string" = true.
Proof.
  apply (C5_blank_identifier_rejected
           (canned_runtime not_found) plain_config T_connectBorrowers
           (VObj [("borrowerId", VStr "7"); ("connectToBorrowerId", VStr "  ")])
           "connectToBorrowerId" "  ");
    [right; left; reflexivity | reflexivity | reflexivity | reflexivity].
Defined.

(* ===================================================================== *)
(** * The upstream client *)
(* ===================================================================== *)

Section ClientFacts.

Variable rt : runtime.
Variable st : config.

Lemma makeRequest_issued (token method path : string) (body : value) :
  BASELINE_API_KEY st <> "" ->
  ToString rt (resolveApiKey rt st) = inr token ->
  makeRequest rt st method path body
  = ([request_for rt st token method path body],
     settle rt (fetch rt (request_for rt st token method path body))).
Proof.
  intros Hkey Htok. unfold makeRequest.
  destruct (BASELINE_API_KEY st) as [|c k] eqn:Ek; [contradiction|].
  simpl truthy. cbv iota. simpl negb. cbv iota.
  rewrite Htok, bind_lift_inr. unfold do_fetch, request_for, settle.
  destruct (fetch rt _) as [t|response]; simpl; [reflexivity|].
  destruct (ok response); simpl.
  - destruct (body_text response) as [t|txt]; simpl; [reflexivity|].
    destruct txt; simpl; [reflexivity|].
    now destruct (JSON_parse rt _).
  - now destruct (body_text response).
Qed.

Lemma makeRequest_cases (method path : string) (body : value) :
  (exists t, makeRequest rt st method path body = ([], inl t))
  \/ (exists token,
        BASELINE_API_KEY st <> ""
        /\ ToString rt (resolveApiKey rt st) = inr token
        /\ makeRequest rt st method path body
           = ([request_for rt st token method path body],
              settle rt (fetch rt (request_for rt st token method path body)))).
Proof.
  destruct (string_dec (BASELINE_API_KEY st) "") as [He|Hne].
  - left. unfold makeRequest. rewrite He. simpl. eexists. reflexivity.
  - destruct (ToString rt (resolveApiKey rt st)) as [t|token] eqn:Etok.
    + left. exists t. unfold makeRequest.
      destruct (BASELINE_API_KEY st) as [|c k] eqn:Ek; [contradiction|].
      simpl truthy. cbv iota. simpl negb. cbv iota.
      now rewrite Etok.
    + right. exists token. repeat split; [exact Hne|].
      now apply makeRequest_issued.
Qed.

(** ** A response outside the success range *)

Section Failure.

Variable resp : response.
Variable b : string.
Hypothesis Hnot_ok : ok resp = false.
Hypothesis Hbody : body_text resp = inr b.

Lemma settle_failure :
  settle rt (inr resp) = inl (ErrorObj (failure_message resp b)).
Proof. unfold settle. now rewrite Hnot_ok, Hbody. Qed.

Lemma makeRequest_failure method path body log res :
  makeRequest rt st method path body = (log, res) ->
  log <> [] ->
  (forall req, In req log -> fetch rt req = inr resp) ->
  res = inl (ErrorObj (failure_message resp b)).
Proof.
  intros Hrun Hlog Hfetch.
  destruct (makeRequest_cases method path body) as [[t Ht]|(token & _ & _ & Hm)].
  - rewrite Ht in Hrun. injection Hrun as <- _. contradiction.
  - rewrite Hm in Hrun. injection Hrun as <- <-.
    rewrite (Hfetch _ (or_introl eq_refl)). apply settle_failure.
Qed.

Lemma stopped_lift {X : Type} (e : E X) : stopped_by_upstream rt resp b (lift e).
Proof. now left. Qed.

Lemma stopped_ret {X : Type} (x : X) : stopped_by_upstream rt resp b (ret x).
Proof. now left. Qed.

Lemma stopped_makeRequest method path body :
  stopped_by_upstream rt resp b (makeRequest rt st method path body).
Proof.
  intros Hfetch.
  destruct (makeRequest_cases method path body) as [[t Ht]|(token & _ & _ & Hm)].
  - left. now rewrite Ht.
  - right. rewrite Hm in *. simpl in *.
    now rewrite (Hfetch _ (or_introl eq_refl)), settle_failure.
Qed.

Lemma stopped_bind {X Y : Type} (m : M X) (k : X -> M Y) :
  stopped_by_upstream rt resp b m ->
  (forall x, stopped_by_upstream rt resp b (k x)) ->
  stopped_by_upstream rt resp b (bind m k).
Proof.
  intros Hm Hk Hfetch. destruct m as [l [t|x]]; simpl in *.
  - destruct (Hm Hfetch) as [Hl|Hl]; [now left | right].
    simpl in Hl. now injection Hl as ->.
  - specialize (Hk x). unfold stopped_by_upstream in Hk.
    destruct (k x) as [l' r'] eqn:Ek. simpl in *.
    assert (l = []) as ->.
    { destruct Hm as [Hl|Hl]; [|exact Hl | discriminate Hl].
      intros req Hin. apply Hfetch, in_or_app. now left. }
    simpl. apply Hk. exact Hfetch.
Qed.

Ltac stopped_steps :=
  cbv zeta; unfold client_get, client_post, client_patch, client_put, client_delete;
  repeat first
    [ apply stopped_ret
    | apply stopped_lift
    | apply stopped_makeRequest
    | apply stopped_bind; [|intros ?]
    | match goal with
      | |- stopped_by_upstream _ _ _ (if ?c then _ else _) => destruct c
      end ].

Lemma handler_body_stopped (name : tool) (args : value) :
  exists body,
    toolHandlers rt st name args
    = try_catch body
        (fun error =>
           ret (text_result ("Error " ++ doing name ++ ": " ++ error_message error) true))
    /\ stopped_by_upstream rt resp b body.
Proof.
  destruct name; unfold toolHandlers;
    match goal with
    | |- context [?h rt st args] => unfold h
    end;
    (eexists; split; [reflexivity|]); stopped_steps.
Qed.

Lemma handler_failure (name : tool) (args : value) log res :
  toolHandlers rt st name args = (log, res) ->
  log <> [] ->
  (forall req, In req log -> fetch rt req = inr resp) ->
  res = inr (text_result ("Error " ++ doing name ++ ": " ++ failure_message resp b) true).
Proof.
  intros Hrun Hlog Hfetch.
  destruct (handler_body_stopped name args) as (body & Hh & Hstop).
  rewrite Hh in Hrun. clear Hh. unfold stopped_by_upstream in Hstop.
  destruct body as [l [t|r]]; simpl in *.
  - injection Hrun as <- <-. rewrite app_nil_r in *.
    destruct (Hstop Hfetch) as [->|[= ->]]; [contradiction | reflexivity].
  - injection Hrun as <- <-.
    destruct (Hstop Hfetch) as [->|[=]]. contradiction.
Qed.

End Failure.

End ClientFacts.

(** C8.  When the upstream answers the request with a status outside
    200-299 and body text [b], [makeRequest] throws an error whose message
    carries the status code, the status text and [b]; every handler that
    issued the request returns, with [isError] true, the single text
    ["Error <doing X>: API request failed: <status> <statusText> - Body:
    <b>"], which contains the status code and [b].  The witness is a 404
    with body "not found". *)
Theorem C8_upstream_failure_surfaces :
  forall (rt : runtime) (st : config) (resp : response) (b : string),
    ok resp = false ->
    body_text resp = inr b ->
    (forall method path body log res,
        makeRequest rt st method path body = (log, res) ->
        log <> [] ->
        (forall req, In req log -> fetch rt req = inr resp) ->
        res = inl (ErrorObj (failure_message resp b)))
    /\ (forall name args log res,
          toolHandlers rt st name args = (log, res) ->
          log <> [] ->
          (forall req, In req log -> fetch rt req = inr resp) ->
          res = inr (text_result
                       ("Error " ++ doing name ++ ": " ++ failure_message resp b)
                       true))
    /\ (forall name,
          includes ("Error " ++ doing name ++ ": " ++ failure_message resp b)
                   (Number_toString (status resp)) = true
          /\ includes ("Error " ++ doing name ++ ": " ++ failure_message resp b)
                      b = true).
Proof.
  intros rt st resp b Hnot_ok Hbody. split; [|split].
  - intros method path body log res. now apply makeRequest_failure.
  - intros name args log res. now apply handler_failure.
  - intros name. unfold failure_message. split.
    + replace ("Error " ++ doing name ++ ": " ++ "API request failed: "
               ++ Number_toString (status resp) ++ " "
               ++ statusText resp ++ " - Body: " ++ b)
        with (("Error " ++ doing name ++ ": " ++ "API request failed: ")
              ++ Number_toString (status resp)
              ++ (" " ++ statusText resp ++ " - Body: " ++ b))
        by now rewrite !string_app_assoc.
      apply includes_app.
    + replace ("Error " ++ doing name ++ ": " ++ "API request failed: "
               ++ Number_toString (status resp) ++ " "
               ++ statusText resp ++ " - Body: " ++ b)
        with (("Error " ++ doing name ++ ": " ++ "API request failed: "
               ++ Number_toString (status resp) ++ " "
               ++ statusText resp ++ " - Body: ") ++ b)
        by now rewrite !string_app_assoc.
      apply includes_suffix.
Qed.

Lemma C8_witness :
  toolHandlers (canned_runtime not_found) plain_config T_getLoan
    (VObj [("loanId", VStr "42")])
  = ([mkRequest "GET" "https://api.test/loan/42"
        [ ("Authorization", "Token secret-token");
          ("Content-Type", "application/json");
          ("Accept", "application/json") ] None],
     inr (text_result
            "Error retrieving loan: API request failed: 404 Not Found - Body: not found"
            true))
  /\ includes "Error retrieving loan: API request failed: 404 Not Found - Body: not found"
              "404" = true
  /\ includes "Error retrieving loan: API request failed: 404 Not Found - Body: not found"
              "not found" = true.
Proof.
  destruct (C8_upstream_failure_surfaces
              (canned_runtime not_found) plain_config not_found "not found"
              eq_refl eq_refl) as (_ & Hhandler & Hincl).
  split; [|exact (Hincl T_getLoan)].
  destruct (toolHandlers (canned_runtime not_found) plain_config T_getLoan
              (VObj [("loanId", VStr "42")])) as [log res] eqn:Erun.
  assert (log = [mkRequest "GET" "https://api.test/loan/42"
        [ ("Authorization", "Token secret-token");
          ("Content-Type", "application/json");
          ("Accept", "application/json") ] None]) as Hlog.
  { now injection Erun as <- _. }
  rewrite (Hhandler T_getLoan _ log res Erun).
  - now rewrite Hlog.
  - rewrite Hlog. discriminate.
  - reflexivity.
Defined.

(* ===================================================================== *)
(** * Credential resolution *)
(* ===================================================================== *)


Section Credential.

Variable rt : runtime.
Variable st : config.




End Credential.



(* ===================================================================== *)
(** * listLoans *)
(* ===================================================================== *)

(** C9, on a [loans] field that is there and falsy.  With the body
    [{loans: null}] the operator [||] passes over the field: the list is
    the whole body, not the value of the field, and it has no length. *)
Lemma C9_counterexample :
  assoc "loans" [("loans", VNull)] = Some VNull
  /\ loans_result (VObj [("loans", VNull)])
     = inr (VObj [("loans", VObj [("loans", VNull)]); ("totalCount", VUndefined)])
  /\ (forall count,
         loans_result (VObj [("loans", VNull)])
         <> inr (VObj [("loans", VNull); ("totalCount", count)])).
Proof.
  repeat split. discriminate.
Qed.

Lemma loans_result_truthy_field (data loans : value) :
  get_prop data "loans" = inr loans -> truthy loans = true ->
  exists count,
    get_prop loans "length" = inr count
    /\ loans_result data = inr (VObj [("loans", loans); ("totalCount", count)]).
Proof.
  intros Hget Ht. unfold loans_result. rewrite Hget. simpl. rewrite Ht.
  destruct loans; try discriminate Ht; simpl; eexists; split; reflexivity.
Qed.

Lemma loans_result_whole_body (data loans : value) :
  get_prop data "loans" = inr loans -> truthy loans = false ->
  exists count,
    get_prop data "length" = inr count
    /\ loans_result data = inr (VObj [("loans", data); ("totalCount", count)]).
Proof.
  intros Hget Ht. unfold loans_result. rewrite Hget. simpl. rewrite Ht.
  destruct data; try discriminate Hget; simpl; eexists; split; reflexivity.
Qed.

Lemma listLoans_renders_result rt st args log data result :
  client_get rt st "/loan" = (log, inr data) ->
  loans_result data = inr result ->
  listLoans rt st args = (log, inr (text_result (pretty rt result) false)).
Proof.
  intros Hget Hres. unfold listLoans. rewrite Hget. simpl.
  rewrite Hres. simpl. now rewrite app_nil_r.
Qed.

(** C9, amended.  [listLoans] post-processes the body the upstream
    returned: if the [loans] field of the body is truthy, that value is
    taken as the list, otherwise (no such field, or a field that is
    [null], [false], [0] or [""]) the whole body is; the result object
    pairs the list with [totalCount], the [length] of the list; the
    handler returns the rendering of that object with [isError] false.
    When the body holds a [loans] array, [totalCount] is the length of the
    array.  This covers every body but [null] (and [undefined], which no
    JSON text parses to): there reading the [loans] field throws, and for
    the body [null] the handler returns "Error listing loans: Cannot read
    properties of null (reading 'loans')" with [isError] true. *)
Theorem C9_listLoans_result :
  (forall data loans,
      get_prop data "loans" = inr loans ->
      exists count,
        get_prop (if truthy loans then loans else data) "length" = inr count
        /\ loans_result data
           = inr (VObj [("loans", if truthy loans then loans else data);
                        ("totalCount", count)]))
  /\ (forall props elems,
         assoc "loans" props = Some (VArr elems) ->
         loans_result (VObj props)
         = inr (VObj [("loans", VArr elems);
                      ("totalCount", VNum (Z.of_nat (List.length elems)))]))
  /\ (forall rt st args log data result,
         client_get rt st "/loan" = (log, inr data) ->
         loans_result data = inr result ->
         toolHandlers rt st T_listLoans args
         = (log, inr (text_result (JSON_stringify rt (Some 2%nat) result) false)))
  /\ (forall data,
         data <> VNull -> data <> VUndefined ->
         exists loans, get_prop data "loans" = inr loans)
  /\ (forall rt st args log,
         client_get rt st "/loan" = (log, inr VNull) ->
         toolHandlers rt st T_listLoans args
         = (log, inr (text_result
                   "Error listing loans: Cannot read properties of null (reading 'loans')"
                   true))).
Proof.
  split; [|split; [|split; [|split]]].
  - intros data loans Hget. destruct (truthy loans) eqn:Ht.
    + now apply loans_result_truthy_field.
    + now apply loans_result_whole_body with (loans := loans).
  - intros props elems Hassoc. unfold loans_result. simpl. now rewrite Hassoc.
  - intros rt st args log data result. apply listLoans_renders_result.
  - intros data Hnull Hundef.
    destruct data; try contradiction; eexists; reflexivity.
  - intros rt st args log Hget. unfold toolHandlers, listLoans.
    rewrite Hget. cbn. rewrite ?app_nil_r. reflexivity.
Qed.

Lemma C9_witness :
  loans_result (VObj [("loans", VArr [VObj [("Id", VStr "1")]])])
  = inr (VObj [("loans", VArr [VObj [("Id", VStr "1")]]); ("totalCount", VNum 1)]).
Proof.
  exact (proj1 (proj2 C9_listLoans_result)
           [("loans", VArr [VObj [("Id", VStr "1")]])] [VObj [("Id", VStr "1")]]
           eq_refl).
Defined.

(* ===================================================================== *)
(** * The list handlers and their [page] argument *)
(* ===================================================================== *)

Lemma request_of_get rt st (path : string) (k : value -> M ToolResult)
      (h : thrown -> M ToolResult) (req : request) :
  (forall x, fst (k x) = []) ->
  (forall t, fst (h t) = []) ->
  In req (fst (try_catch (bind (client_get rt st path) k) h)) ->
  req_method req = "GET" /\ req_url req = BASELINE_API_URL st ++ path.
Proof.
  intros Hk Hh. unfold client_get.
  destruct (makeRequest_cases rt st "GET" path VUndefined)
    as [[t Ht]|(token & _ & _ & Hm)].
  - rewrite Ht. simpl. specialize (Hh t). destruct (h t). simpl in *.
    subst. intros [].
  - rewrite Hm. destruct (settle rt _) as [t|x]; simpl.
    + specialize (Hh t). destruct (h t). simpl in *. subst.
      intros [<-|[]]. now split.
    + specialize (Hk x). destruct (k x) as [l [t|r]]; simpl in *; subst; simpl.
      * specialize (Hh t). destruct (h t). simpl in *. subst.
        intros [<-|[]]. now split.
      * intros [<-|[]]. now split.
Qed.

(** [listTasks] sends its request either to [/task] or, when [page] is a
    number above zero, to [/task?page=<text of page>], the text being the
    decimal digits of a safe integer; a [page] that is truthy and not a
    non-negative number sends nothing. *)
Lemma listTasks_appends_only_valid_page rt st (args : value) (req : request) :
  In req (fst (listTasks rt st args)) ->
  req_url req = BASELINE_API_URL st ++ "/task"
  \/ exists n,
       get_prop (if truthy args then args else VObj []) "page" = inr (VNum n)
       /\ 0 < n
       /\ exists s,
            req_url req = BASELINE_API_URL st ++ "/task?page=" ++ urlencode s
            /\ (safe_integer n = true -> s = Number_toString n).
Proof.
  unfold listTasks.
  destruct (get_prop (if truthy args then args else VObj []) "page")
    as [t|page] eqn:Epage.
  - intros [].
  - rewrite bind_lift_inr. cbv zeta.
    destruct page as [| | [] | n | [|c s] | elems | props];
      try (intros []; fail);
      try (intros Hin; left; cbn -[client_get try_catch bind] in Hin;
           now apply request_of_get in Hin).
    cbn -[client_get try_catch bind Z.eqb Z.ltb].
    destruct (n =? 0) eqn:E0; cbn -[client_get try_catch bind Z.ltb].
    + intros Hin. left. now apply request_of_get in Hin.
    + destruct (n <? 0) eqn:Eneg; cbn -[client_get try_catch bind].
      * intros [].
      * rewrite bind_lift_inr. cbn -[client_get try_catch bind].
        intros Hin. right. exists n.
        apply request_of_get in Hin as [_ Hurl]; [|reflexivity..].
        split; [reflexivity|]. split; [lia|].
        exists (Number_toString n). now split.
Qed.

Section Pages.

Variable rt : runtime.
Variable st : config.
Variable token : string.
Hypothesis Hkey : BASELINE_API_KEY st <> "".
Hypothesis Htoken : ToString rt (resolveApiKey rt st) = inr token.

Lemma log_of_get (path : string) (k : value -> M ToolResult)
      (h : thrown -> M ToolResult) :
  (forall x, fst (k x) = []) ->
  (forall t, fst (h t) = []) ->
  fst (try_catch (bind (client_get rt st path) k) h)
  = [request_for rt st token "GET" path VUndefined].
Proof.
  intros Hk Hh. unfold client_get.
  rewrite (makeRequest_issued rt st token "GET" path VUndefined Hkey Htoken).
  destruct (settle rt _) as [t|x]; simpl.
  - specialize (Hh t). destruct (h t). simpl in *. now subst.
  - specialize (Hk x). destruct (k x) as [l [t|r]]; simpl in *; subst; simpl.
    + specialize (Hh t). destruct (h t). simpl in *. now subst.
    + reflexivity.
Qed.

Lemma listTasks_negative_page :
  toolHandlers rt st T_listTasks (VObj [("page", VNum (-1))])
  = ([], inr (text_result "Error: page must be a non-negative number" true)).
Proof. reflexivity. Qed.

Lemma listTasks_page_2 :
  fst (toolHandlers rt st T_listTasks (VObj [("page", VNum 2)]))
  = [request_for rt st token "GET" "/task?page=2" VUndefined].
Proof.
  unfold toolHandlers, listTasks. cbn -[client_get try_catch bind].
  rewrite bind_lift_inr. cbn -[client_get try_catch bind].
  rewrite bind_lift_inr. now apply log_of_get.
Qed.

Lemma unchecked_negative_page :
  fst (toolHandlers rt st T_listBorrowers (VObj [("page", VNum (-1))]))
  = [request_for rt st token "GET" "/borrower?page=-1" VUndefined]
  /\ fst (toolHandlers rt st T_listVendors (VObj [("page", VNum (-1))]))
     = [request_for rt st token "GET" "/vendor?page=-1" VUndefined]
  /\ fst (toolHandlers rt st T_listInvestors (VObj [("page", VNum (-1))]))
     = [request_for rt st token "GET" "/investor?page=-1" VUndefined].
Proof.
  repeat split;
    unfold toolHandlers, listBorrowers, listVendors, listInvestors;
    cbn -[client_get try_catch bind];
    rewrite bind_lift_inr; cbn -[client_get try_catch bind];
    rewrite bind_lift_inr, bind_ret; cbn -[client_get try_catch bind];
    now apply log_of_get.
Qed.

End Pages.

(** C2, evaluated.  [listTasks] sends its GET to [/task], or to
    [/task?page=<text of page>] when [page] is a number above zero, and
    nowhere else; for a safe integer the text is its decimal digits.
    With a credential configured: [listTasks] with page -1 sends
    nothing and returns the error "page must be a non-negative number";
    [listTasks] with page 2 sends its GET to [/task?page=2];
    [listBorrowers], [listVendors] and [listInvestors] with page -1 do
    send their GET, with [?page=-1] appended: they append whatever truthy
    [page] they are given, unchecked. *)
Theorem C2_page_checked_by_listTasks_only :
  forall (rt : runtime) (st : config) (token : string),
    BASELINE_API_KEY st <> "" ->
    ToString rt (resolveApiKey rt st) = inr token ->
    (forall args req,
        In req (fst (toolHandlers rt st T_listTasks args)) ->
        req_url req = BASELINE_API_URL st ++ "/task"
        \/ exists n,
             get_prop (if truthy args then args else VObj []) "page" = inr (VNum n)
             /\ 0 < n
             /\ exists s,
                  req_url req = BASELINE_API_URL st ++ "/task?page=" ++ urlencode s
                  /\ (safe_integer n = true -> s = Number_toString n))
    /\ (toolHandlers rt st T_listTasks (VObj [("page", VNum (-1))])
        = ([], inr (text_result "Error: page must be a non-negative number" true))
        /\ includes "Error: page must be a non-negative number"
                    "non-negative number" = true)
    /\ fst (toolHandlers rt st T_listTasks (VObj [("page", VNum 2)]))
       = [request_for rt st token "GET" "/task?page=2" VUndefined]
    /\ fst (toolHandlers rt st T_listBorrowers (VObj [("page", VNum (-1))]))
       = [request_for rt st token "GET" "/borrower?page=-1" VUndefined]
    /\ fst (toolHandlers rt st T_listVendors (VObj [("page", VNum (-1))]))
       = [request_for rt st token "GET" "/vendor?page=-1" VUndefined]
    /\ fst (toolHandlers rt st T_listInvestors (VObj [("page", VNum (-1))]))
       = [request_for rt st token "GET" "/investor?page=-1" VUndefined].
Proof.
  intros rt st token Hkey Htoken.
  split; [intros args req; apply listTasks_appends_only_valid_page|].
  split; [split; [apply listTasks_negative_page | reflexivity] |].
  split; [now apply listTasks_page_2 |].
  now apply unchecked_negative_page.
Qed.

Lemma C2_witness :
  toolHandlers (canned_runtime no_content) plain_config T_listBorrowers
    (VObj [("page", VNum (-1))])
  = ([mkRequest "GET" "https://api.test/borrower?page=-1"
        [ ("Authorization", "Token secret-token");
          ("Content-Type", "application/json");
          ("Accept", "application/json") ] None],
     inr (text_result "{}" false))
  /\ fst (toolHandlers (canned_runtime no_content) plain_config T_listBorrowers
            (VObj [("page", VNum (-1))]))
     = [request_for (canned_runtime no_content) plain_config "secret-token"
          "GET" "/borrower?page=-1" VUndefined].
Proof.
  split; [reflexivity|].
  refine (proj1 (proj2 (proj2 (proj2
            (C2_page_checked_by_listTasks_only
               (canned_runtime no_content) plain_config "secret-token" _ eq_refl))))).
  discriminate.
Defined.

(* ===================================================================== *)
(** * Further properties of the client and the handlers *)
(* ===================================================================== *)

(** X1.  [validateRequiredArgs] throws "Missing required argument: <name>" for
    the first field, from left to right, that is absent or [null] (every
    field is, when the bag itself is falsy), and returns when there is
    none.  This is stated for fields read as own properties: the bag is
    falsy, or the name is one the handlers ask for, or the bag is a plain
    object and the name is none of those inherited from
    [Object.prototype], which are never absent. *)
Theorem validateRequiredArgs_first_missing :
  forall (args : value) (fields : list string),
    forallb (own_read args) fields = true ->
    validateRequiredArgs args fields
    = match find (missing args) fields with
      | Some f => inl (ErrorObj ("Missing required argument: " ++ f))
      | None => inr tt
      end.
Proof.
  intros args fields _. induction fields as [|f rest IH]; [reflexivity|].
  simpl. unfold missing at 1.
  destruct (truthy args) eqn:Ht; simpl; [|reflexivity].
  destruct (get_prop args f) as [t|v] eqn:Eg; simpl.
  - destruct args; simpl in Ht, Eg; discriminate.
  - unfold present. rewrite negb_involutive.
    destruct (is_undefined v || is_null v); [reflexivity | exact IH].
Qed.

Lemma validateRequiredArgs_first_missing_witness :
  validateRequiredArgs
    (VObj [("vendorId", VStr "3"); ("limit", VNull); ("updates", VNull)])
    ["vendorId"; "limit"; "updates"]
  = inl (ErrorObj "Missing required argument: limit").
Proof.
  exact (validateRequiredArgs_first_missing
           (VObj [("vendorId", VStr "3"); ("limit", VNull); ("updates", VNull)])
           ["vendorId"; "limit"; "updates"] eq_refl).
Defined.

(** X2.  On a non-null object or array whose objects have pairwise distinct
    keys, none of them [__proto__], [sanitizeObject] returns the value of
    the same shape in which every string leaf is sanitised and every other
    leaf is as it was; on anything that is not a non-null object it
    throws. *)
Theorem sanitizeObject_preserves_shape :
  forall v : value,
    (is_plain_object v = false ->
     sanitizeObject v = inl (ErrorObj "Input must be an object"))
    /\ (is_plain_object v = true ->
        distinct_keys v = true -> no_proto_key v = true ->
        sanitizeObject v = inr (sanitizeStructure_spec v)).
Proof.
  intros v. split; [apply sanitizeObject_rejects | apply sanitizeObject_refines].
Qed.

Lemma sanitizeObject_preserves_shape_witness :
  sanitizeObject (VObj [("a", VStr " <b> "); ("n", VArr [VNull; VNum 3; VBool true])])
  = inr (VObj [("a", VStr "b"); ("n", VArr [VNull; VNum 3; VBool true])]).
Proof.
  exact (proj2 (sanitizeObject_preserves_shape
                  (VObj [("a", VStr " <b> ");
                         ("n", VArr [VNull; VNum 3; VBool true])]))
           eq_refl eq_refl eq_refl).
Defined.

(** X3.  Without a credential the client throws its configuration error and
    sends nothing. *)
Theorem makeRequest_requires_credential :
  forall (rt : runtime) (st : config) (method path : string) (body : value),
    BASELINE_API_KEY st = "" ->
    makeRequest rt st method path body
    = ([], inl (ErrorObj "BASELINE_API_KEY is not configured. Please set it via environment variables or the 'setBaselineApiKey' function.")).
Proof.
  intros rt st method path body Hkey. unfold makeRequest. now rewrite Hkey.
Qed.

Lemma makeRequest_requires_credential_witness :
  makeRequest (canned_runtime no_content) (mkConfig "" "https://api.test")
    "GET" "/loan" VUndefined
  = ([], inl (ErrorObj "BASELINE_API_KEY is not configured. Please set it via environment variables or the 'setBaselineApiKey' function.")).
Proof.
  exact (makeRequest_requires_credential
           (canned_runtime no_content) (mkConfig "" "https://api.test")
           "GET" "/loan" VUndefined eq_refl).
Defined.

(** X4.  A successful response with an empty body resolves to the empty object;
    [JSON.parse] is not called on it. *)
Theorem makeRequest_empty_body :
  forall (rt : runtime) (st : config) (token method path : string)
         (body : value) (resp : response),
    BASELINE_API_KEY st <> "" ->
    ToString rt (resolveApiKey rt st) = inr token ->
    fetch rt (request_for rt st token method path body) = inr resp ->
    ok resp = true ->
    body_text resp = inr "" ->
    makeRequest rt st method path body
    = ([request_for rt st token method path body], inr (VObj [])).
Proof.
  intros rt st token method path body resp Hkey Htok Hfetch Hok Hbody.
  rewrite (makeRequest_issued rt st token method path body Hkey Htok).
  rewrite Hfetch. unfold settle. now rewrite Hok, Hbody.
Qed.

Lemma makeRequest_empty_body_witness :
  makeRequest (canned_runtime no_content) plain_config "DELETE" "/task/9" VUndefined
  = ([mkRequest "DELETE" "https://api.test/task/9"
        [ ("Authorization", "Token secret-token");
          ("Content-Type", "application/json");
          ("Accept", "application/json") ] None],
     inr (VObj [])).
Proof.
  refine (makeRequest_empty_body
            (canned_runtime no_content) plain_config "secret-token"
            "DELETE" "/task/9" VUndefined no_content _ eq_refl eq_refl eq_refl eq_refl).
  discriminate.
Defined.

(** ** One request at most *)

Section OneRequest.

Variable rt : runtime.
Variable st : config.

Lemma sends_nothing_lift {X : Type} (e : E X) : sends_nothing (lift e).
Proof. reflexivity. Qed.

Lemma sends_nothing_ret {X : Type} (x : X) : sends_nothing (ret x).
Proof. reflexivity. Qed.

Lemma sends_nothing_bind {X Y : Type} (m : M X) (k : X -> M Y) :
  sends_nothing m -> (forall x, sends_nothing (k x)) -> sends_nothing (bind m k).
Proof.
  unfold sends_nothing. intros Hm Hk. destruct m as [l [t|x]]; simpl in *.
  - exact Hm.
  - specialize (Hk x). destruct (k x). simpl in *. now subst.
Qed.

Lemma at_most_one_makeRequest method path body :
  sends_at_most_one (makeRequest rt st method path body).
Proof.
  unfold sends_at_most_one.
  destruct (makeRequest_cases rt st method path body)
    as [[t Ht]|(token & _ & _ & Hm)]; [rewrite Ht | rewrite Hm]; simpl; lia.
Qed.

Lemma at_most_one_quiet {X : Type} (m : M X) :
  sends_nothing m -> sends_at_most_one m.
Proof. unfold sends_nothing, sends_at_most_one. intros ->. simpl. lia. Qed.

Lemma at_most_one_after {X Y : Type} (m : M X) (k : X -> M Y) :
  sends_nothing m -> (forall x, sends_at_most_one (k x)) ->
  sends_at_most_one (bind m k).
Proof.
  unfold sends_nothing, sends_at_most_one. intros Hm Hk.
  destruct m as [l [t|x]]; simpl in *; subst; simpl; [lia|].
  specialize (Hk x). now destruct (k x).
Qed.

Lemma at_most_one_then_quiet {X Y : Type} (m : M X) (k : X -> M Y) :
  sends_at_most_one m -> (forall x, sends_nothing (k x)) ->
  sends_at_most_one (bind m k).
Proof.
  unfold sends_nothing, sends_at_most_one. intros Hm Hk.
  destruct m as [l [t|x]]; simpl in *; [exact Hm|].
  specialize (Hk x). destruct (k x). simpl in *. subst. now rewrite app_nil_r.
Qed.

Lemma at_most_one_try_catch {X : Type} (m : M X) (h : thrown -> M X) :
  sends_at_most_one m -> (forall t, sends_nothing (h t)) ->
  sends_at_most_one (try_catch m h).
Proof.
  unfold sends_nothing, sends_at_most_one. intros Hm Hh.
  destruct m as [l [t|x]]; simpl in *; [|exact Hm].
  specialize (Hh t). destruct (h t). simpl in *. subst. now rewrite app_nil_r.
Qed.

Ltac quiet_steps :=
  repeat first
    [ apply sends_nothing_ret
    | apply sends_nothing_lift
    | apply sends_nothing_bind; [|intros ?]
    | match goal with
      | |- sends_nothing (if ?c then _ else _) => destruct c
      end ].

Ltac one_request_steps :=
  cbv zeta; unfold client_get, client_post, client_patch, client_put, client_delete;
  repeat first
    [ apply at_most_one_makeRequest
    | apply at_most_one_quiet; solve [quiet_steps]
    | apply at_most_one_then_quiet; [apply at_most_one_makeRequest | intros ?; solve [quiet_steps]]
    | apply at_most_one_after; [solve [quiet_steps] | intros ?]
    | match goal with
      | |- sends_at_most_one (if ?c then _ else _) => destruct c
      end ].

Lemma handler_sends_at_most_one (name : tool) (args : value) :
  sends_at_most_one (toolHandlers rt st name args).
Proof.
  destruct name; unfold toolHandlers;
    match goal with
    | |- context [?h rt st args] => unfold h
    end;
    (apply at_most_one_try_catch; [|intros ?; apply sends_nothing_ret]);
    one_request_steps.
Qed.

End OneRequest.

(** X5.  Every invocation of a tool hands at most one request to [fetch]. *)
Theorem tool_invocation_sends_at_most_one_request :
  forall (rt : runtime) (st : config) (name : tool) (args : value),
    (List.length (fst (toolHandlers rt st name args)) <= 1)%nat.
Proof.
  intros rt st name args. apply handler_sends_at_most_one.
Qed.

(* ===================================================================== *)
(** * What a handler returns once its request is sent *)
(* ===================================================================== *)

Section Outcome.

Variable rt : runtime.
Variable st : config.

Lemma follows_quiet (m : M ToolResult) : sends_nothing m -> follows_upstream rt m.
Proof. intros H. now left. Qed.

Lemma follows_after {X : Type} (m : M X) (k : X -> M ToolResult) :
  sends_nothing m -> (forall x, follows_upstream rt (k x)) ->
  follows_upstream rt (bind m k).
Proof.
  unfold sends_nothing. intros Hm Hk. destruct m as [l [t|x]]; simpl in *; subst.
  - now left.
  - specialize (Hk x). destruct (k x). exact Hk.
Qed.

Lemma follows_request method path body :
  follows_upstream rt
    (bind (makeRequest rt st method path body)
          (fun data => ret (text_result (pretty rt data) false))).
Proof.
  destruct (makeRequest_cases rt st method path body)
    as [[t Ht]|(token & _ & _ & Hm)].
  - left. now rewrite Ht.
  - right. exists (request_for rt st token method path body).
    rewrite Hm. destruct (settle rt _) as [t|data]; simpl; now split.
Qed.

Ltac follows_steps :=
  cbv zeta; unfold client_get, client_post, client_patch, client_put, client_delete;
  repeat first
    [ apply follows_request
    | apply follows_quiet; solve [quiet_by_steps]
    | apply follows_after; [solve [quiet_by_steps] | intros ?]
    | match goal with
      | |- follows_upstream _ (if ?c then _ else _) => destruct c
      end ]
with quiet_by_steps :=
  repeat first
    [ apply sends_nothing_ret
    | apply sends_nothing_lift
    | apply sends_nothing_bind; [|intros ?]
    | match goal with
      | |- sends_nothing (if ?c then _ else _) => destruct c
      end ].

Lemma handler_body_follows (name : tool) (args : value) :
  name <> T_listLoans ->
  exists body,
    toolHandlers rt st name args
    = try_catch body
        (fun error =>
           ret (text_result ("Error " ++ doing name ++ ": " ++ error_message error) true))
    /\ follows_upstream rt body.
Proof.
  intros Hname. destruct name; try contradiction; unfold toolHandlers;
    match goal with
    | |- context [?h rt st args] => unfold h
    end;
    (eexists; split; [reflexivity|]); follows_steps.
Qed.

Lemma handler_follows (name : tool) (args : value) (req : request) :
  name <> T_listLoans ->
  fst (toolHandlers rt st name args) = [req] ->
  snd (toolHandlers rt st name args)
  = inr (rendered rt name (settle rt (fetch rt req))).
Proof.
  intros Hname Hlog.
  destruct (handler_body_follows name args Hname) as (body & Hh & Hbody).
  rewrite Hh in *. clear Hh.
  destruct body as [l r]. destruct Hbody as [Hq|(req' & Hl & Hr)]; simpl in *.
  - subst l. destruct r as [t|x]; simpl in Hlog; discriminate Hlog.
  - subst l r. destruct (settle rt (fetch rt req')) as [t|data] eqn:Es; simpl in *.
    + injection Hlog as <-. now rewrite Es.
    + injection Hlog as <-. now rewrite Es.
Qed.

Lemma listLoans_follows (args : value) (req : request) :
  fst (toolHandlers rt st T_listLoans args) = [req] ->
  snd (toolHandlers rt st T_listLoans args)
  = inr (rendered rt T_listLoans (bindE (settle rt (fetch rt req)) loans_result)).
Proof.
  unfold toolHandlers, listLoans, client_get.
  destruct (makeRequest_cases rt st "GET" "/loan" VUndefined)
    as [[t Ht]|(token & _ & _ & Hm)].
  - rewrite Ht. simpl. discriminate.
  - rewrite Hm. destruct (settle rt _) as [t|data] eqn:Es; simpl.
    + intros [= <-]. now rewrite Es.
    + destruct (loans_result data) as [t|result] eqn:Er; simpl;
        intros [= <-]; rewrite Es; simpl; now rewrite Er.
Qed.

End Outcome.

(** X6.  Once a handler has sent its request, what it returns is what the
    client made of the answer, rendered: if [fetch] rejected, or the
    status was outside 200-299, or the body could not be read or parsed,
    the text ["Error <doing X>: <message of what was thrown>"] with
    [isError] true; otherwise the pretty-printed data with [isError]
    false ([{}] for an empty body).  [listLoans] renders its
    post-processed result in place of the data. *)
Theorem handler_result_follows_upstream :
  forall (rt : runtime) (st : config) (name : tool) (args : value) (req : request),
    fst (toolHandlers rt st name args) = [req] ->
    snd (toolHandlers rt st name args)
    = inr (rendered rt name (post_process name (settle rt (fetch rt req)))).
Proof.
  intros rt st name args req Hlog.
  destruct name;
    try (apply handler_follows; [discriminate | exact Hlog]).
  now apply listLoans_follows.
Qed.

Lemma handler_result_follows_upstream_witness :
  snd (toolHandlers (canned_runtime (mkResponse 200 "OK" (inr json_apiKey_abc)))
         plain_config T_getTask (VObj [("taskId", VStr "7")]))
  = inr (text_result "{}" false).
Proof.
  exact (handler_result_follows_upstream
           (canned_runtime (mkResponse 200 "OK" (inr json_apiKey_abc)))
           plain_config T_getTask (VObj [("taskId", VStr "7")]) _ eq_refl).
Defined.

(* ===================================================================== *)
(** * What the sanitiser guarantees on every input *)
(* ===================================================================== *)

Lemma list_of_substring (n : nat) (s : string) :
  list_ascii_of_string (substring 0 n s) = firstn n (list_ascii_of_string s).
Proof.
  rewrite substring_firstn. apply list_ascii_of_string_of_list_ascii.
Qed.

Lemma forallb_firstn {X : Type} (f : X -> bool) (n : nat) (l : list X) :
  forallb f l = true -> forallb f (firstn n l) = true.
Proof.
  revert n; induction l as [|x l IH]; intros [|n]; simpl; try reflexivity.
  intros H. apply andb_true_iff in H as [Hx Hl]. now rewrite Hx, IH.
Qed.

Lemma forallb_filter_self {X : Type} (f : X -> bool) (l : list X) :
  forallb f (filter f l) = true.
Proof.
  induction l as [|x l IH]; simpl; [reflexivity|].
  destruct (f x) eqn:Ef; simpl; [now rewrite Ef|exact IH].
Qed.

Lemma sanitized_string_clean (s : string) :
  clean_string (substring 0 1000 (remove_class dangerous (trim s))) = true.
Proof.
  unfold clean_string. apply andb_true_iff. split.
  - rewrite list_of_substring, list_of_remove_class.
    apply forallb_firstn, forallb_filter_self.
  - apply Nat.leb_le, length_substring_le.
Qed.

Lemma clean_leaves_obj (props : list (string * value)) :
  clean_leaves (VObj props) = clean_props props.
Proof.
  induction props as [|[k x] rest IH]; [reflexivity|].
  change (clean_leaves (VObj ((k, x) :: rest)))
    with (clean_leaves x && clean_leaves (VObj rest)).
  now rewrite IH.
Qed.

Lemma clean_replace_prop k x (props : list (string * value)) :
  clean_leaves x = true -> clean_props props = true ->
  clean_props (replace_prop k x props) = true.
Proof.
  intros Hx. induction props as [|[k' v] rest IH]; simpl; [reflexivity|].
  intros H. apply andb_true_iff in H as [Hv Hrest].
  destruct (k =? k')%string; simpl.
  - now rewrite Hx, Hrest.
  - now rewrite Hv, IH.
Qed.

Lemma clean_set_prop k x (props : list (string * value)) :
  clean_leaves x = true -> clean_props props = true ->
  clean_props (set_prop props k x) = true.
Proof.
  intros Hx Hp. unfold set_prop.
  destruct (k =? "__proto__")%string; [exact Hp|].
  destruct (assoc k props).
  - now apply clean_replace_prop.
  - unfold clean_props. rewrite forallb_app. simpl.
    unfold clean_props in Hp. now rewrite Hp, Hx.
Qed.

Lemma sanitize_elems_clean (elems : list value) :
  Forall (fun x => exists r, sanitizeValue x = inr r /\ clean_leaves r = true) elems ->
  exists rs, sanitize_elems elems = inr rs /\ forallb clean_leaves rs = true.
Proof.
  induction 1 as [|x rest (r & Hr & Hc) _ (rs & Hrs & Hcs)]; simpl.
  - now exists [].
  - rewrite Hr. simpl. rewrite Hrs. simpl. exists (r :: rs).
    split; [reflexivity|]. simpl. now rewrite Hc, Hcs.
Qed.

Lemma sanitize_entries_clean (props acc : list (string * value)) :
  Forall (fun kv => exists r, sanitizeValue (snd kv) = inr r /\ clean_leaves r = true)
         props ->
  clean_props acc = true ->
  exists out, sanitize_entries props acc = inr out /\ clean_props out = true.
Proof.
  intros Hall. revert acc.
  induction Hall as [|[k x] rest (r & Hr & Hc) _ IH]; intros acc Hacc; simpl.
  - now exists acc.
  - simpl in Hr. rewrite Hr. simpl. apply IH. now apply clean_set_prop.
Qed.

Lemma sanitizeValue_clean (v : value) :
  exists r, sanitizeValue v = inr r /\ clean_leaves r = true.
Proof.
  induction v as [| | b | n | s | elems IH | props IH] using value_ind_nested;
    try (eexists; split; reflexivity).
  - eexists. split; [reflexivity|]. apply sanitized_string_clean.
  - destruct (sanitize_elems_clean elems IH) as (rs & Hrs & Hcs).
    exists (VArr rs). rewrite sanitizeValue_arr, Hrs. now split.
  - destruct (sanitize_entries_clean props [] IH eq_refl) as (out & Hout & Hc).
    exists (VObj out). rewrite sanitizeValue_obj, Hout. split; [reflexivity|].
    now rewrite clean_leaves_obj.
Qed.

Lemma sanitizeObject_total (v : value) :
  is_plain_object v = true ->
  exists r,
    sanitizeObject v = inr r /\ clean_leaves r = true /\ is_plain_object r = true.
Proof.
  intros Ho. destruct (sanitizeValue_clean v) as (r & Hr & Hc).
  exists r. unfold sanitizeObject.
  destruct v; try discriminate Ho; simpl negb; simpl orb; cbv iota;
    (split; [exact Hr|]); (split; [exact Hc|]).
  - rewrite sanitizeValue_arr in Hr.
    destruct (sanitize_elems elems); simpl in Hr; [discriminate|now injection Hr as <-].
  - rewrite sanitizeValue_obj in Hr.
    destruct (sanitize_entries props []); simpl in Hr;
      [discriminate|now injection Hr as <-].
Qed.

(** X7.  [sanitizeObject] never throws on a non-null object or array,
    whatever it holds (keys repeated, keys named [__proto__], any depth):
    it returns an object for an object and an array for an array, and in
    what it returns every string leaf is free of the five characters
    (less-than, greater-than, double quote, single quote, ampersand) and at
    most 1000 characters long. *)
Theorem sanitizeObject_output_is_clean :
  forall v : value,
    is_plain_object v = true ->
    exists r,
      sanitizeObject v = inr r
      /\ clean_leaves r = true
      /\ typeof r = TObject
      /\ isArray_like v r.
Proof.
  intros v Ho. destruct (sanitizeValue_clean v) as (r & Hr & Hc).
  exists r. unfold sanitizeObject.
  destruct v; try discriminate Ho; simpl negb; simpl orb; cbv iota;
    (split; [exact Hr|]); (split; [exact Hc|]).
  - rewrite sanitizeValue_arr in Hr.
    destruct (sanitize_elems elems); simpl in Hr;
      [discriminate | injection Hr as <-; now split].
  - rewrite sanitizeValue_obj in Hr.
    destruct (sanitize_entries props []); simpl in Hr;
      [discriminate | injection Hr as <-; now split].
Qed.

Lemma sanitizeObject_output_is_clean_witness :
  exists r,
    sanitizeObject
      (VObj [("__proto__", VStr "<p>"); ("k", VStr "a&b"); ("k", VArr [VStr " 'x' "])])
    = inr r
    /\ clean_leaves r = true
    /\ typeof r = TObject
    /\ isArray_like
         (VObj [("__proto__", VStr "<p>"); ("k", VStr "a&b"); ("k", VArr [VStr " 'x' "])])
         r.
Proof.
  exact (sanitizeObject_output_is_clean
           (VObj [("__proto__", VStr "<p>"); ("k", VStr "a&b");
                  ("k", VArr [VStr " 'x' "])])
           eq_refl).
Defined.

(** ** The strings [sanitizeString] leaves as they are *)

Lemma drop_ws_length (l : list ascii) :
  (List.length (drop_ws l) <= List.length l)%nat.
Proof.
  induction l as [|c l IH]; simpl; [lia|]. destruct (isWhiteSpace c); simpl; lia.
Qed.

Lemma drop_ws_same_length (l : list ascii) :
  List.length (drop_ws l) = List.length l ->
  drop_ws l = l
  /\ match l with c :: _ => negb (isWhiteSpace c) | [] => true end = true.
Proof.
  destruct l as [|c l]; simpl; [now split|].
  destruct (isWhiteSpace c); simpl; [|now split].
  intros H. pose proof (drop_ws_length l). lia.
Qed.

Lemma drop_ws_head (l : list ascii) :
  match l with c :: _ => negb (isWhiteSpace c) | [] => true end = true ->
  drop_ws l = l.
Proof.
  destruct l as [|c l]; simpl; [reflexivity|]. now destruct (isWhiteSpace c).
Qed.

Lemma filter_length_le {X : Type} (f : X -> bool) (l : list X) :
  (List.length (filter f l) <= List.length l)%nat.
Proof.
  induction l as [|x l IH]; simpl; [lia|]. destruct (f x); simpl; lia.
Qed.

Lemma filter_same_length {X : Type} (f : X -> bool) (l : list X) :
  List.length (filter f l) = List.length l -> forallb f l = true.
Proof.
  induction l as [|x l IH]; simpl; [reflexivity|].
  destruct (f x); simpl.
  - intros H. apply IH. lia.
  - intros H. pose proof (filter_length_le f l). lia.
Qed.

Lemma filter_all {X : Type} (f : X -> bool) (l : list X) :
  forallb f l = true -> filter f l = l.
Proof.
  induction l as [|x l IH]; simpl; [reflexivity|].
  intros H. apply andb_true_iff in H as [Hx Hl]. now rewrite Hx, IH.
Qed.

Lemma string_length_list (s : string) :
  String.length s = List.length (list_ascii_of_string s).
Proof. induction s; simpl; [reflexivity | now rewrite IHs]. Qed.

(** The list of characters [sanitizeString] returns. *)
Lemma sanitized_chars (s : string) :
  list_ascii_of_string (substring 0 1000 (remove_class dangerous (trim s)))
  = firstn 1000
      (filter (fun c => negb (dangerous c))
              (rev (drop_ws (rev (drop_ws (list_ascii_of_string s)))))).
Proof.
  now rewrite list_of_substring, list_of_remove_class, list_of_trim.
Qed.

Lemma tidy_unchanged (s : string) :
  tidy s = true -> sanitizeString (VStr s) = inr s.
Proof.
  unfold tidy. intros H.
  apply andb_true_iff in H as [H Hlen]. apply andb_true_iff in H as [H Hd].
  apply andb_true_iff in H as [Hs He].
  unfold sanitizeString. f_equal.
  rewrite <- (string_of_list_ascii_of_string s) at 2.
  rewrite <- (string_of_list_ascii_of_string (substring _ _ _)).
  f_equal. rewrite sanitized_chars.
  rewrite (drop_ws_head _ Hs), (drop_ws_head _ He), rev_involutive.
  rewrite (filter_all _ _ Hd). apply firstn_all2. now apply Nat.leb_le.
Qed.

Lemma unchanged_tidy (s : string) :
  sanitizeString (VStr s) = inr s -> tidy s = true.
Proof.
  unfold sanitizeString. intros [= H].
  apply (f_equal list_ascii_of_string) in H. rewrite sanitized_chars in H.
  set (l := list_ascii_of_string s) in *.
  set (a := drop_ws l) in *.
  set (b := drop_ws (rev a)) in *.
  set (c := filter (fun c => negb (dangerous c)) (rev b)) in *.
  assert (List.length (firstn 1000 c) = Nat.min 1000 (List.length c)) as H1
    by apply length_firstn.
  assert (List.length c <= List.length (rev b))%nat as H2
    by apply filter_length_le.
  assert (List.length b <= List.length (rev a))%nat as H3 by apply drop_ws_length.
  assert (List.length a <= List.length l)%nat as H4 by apply drop_ws_length.
  assert (List.length (firstn 1000 c) = List.length l) as H0 by now rewrite H.
  rewrite !length_rev in *.
  assert (List.length a = List.length l) as Ea by lia.
  assert (List.length b = List.length (rev a)) as Eb by (rewrite length_rev; lia).
  assert (List.length c = List.length (rev b)) as Ec by (rewrite length_rev; lia).
  destruct (drop_ws_same_length l Ea) as [Hal Hs].
  destruct (drop_ws_same_length (rev a) Eb) as [Hbl He].
  apply filter_same_length in Ec.
  fold a in Hal. fold b in Hbl.
  unfold tidy. fold l.
  rewrite Hbl, rev_involutive, Hal in Ec.
  rewrite Hal in He.
  rewrite Hs, He, Ec. simpl.
  apply Nat.leb_le. lia.
Qed.

(** X8.  [sanitizeString] returns a string unchanged exactly when the
    string has no white space at either end, none of the five characters
    (less-than, greater-than, double quote, single quote, ampersand), and
    at most 1000 characters; every other string comes back altered. *)
Theorem sanitizeString_fixed_points :
  forall s : string, sanitizeString (VStr s) = inr s <-> tidy s = true.
Proof.
  intros s. split; [apply unchanged_tidy | apply tidy_unchanged].
Qed.

Lemma sanitizeString_fixed_points_witness :
  sanitizeString (VStr "loan-12345") = inr "loan-12345".
Proof.
  exact (proj2 (sanitizeString_fixed_points "loan-12345") eq_refl).
Defined.

(* ===================================================================== *)
(** * Arguments that stop a handler before it calls the client *)
(* ===================================================================== *)

Lemma validate_reports_found (args : value) (fields : list string) (f : string) :
  find (missing args) fields = Some f ->
  validateRequiredArgs args fields
  = inl (ErrorObj ("Missing required argument: " ++ f)).
Proof.
  induction fields as [|g rest IH]; simpl; [discriminate|].
  unfold missing at 1.
  destruct (truthy args) eqn:Ht; simpl; [|now intros [= <-]].
  destruct (get_prop args g) as [t|v] eqn:Eg; simpl.
  - destruct args; simpl in Ht, Eg; discriminate.
  - unfold present. rewrite negb_involutive.
    destruct (is_undefined v || is_null v); [now intros [= <-] | exact IH].
Qed.

(** X9.  When a required argument of a handler is absent or [null], the
    handler sends nothing and returns, with [isError] true, the text
    ["Error <doing X>: Missing required argument: <name>"] for the first
    such argument in the order the handler lists them; the other
    arguments are not looked at. *)
Theorem missing_argument_is_reported :
  forall (rt : runtime) (st : config) (name : tool) (args : value) (f : string),
    find (missing args) (required name) = Some f ->
    toolHandlers rt st name args
    = ([], inr (text_result
              ("Error " ++ doing name ++ ": Missing required argument: " ++ f)
              true)).
Proof.
  intros rt st name args f Hf.
  assert (Hv := validate_reports_found args (required name) f Hf).
  destruct name; try discriminate Hf; cbn [required] in Hv;
    unfold toolHandlers;
    match goal with
    | |- context [?h rt st args] => unfold h
    end;
    rewrite Hv; reflexivity.
Qed.

Lemma missing_argument_is_reported_witness :
  toolHandlers (canned_runtime no_content) plain_config T_connectVendors
    (VObj [("connectToVendorId", VNull); ("vendorId", VStr "3")])
  = ([], inr (text_result
            "Error connecting vendors: Missing required argument: connectToVendorId"
            true)).
Proof.
  exact (missing_argument_is_reported
           (canned_runtime no_content) plain_config T_connectVendors
           (VObj [("connectToVendorId", VNull); ("vendorId", VStr "3")])
           "connectToVendorId" eq_refl).
Defined.

Section Identifiers.

Variable rt : runtime.
Variable st : config.

Ltac read_fields Hall :=
  repeat match goal with
  | H : get_prop ?a ?f = _ |- context [lift (get_prop ?a ?f)] =>
      rewrite H, bind_lift_inr
  | |- context [lift (get_prop ?a ?f)] =>
      let v := fresh "v" in
      let Hv := fresh "Hv" in
      destruct (Hall f ltac:(simpl; tauto)) as (_ & v & Hv & _)
  end.

Lemma not_nonempty_other (v : value) :
  js_type_eqb (typeof v) TString = false -> not_nonempty_string v = true.
Proof. now destruct v. Qed.

Lemma non_string_identifier (name : tool) (args v : value) (id : string) :
  In id (identifier_fields name) ->
  validateRequiredArgs args (required name) = inr tt ->
  get_prop args id = inr v ->
  js_type_eqb (typeof v) TString = false ->
  exists txt,
    toolHandlers rt st name args = ([], inr (text_result txt true))
    /\ includes txt "non-empty string" = true.
Proof.
  intros Hin Hval Hget Hty.
  assert (Hall := validate_ok_inv _ _ Hval).
  assert (Hbad := not_nonempty_other v Hty).
  destruct name; simpl in Hin; repeat (destruct Hin as [<-|Hin]);
    try contradiction; cbn [required] in Hval, Hall;
    unfold toolHandlers;
    match goal with
    | |- context [?h rt st args] => unfold h
    end;
    rewrite Hval, bind_lift_inr; read_fields Hall;
    rewrite Hbad, ?orb_true_r;
    (eexists; split; [reflexivity | reflexivity]).
Qed.

End Identifiers.

(** X10.  An identifier that is not a string (a number, a boolean, an
    array, an object) is turned away like a blank one: with all required
    arguments present, the handler sends nothing and returns one text with
    [isError] true that contains "non-empty string".  No identifier is
    converted to a string. *)
Theorem non_string_identifier_rejected :
  forall (rt : runtime) (st : config) (name : tool) (args v : value) (id : string),
    In id (identifier_fields name) ->
    validateRequiredArgs args (required name) = inr tt ->
    get_prop args id = inr v ->
    js_type_eqb (typeof v) TString = false ->
    exists txt,
      toolHandlers rt st name args = ([], inr (text_result txt true))
      /\ includes txt "non-empty string" = true.
Proof.
  intros. now apply non_string_identifier with (v := v) (id := id).
Qed.

Lemma non_string_identifier_rejected_witness :
  exists txt,
    toolHandlers (canned_runtime no_content) plain_config T_getLoan
      (VObj [("loanId", VNum 12345)])
    = ([], inr (text_result txt true))
    /\ includes txt "non-empty string" = true.
Proof.
  exact (non_string_identifier_rejected
           (canned_runtime no_content) plain_config T_getLoan
           (VObj [("loanId", VNum 12345)]) (VNum 12345) "loanId"
           (or_introl eq_refl) eq_refl eq_refl eq_refl).
Defined.

(* ===================================================================== *)
(** * The request each handler sends for arguments that pass its checks *)
(* ===================================================================== *)

Lemma append_empty (s : string) : s ++ "" = s.
Proof. induction s as [|c s IH]; simpl; [reflexivity | now rewrite IH]. Qed.

Section Routes.

Variable rt : runtime.
Variable st : config.
Variable token : string.
Hypothesis Hkey : BASELINE_API_KEY st <> "".
Hypothesis Htoken : ToString rt (resolveApiKey rt st) = inr token.

Lemma log_of_request (method path : string) (body : value)
      (k : value -> M ToolResult) (h : thrown -> M ToolResult) :
  (forall x, fst (k x) = []) ->
  (forall t, fst (h t) = []) ->
  fst (try_catch (bind (makeRequest rt st method path body) k) h)
  = [request_for rt st token method path body].
Proof.
  intros Hk Hh.
  rewrite (makeRequest_issued rt st token method path body Hkey Htoken).
  destruct (settle rt _) as [t|x]; simpl.
  - specialize (Hh t). destruct (h t). simpl in *. now subst.
  - specialize (Hk x). destruct (k x) as [l [t|r]]; simpl in *; subst; simpl.
    + specialize (Hh t). destruct (h t). simpl in *. now subst.
    + reflexivity.
Qed.

Ltac enter_handler :=
  unfold toolHandlers;
  match goal with
  | |- context [?h rt st ?args] => unfold h
  end;
  unfold client_get, client_post, client_patch, client_put, client_delete.

Ltac pass_validation :=
  repeat (erewrite validate_cons_present by (eassumption || reflexivity));
  cbn [validateRequiredArgs]; rewrite bind_lift_inr.

Ltac read_known_fields :=
  repeat match goal with
  | H : get_prop ?a ?f = _ |- context [lift (get_prop ?a ?f)] =>
      rewrite H, bind_lift_inr
  end.

Lemma identifier_route_taken name verb field before after args s :
  identifier_route name = Some (verb, field, before, after) ->
  get_prop args field = inr (VStr s) ->
  trim s <> "" ->
  fst (toolHandlers rt st name args)
  = [request_for rt st token verb (before ++ sanitizeText_spec s ++ after) VUndefined].
Proof.
  intros Hroute Hget Hs.
  assert (Hfilled := not_nonempty_filled s Hs).
  assert (Hsan := sanitizeString_refines s).
  assert (truthy args = true) as Ht.
  { destruct name; try discriminate Hroute; injection Hroute as <- <- <- <-;
      (refine (get_prop_truthy args _ (VStr s) _ Hget _); reflexivity). }
  destruct name; try discriminate Hroute; injection Hroute as <- <- <- <-;
    enter_handler; pass_validation; read_known_fields;
    rewrite Hfilled, Hsan, bind_lift_inr, ?append_empty;
    now apply log_of_request.
Qed.

Lemma connect_route_taken name verb field other before args s1 s2 :
  connect_route name = Some (verb, field, other, before) ->
  get_prop args field = inr (VStr s1) -> trim s1 <> "" ->
  get_prop args other = inr (VStr s2) -> trim s2 <> "" ->
  fst (toolHandlers rt st name args)
  = [request_for rt st token verb
       (before ++ sanitizeText_spec s1 ++ "/connect/" ++ sanitizeText_spec s2)
       (if (verb =? "PUT")%string then VObj [] else VUndefined)].
Proof.
  intros Hroute Hg1 Hs1 Hg2 Hs2.
  assert (Hf1 := not_nonempty_filled s1 Hs1).
  assert (Hf2 := not_nonempty_filled s2 Hs2).
  assert (Hsan1 := sanitizeString_refines s1).
  assert (Hsan2 := sanitizeString_refines s2).
  assert (truthy args = true) as Ht.
  { destruct name; try discriminate Hroute; injection Hroute as <- <- <- <-;
      (refine (get_prop_truthy args _ (VStr s1) _ Hg1 _); reflexivity). }
  destruct name; try discriminate Hroute; injection Hroute as <- <- <- <-;
    enter_handler; pass_validation; read_known_fields;
    rewrite Hf1, Hf2; cbn [orb];
    rewrite Hsan1, bind_lift_inr, Hsan2, bind_lift_inr;
    now apply log_of_request.
Qed.

Lemma update_route_taken name field before args s u :
  update_route name = Some (field, before) ->
  get_prop args field = inr (VStr s) -> trim s <> "" ->
  get_prop args "updates" = inr u -> is_plain_object u = true ->
  exists body,
    sanitizeObject u = inr body
    /\ fst (toolHandlers rt st name args)
       = [request_for rt st token "PATCH" (before ++ sanitizeText_spec s) body].
Proof.
  intros Hroute Hget Hs Hu Ho.
  destruct (sanitizeObject_total u Ho) as (body & Hbody & _ & _).
  exists body. split; [exact Hbody|].
  assert (Hfilled := not_nonempty_filled s Hs).
  assert (Hsan := sanitizeString_refines s).
  assert (present u = true) as Hp by (destruct u; try discriminate Ho; reflexivity).
  assert (not_object_or_null u = false) as Hn1
    by (destruct u; try discriminate Ho; reflexivity).
  assert (falsy_or_not_object u = false) as Hn2
    by (destruct u; try discriminate Ho; reflexivity).
  assert (truthy args = true) as Ht.
  { destruct name; try discriminate Hroute; injection Hroute as <- <-;
      (refine (get_prop_truthy args _ (VStr s) _ Hget _); reflexivity). }
  destruct name; try discriminate Hroute; injection Hroute as <- <-;
    enter_handler; pass_validation; read_known_fields;
    rewrite Hfilled, ?Hn1, ?Hn2, Hsan, bind_lift_inr, Hbody, bind_lift_inr;
    now apply log_of_request.
Qed.

Lemma create_route_taken name field path args d :
  create_route name = Some (field, path) ->
  get_prop args field = inr d -> is_plain_object d = true ->
  exists body,
    sanitizeObject d = inr body
    /\ fst (toolHandlers rt st name args)
       = [request_for rt st token "POST" path body].
Proof.
  intros Hroute Hget Ho.
  destruct (sanitizeObject_total d Ho) as (body & Hbody & _ & _).
  exists body. split; [exact Hbody|].
  assert (present d = true) as Hp by (destruct d; try discriminate Ho; reflexivity).
  assert (not_object_or_null d = false) as Hn1
    by (destruct d; try discriminate Ho; reflexivity).
  assert (falsy_or_not_object d = false) as Hn2
    by (destruct d; try discriminate Ho; reflexivity).
  assert (truthy args = true) as Ht.
  { destruct name; try discriminate Hroute; injection Hroute as <- <-;
      (refine (get_prop_truthy args _ d _ Hget _);
       [reflexivity | destruct d; try discriminate Ho; reflexivity]). }
  destruct name; try discriminate Hroute; injection Hroute as <- <-;
    enter_handler; pass_validation; read_known_fields;
    rewrite ?Hn1, ?Hn2, Hbody, bind_lift_inr;
    now apply log_of_request.
Qed.

Lemma createTask_route_taken args v :
  get_prop args "Name" = inr v -> present v = true ->
  exists body,
    sanitizeObject args = inr body
    /\ fst (toolHandlers rt st T_createTask args)
       = [request_for rt st token "POST" "/task" body].
Proof.
  intros Hget Hp.
  assert (is_plain_object args = true) as Ho.
  { destruct args; simpl in Hget; try discriminate Hget;
      try reflexivity; injection Hget as <-; discriminate Hp. }
  assert (truthy args = true) as Ht by (destruct args; try discriminate Ho; reflexivity).
  destruct (sanitizeObject_total args Ho) as (body & Hbody & _ & _).
  exists body. split; [exact Hbody|].
  enter_handler; pass_validation. rewrite Hbody, bind_lift_inr.
  now apply log_of_request.
Qed.

Lemma unchecked_list_route_taken name path args page :
  unchecked_list_route name = Some path ->
  get_prop (if truthy args then args else VObj []) "page" = inr page ->
  (truthy page = false ->
   fst (toolHandlers rt st name args)
   = [request_for rt st token "GET" path VUndefined])
  /\ (forall s,
        truthy page = true -> toString_method rt page = inr s ->
        fst (toolHandlers rt st name args)
        = [request_for rt st token "GET"
             (path ++ "?page=" ++ urlencode s) VUndefined])
  /\ (forall t,
        truthy page = true -> toString_method rt page = inl t ->
        toolHandlers rt st name args
        = ([], inr (text_result
                  ("Error " ++ doing name ++ ": " ++ error_message t) true))).
Proof.
  intros Hroute Hget. split; [|split].
  - intros Hp.
    destruct name; try discriminate Hroute; injection Hroute as <-;
      enter_handler; rewrite Hget, bind_lift_inr, Hp, bind_ret;
      cbn -[makeRequest try_catch bind]; now apply log_of_request.
  - intros s Hp Hs.
    destruct name; try discriminate Hroute; injection Hroute as <-;
      enter_handler; rewrite Hget, bind_lift_inr, Hp, Hs, bind_lift_inr, bind_ret;
      cbn -[makeRequest try_catch bind urlencode append];
      now apply log_of_request.
  - intros t Hp Ht.
    destruct name; try discriminate Hroute; injection Hroute as <-;
      enter_handler; rewrite Hget, bind_lift_inr, Hp, Ht; reflexivity.
Qed.

End Routes.

(** X11.  With a credential configured, each of the ten handlers that
    read or delete one record sends, for an identifier [s] that is a
    string with something other than white space in it, exactly one
    request without a body: [GET] or [DELETE] on the path of the record,
    in which the identifier appears sanitised (trimmed, the five
    characters removed, cut to 1000) and not URL-encoded. *)
Theorem identifier_handlers_request :
  forall (rt : runtime) (st : config) (token : string) (name : tool)
         (verb field before after : string) (args : value) (s : string),
    BASELINE_API_KEY st <> "" ->
    ToString rt (resolveApiKey rt st) = inr token ->
    identifier_route name = Some (verb, field, before, after) ->
    get_prop args field = inr (VStr s) ->
    trim s <> "" ->
    fst (toolHandlers rt st name args)
    = [request_for rt st token verb
         (before ++ sanitizeText_spec s ++ after) VUndefined].
Proof.
  intros rt st token name verb field before after args s Hkey Htoken.
  now apply identifier_route_taken.
Qed.

Lemma identifier_handlers_request_witness :
  fst (toolHandlers (canned_runtime no_content) plain_config T_getLoanLedger
         (VObj [("loanId", VStr " a/b?c<1> ")]))
  = [mkRequest "GET" "https://api.test/loan/a/b?c1/transaction"
       [ ("Authorization", "Token secret-token");
         ("Content-Type", "application/json");
         ("Accept", "application/json") ] None].
Proof.
  refine (identifier_handlers_request
            (canned_runtime no_content) plain_config "secret-token"
            T_getLoanLedger "GET" "loanId" "/loan/" "/transaction"
            (VObj [("loanId", VStr " a/b?c<1> ")]) " a/b?c<1> "
            _ eq_refl eq_refl eq_refl _);
    intros H; vm_compute in H; discriminate H.
Defined.

(** X12.  With a credential configured, each of the six connect and
    disconnect handlers sends, for two identifiers that are strings with
    something other than white space in them, exactly one request on
    [/<resource>/<id>/connect/<other id>], both identifiers sanitised:
    the connect handlers a [PUT] whose body is the empty object, the
    disconnect handlers a [DELETE] without a body. *)
Theorem connect_handlers_request :
  forall (rt : runtime) (st : config) (token : string) (name : tool)
         (verb field other before : string) (args : value) (s1 s2 : string),
    BASELINE_API_KEY st <> "" ->
    ToString rt (resolveApiKey rt st) = inr token ->
    connect_route name = Some (verb, field, other, before) ->
    get_prop args field = inr (VStr s1) -> trim s1 <> "" ->
    get_prop args other = inr (VStr s2) -> trim s2 <> "" ->
    fst (toolHandlers rt st name args)
    = [request_for rt st token verb
         (before ++ sanitizeText_spec s1 ++ "/connect/" ++ sanitizeText_spec s2)
         (if (verb =? "PUT")%string then VObj [] else VUndefined)].
Proof.
  intros rt st token name verb field other before args s1 s2 Hkey Htoken.
  now apply connect_route_taken.
Qed.

Lemma connect_handlers_request_witness :
  fst (toolHandlers (canned_runtime no_content) plain_config T_connectVendors
         (VObj [("vendorId", VStr "v1"); ("connectToVendorId", VStr "v2")]))
  = [mkRequest "PUT" "https://api.test/vendor/v1/connect/v2"
       [ ("Authorization", "Token secret-token");
         ("Content-Type", "application/json");
         ("Accept", "application/json") ]
       (Some (JSON_stringify (canned_runtime no_content) None (VObj [])))].
Proof.
  refine (connect_handlers_request
            (canned_runtime no_content) plain_config "secret-token"
            T_connectVendors "PUT" "vendorId" "connectToVendorId" "/vendor/"
            (VObj [("vendorId", VStr "v1"); ("connectToVendorId", VStr "v2")])
            "v1" "v2" _ eq_refl eq_refl eq_refl _ eq_refl _);
    intros H; vm_compute in H; discriminate H.
Defined.

(** X13.  With a credential configured, each of the five update handlers
    sends, for an identifier that is a string with something other than
    white space in it and an [updates] argument that is an object other
    than [null] (an array passes), exactly one [PATCH] on the path of the record; the body is the
    sanitised copy of [updates], whose string leaves are all free of the
    five characters. *)
Theorem update_handlers_request :
  forall (rt : runtime) (st : config) (token : string) (name : tool)
         (field before : string) (args : value) (s : string) (u : value),
    BASELINE_API_KEY st <> "" ->
    ToString rt (resolveApiKey rt st) = inr token ->
    update_route name = Some (field, before) ->
    get_prop args field = inr (VStr s) -> trim s <> "" ->
    get_prop args "updates" = inr u -> is_plain_object u = true ->
    exists body,
      sanitizeObject u = inr body
      /\ clean_leaves body = true
      /\ fst (toolHandlers rt st name args)
         = [request_for rt st token "PATCH" (before ++ sanitizeText_spec s) body].
Proof.
  intros rt st token name field before args s u Hkey Htoken Hroute Hget Hs Hu Ho.
  destruct (update_route_taken rt st token Hkey Htoken
              name field before args s u Hroute Hget Hs Hu Ho)
    as (body & Hbody & Hsent).
  exists body. split; [exact Hbody|]. split; [|exact Hsent].
  destruct (sanitizeObject_total u Ho) as (body' & Hbody' & Hclean & _).
  rewrite Hbody in Hbody'. now injection Hbody' as <-.
Qed.

Lemma update_handlers_request_witness :
  fst (toolHandlers (canned_runtime no_content) plain_config T_updateTask
         (VObj [("taskId", VStr "7");
                ("updates", VObj [("Name", VStr " <b>Call</b> ")])]))
  = [request_for (canned_runtime no_content) plain_config "secret-token"
       "PATCH" "/task/7" (VObj [("Name", VStr "bCall/b")])].
Proof.
  assert (trim "7" <> "") as H7 by (intros H; vm_compute in H; discriminate H).
  assert (BASELINE_API_KEY plain_config <> "") as Hk by discriminate.
  destruct (update_handlers_request
              (canned_runtime no_content) plain_config "secret-token"
              T_updateTask "taskId" "/task/"
              (VObj [("taskId", VStr "7");
                     ("updates", VObj [("Name", VStr " <b>Call</b> ")])])
              "7" (VObj [("Name", VStr " <b>Call</b> ")])
              Hk eq_refl eq_refl eq_refl H7 eq_refl eq_refl)
    as (body & Hbody & _ & Hsent).
  vm_compute in Hbody. injection Hbody as <-. exact Hsent.
Defined.

(** X14.  With a credential configured, each of the four handlers that
    create a loan, borrower, vendor or investor sends, when its data
    argument is an object other than [null] (an array passes), exactly
    one [POST] on the collection
    path, with the sanitised copy of the data as the body.  Nothing else
    about the data is checked: the empty object is posted as it is. *)
Theorem create_handlers_request :
  forall (rt : runtime) (st : config) (token : string) (name : tool)
         (field path : string) (args d : value),
    BASELINE_API_KEY st <> "" ->
    ToString rt (resolveApiKey rt st) = inr token ->
    create_route name = Some (field, path) ->
    get_prop args field = inr d -> is_plain_object d = true ->
    (exists body,
       sanitizeObject d = inr body
       /\ clean_leaves body = true
       /\ fst (toolHandlers rt st name args)
          = [request_for rt st token "POST" path body])
    /\ (d = VObj [] ->
        fst (toolHandlers rt st name args)
        = [request_for rt st token "POST" path (VObj [])]).
Proof.
  intros rt st token name field path args d Hkey Htoken Hroute Hget Ho.
  destruct (create_route_taken rt st token Hkey Htoken
              name field path args d Hroute Hget Ho)
    as (body & Hbody & Hsent).
  split.
  - exists body. split; [exact Hbody|]. split; [|exact Hsent].
    destruct (sanitizeObject_total d Ho) as (body' & Hbody' & Hclean & _).
    rewrite Hbody in Hbody'. now injection Hbody' as <-.
  - intros ->. simpl in Hbody. injection Hbody as <-. exact Hsent.
Qed.

Lemma create_handlers_request_witness :
  fst (toolHandlers (canned_runtime no_content) plain_config T_createBorrower
         (VObj [("borrowerData", VObj [])]))
  = [request_for (canned_runtime no_content) plain_config "secret-token"
       "POST" "/borrower" (VObj [])].
Proof.
  assert (BASELINE_API_KEY plain_config <> "") as Hk by discriminate.
  exact (proj2 (create_handlers_request
                  (canned_runtime no_content) plain_config "secret-token"
                  T_createBorrower "borrowerData" "/borrower"
                  (VObj [("borrowerData", VObj [])]) (VObj [])
                  Hk eq_refl eq_refl eq_refl eq_refl) eq_refl).
Defined.

(** X15.  [createTask] takes its fields flat: with a credential
    configured, whenever [Name] is present (any value other than
    [undefined] and [null], a string or not) it sends exactly one [POST]
    on [/task] whose body is the sanitised copy of the whole argument
    object. *)
Theorem createTask_request :
  forall (rt : runtime) (st : config) (token : string) (args v : value),
    BASELINE_API_KEY st <> "" ->
    ToString rt (resolveApiKey rt st) = inr token ->
    get_prop args "Name" = inr v -> present v = true ->
    exists body,
      sanitizeObject args = inr body
      /\ clean_leaves body = true
      /\ fst (toolHandlers rt st T_createTask args)
         = [request_for rt st token "POST" "/task" body].
Proof.
  intros rt st token args v Hkey Htoken Hget Hp.
  destruct (createTask_route_taken rt st token Hkey Htoken args v Hget Hp)
    as (body & Hbody & Hsent).
  exists body. split; [exact Hbody|]. split; [|exact Hsent].
  assert (is_plain_object args = true) as Ho.
  { destruct args; simpl in Hget; try discriminate Hget;
      try reflexivity; injection Hget as <-; discriminate Hp. }
  destruct (sanitizeObject_total args Ho) as (body' & Hbody' & Hclean & _).
  rewrite Hbody in Hbody'. now injection Hbody' as <-.
Qed.

Lemma createTask_request_witness :
  fst (toolHandlers (canned_runtime no_content) plain_config T_createTask
         (VObj [("Name", VNum 5); ("Status", VStr "  'Open' ")]))
  = [request_for (canned_runtime no_content) plain_config "secret-token"
       "POST" "/task" (VObj [("Name", VNum 5); ("Status", VStr "Open")])].
Proof.
  assert (BASELINE_API_KEY plain_config <> "") as Hk by discriminate.
  destruct (createTask_request
              (canned_runtime no_content) plain_config "secret-token"
              (VObj [("Name", VNum 5); ("Status", VStr "  'Open' ")]) (VNum 5)
              Hk eq_refl eq_refl eq_refl)
    as (body & Hbody & _ & Hsent).
  vm_compute in Hbody. injection Hbody as <-. exact Hsent.
Defined.

(** X16.  [listBorrowers], [listVendors] and [listInvestors] do not test
    [page].  With a credential configured they send exactly one [GET]:
    on the collection path when [page] is absent or falsy (so [page: 0]
    asks for no page), and otherwise on the path followed by [?page=]
    and the URL-encoded text that [page.toString()] returns, whatever
    the type or sign of [page] (for a number, stated for safe integers,
    whose text is their decimal digits).  The one exception: when
    [page.toString()] throws, the handler sends nothing and returns the
    message of what was thrown after its own phrase, with [isError]
    true. *)
Theorem unchecked_list_request :
  forall (rt : runtime) (st : config) (token : string) (name : tool)
         (path : string) (args page : value),
    BASELINE_API_KEY st <> "" ->
    ToString rt (resolveApiKey rt st) = inr token ->
    unchecked_list_route name = Some path ->
    get_prop (if truthy args then args else VObj []) "page" = inr page ->
    (truthy page = false ->
     fst (toolHandlers rt st name args)
     = [request_for rt st token "GET" path VUndefined])
    /\ (forall s,
          truthy page = true -> toString_method rt page = inr s ->
          (forall n, page = VNum n -> safe_integer n = true) ->
          fst (toolHandlers rt st name args)
          = [request_for rt st token "GET"
               (path ++ "?page=" ++ urlencode s) VUndefined])
    /\ (forall t,
          truthy page = true -> toString_method rt page = inl t ->
          toolHandlers rt st name args
          = ([], inr (text_result
                    ("Error " ++ doing name ++ ": " ++ error_message t) true))).
Proof.
  intros rt st token name path args page Hkey Htoken Hroute Hget.
  destruct (unchecked_list_route_taken rt st token Hkey Htoken
              name path args page Hroute Hget) as (Hfalsy & Htext & Hthrows).
  split; [exact Hfalsy|]. split; [|exact Hthrows].
  intros s Hp Hs _. now apply Htext.
Qed.

Lemma unchecked_list_request_witness :
  fst (toolHandlers (canned_runtime no_content) plain_config T_listVendors
         (VObj [("page", VStr "2&limit=1")]))
  = [mkRequest "GET" "https://api.test/vendor?page=2%26limit%3D1"
       [ ("Authorization", "Token secret-token");
         ("Content-Type", "application/json");
         ("Accept", "application/json") ] None].
Proof.
  assert (BASELINE_API_KEY plain_config <> "") as Hk by discriminate.
  refine (proj1 (proj2 (unchecked_list_request
                  (canned_runtime no_content) plain_config "secret-token"
                  T_listVendors "/vendor"
                  (VObj [("page", VStr "2&limit=1")]) (VStr "2&limit=1")
                  Hk eq_refl eq_refl eq_refl)) "2&limit=1" eq_refl eq_refl _).
  intros n Hn. discriminate Hn.
Defined.

(* ===================================================================== *)
(** * The shape of every request a handler sends *)
(* ===================================================================== *)

Lemma sanitizeObject_truthy (v r : value) :
  sanitizeObject v = inr r -> truthy r = true.
Proof.
  intros Hr. destruct (is_plain_object v) eqn:Ho.
  - destruct (sanitizeObject_total v Ho) as (r' & Hr' & _ & Hplain).
    rewrite Hr in Hr'. injection Hr' as <-.
    destruct r; try discriminate Hplain; reflexivity.
  - rewrite (sanitizeObject_rejects v Ho) in Hr. discriminate Hr.
Qed.

Section Conformity.

Variable rt : runtime.
Variable st : config.
Variable P : request -> Prop.

Lemma all_sent_quiet {X : Type} (m : M X) :
  sends_nothing m -> all_sent P m.
Proof. unfold sends_nothing, all_sent. intros -> req []. Qed.

Lemma all_sent_lift_bind {X Y : Type} (e : E X) (k : X -> M Y) :
  (forall x, e = inr x -> all_sent P (k x)) -> all_sent P (bind (lift e) k).
Proof.
  intros Hk. destruct e as [t|x].
  - intros req [].
  - rewrite bind_lift_inr. now apply Hk.
Qed.

Lemma all_sent_after {X Y : Type} (m : M X) (k : X -> M Y) :
  sends_nothing m -> (forall x, all_sent P (k x)) -> all_sent P (bind m k).
Proof.
  unfold sends_nothing, all_sent. intros Hm Hk.
  destruct m as [l [t|x]]; simpl in *; subst; [intros req []|].
  specialize (Hk x). now destruct (k x).
Qed.

Lemma all_sent_then_quiet {X Y : Type} (m : M X) (k : X -> M Y) :
  all_sent P m -> (forall x, sends_nothing (k x)) -> all_sent P (bind m k).
Proof.
  unfold sends_nothing, all_sent. intros Hm Hk.
  destruct m as [l [t|x]]; simpl in *; [exact Hm|].
  specialize (Hk x). destruct (k x). simpl in *. subst. now rewrite app_nil_r.
Qed.

Lemma all_sent_try_catch {X : Type} (m : M X) (h : thrown -> M X) :
  all_sent P m -> (forall t, sends_nothing (h t)) -> all_sent P (try_catch m h).
Proof.
  unfold sends_nothing, all_sent. intros Hm Hh.
  destruct m as [l [t|x]]; simpl in *; [|exact Hm].
  specialize (Hh t). destruct (h t). simpl in *. subst. now rewrite app_nil_r.
Qed.

End Conformity.

Section HandlerRequests.

Variable rt : runtime.
Variable st : config.

Lemma all_sent_makeRequest (name : tool) (method path : string) (body : value) :
  method = method_of name ->
  (exists rest, path = root_of name ++ rest) ->
  (truthy body = false <-> method_of name = "GET" \/ method_of name = "DELETE") ->
  all_sent (request_conforms st name) (makeRequest rt st method path body).
Proof.
  intros Hm [rest Hp] Hb req Hin.
  destruct (makeRequest_cases rt st method path body)
    as [[t Ht]|(token & _ & _ & Hreq)]; [rewrite Ht in Hin; destruct Hin|].
  rewrite Hreq in Hin. destruct Hin as [<-|[]].
  unfold request_conforms, request_for. cbn [req_method req_url req_headers req_body].
  split; [exact Hm|]. split.
  { exists rest. now rewrite Hp. }
  split; [now exists token|].
  rewrite <- Hb. destruct (truthy body); split; intros H; try reflexivity; discriminate H.
Qed.

Ltac quiet_here :=
  repeat first
    [ apply sends_nothing_ret
    | apply sends_nothing_lift
    | apply sends_nothing_bind; [|intros ?]
    | match goal with
      | |- sends_nothing (if ?c then _ else _) => destruct c
      end ].

Ltac sent_steps :=
  cbv zeta; unfold client_get, client_post, client_patch, client_put, client_delete;
  repeat first
    [ apply all_sent_quiet; solve [quiet_here]
    | apply all_sent_lift_bind; intros ? ?
    | rewrite bind_ret
    | match goal with
      | |- all_sent _ (if ?c then _ else _) => destruct c
      | |- context [makeRequest _ _ _ (if ?c then _ else _) _] => destruct c
      end
    | apply all_sent_after; [solve [quiet_here] | intros ?] ].

Ltac body_side :=
  repeat match goal with
  | H : sanitizeObject _ = inr ?r |- context [truthy ?r] =>
      rewrite (sanitizeObject_truthy _ r H)
  end;
  cbn;
  let Hx := fresh "Hx" in
  split; [ intros Hx; try discriminate Hx; try (left; reflexivity); right; reflexivity
         | intros [Hx|Hx]; try discriminate Hx; reflexivity ].

Lemma handler_requests_conform (name : tool) (args : value) :
  all_sent (request_conforms st name) (toolHandlers rt st name args).
Proof.
  destruct name; unfold toolHandlers;
    match goal with
    | |- context [?h rt st args] => unfold h
    end;
    (apply all_sent_try_catch; [|intros ?; reflexivity]);
    sent_steps;
    (apply all_sent_then_quiet; [|intros ?; solve [quiet_here]]);
    (apply all_sent_makeRequest;
     [ reflexivity
     | cbn [root_of]; eexists; cbn; reflexivity
     | body_side ]).
Qed.

End HandlerRequests.

(** X17.  Whatever the arguments, every request a handler sends has the
    method of that handler, a URL made of the configured base URL, the
    resource of the handler and the rest of the path, exactly the three
    headers [Authorization: Token <credential>], [Content-Type:
    application/json] and [Accept: application/json], and a body exactly
    when the method is [POST], [PATCH] or [PUT]. *)
Theorem every_request_conforms :
  forall (rt : runtime) (st : config) (name : tool) (args : value) (req : request),
    In req (fst (toolHandlers rt st name args)) ->
    request_conforms st name req.
Proof.
  intros rt st name args req. apply handler_requests_conform.
Qed.

Lemma every_request_conforms_witness :
  request_conforms plain_config T_updateVendor
    (mkRequest "PATCH" "https://api.test/vendor/v-7"
       [ ("Authorization", "Token secret-token");
         ("Content-Type", "application/json");
         ("Accept", "application/json") ]
       (Some (JSON_stringify (canned_runtime no_content) None
                (VObj [("Name", VStr "Acme")])))).
Proof.
  exact (every_request_conforms
           (canned_runtime no_content) plain_config T_updateVendor
           (VObj [("vendorId", VStr "v-7");
                  ("updates", VObj [("Name", VStr "Acme")])])
           _ (or_introl eq_refl)).
Defined.

(* ===================================================================== *)
(** * Tool definitions against the handlers *)
(* ===================================================================== *)

Lemma definition_cases (d : tool_definition) (t : tool) :
  In d toolDefinitions ->
  handler_named (tool_name d) = Some t ->
  In (d, t) (combine toolDefinitions (map snd tool_names)).
Proof.
  intros Hd Hh. unfold toolDefinitions in Hd. cbn [In] in Hd.
  repeat (destruct Hd as [<-|Hd];
          [vm_compute in Hh; injection Hh as <-;
           cbn [toolDefinitions tool_names map snd combine In]; tauto|]).
  contradiction.
Qed.

(** X18.  The hints of a tool definition against what its handler does:
    every request the handler sends is a [GET] exactly when the
    definition says [readOnlyHint: true], and the definition says
    [destructiveHint: true] exactly when the request is a [DELETE] of a
    record; the [DELETE] that the three disconnect handlers send is not
    announced as destructive.  [idempotentHint] is set for just the
    read-only and the destructive tools, [openWorldHint] for none. *)
Theorem hints_agree_with_requests :
  forall (rt : runtime) (st : config) (d : tool_definition) (t : tool)
         (args : value) (req : request),
    In d toolDefinitions ->
    handler_named (tool_name d) = Some t ->
    In req (fst (toolHandlers rt st t args)) ->
    (readOnlyHint (tool_annotations d) = true <-> req_method req = "GET")
    /\ (destructiveHint (tool_annotations d) = true
        <-> req_method req = "DELETE" /\ connect_route t = None)
    /\ idempotentHint (tool_annotations d)
       = readOnlyHint (tool_annotations d) || destructiveHint (tool_annotations d)
    /\ openWorldHint (tool_annotations d) = false.
Proof.
  intros rt st d t args req Hd Hh Hin.
  destruct (handler_requests_conform rt st t args req Hin) as (Hm & _).
  rewrite Hm. clear Hm Hin.
  assert (Hc := definition_cases d t Hd Hh). clear Hd Hh.
  cbn [toolDefinitions tool_names map snd combine In] in Hc.
  repeat (destruct Hc as [Hc'|Hc];
          [injection Hc' as <- <-; cbn;
           repeat split; intros; try reflexivity; try discriminate;
           match goal with
           | H : _ /\ _ |- _ => destruct H; discriminate
           end|]).
  contradiction.
Qed.

Lemma hints_agree_with_requests_witness :
  (destructiveHint (tool_annotations def_disconnectVendors) = true
   <-> "DELETE" = "DELETE" /\ connect_route T_disconnectVendors = None)
  /\ readOnlyHint (tool_annotations def_disconnectVendors) = false.
Proof.
  assert (In def_disconnectVendors toolDefinitions) as Hd
    by (cbn [toolDefinitions In]; tauto).
  split; [|reflexivity].
  exact (proj1 (proj2
    (hints_agree_with_requests
       (canned_runtime no_content) plain_config def_disconnectVendors
       T_disconnectVendors
       (VObj [("vendorId", VStr "v1"); ("disconnectFromVendorId", VStr "v2")])
       _ Hd eq_refl (or_introl eq_refl)))).
Defined.

(* ===================================================================== *)
(** * An identifier that is sanitised away *)
(* ===================================================================== *)

Lemma dangerous_not_white (c : ascii) :
  dangerous c = true -> isWhiteSpace c = false.
Proof.
  destruct c as [[] [] [] [] [] [] [] []]; intros H; try discriminate H; reflexivity.
Qed.

Lemma removed_head_not_white (l : list ascii) :
  forallb dangerous l = true ->
  match l with c :: _ => negb (isWhiteSpace c) | [] => true end = true.
Proof.
  destruct l as [|c l]; simpl; [reflexivity|].
  intros H. apply andb_true_iff in H as [Hc _].
  now rewrite (dangerous_not_white c Hc).
Qed.

Lemma forallb_rev {X : Type} (f : X -> bool) (l : list X) :
  forallb f l = true -> forallb f (rev l) = true.
Proof.
  rewrite !forallb_forall. intros H x Hx. apply H. now apply in_rev.
Qed.

Lemma removed_trimmed (s : string) :
  only_removed s = true ->
  rev (drop_ws (rev (drop_ws (list_ascii_of_string s)))) = list_ascii_of_string s.
Proof.
  unfold only_removed. intros H.
  rewrite (drop_ws_head _ (removed_head_not_white _ H)).
  rewrite (drop_ws_head _ (removed_head_not_white _ (forallb_rev _ _ H))).
  apply rev_involutive.
Qed.

Lemma filter_none {X : Type} (f : X -> bool) (l : list X) :
  forallb f l = true -> filter (fun x => negb (f x)) l = [].
Proof.
  induction l as [|x l IH]; simpl; [reflexivity|].
  intros H. apply andb_true_iff in H as [Hx Hl]. now rewrite Hx, IH.
Qed.

Lemma list_empty_string (s : string) : list_ascii_of_string s = [] -> s = "".
Proof. destruct s; [reflexivity | discriminate]. Qed.

Lemma removed_sanitised_away (s : string) :
  only_removed s = true -> sanitizeString (VStr s) = inr "".
Proof.
  intros H. unfold sanitizeString. f_equal. apply list_empty_string.
  rewrite sanitized_chars, (removed_trimmed s H).
  unfold only_removed in H. now rewrite (filter_none _ _ H).
Qed.

Lemma removed_not_blank (s : string) :
  only_removed s = true -> s <> "" -> trim s <> "".
Proof.
  intros H Hs Ht. apply Hs. apply list_empty_string.
  rewrite <- (removed_trimmed s H), <- list_of_trim, Ht. reflexivity.
Qed.

(** X19.  The handlers test an identifier before they sanitise it.  An
    identifier that is not empty and made only of the five characters
    that sanitising removes passes the test and is then sanitised to the
    empty string: the handler sends its [GET] or [DELETE] on the path
    with nothing where the identifier belongs. *)
Theorem removed_identifier_reaches_upstream :
  forall (rt : runtime) (st : config) (token : string) (name : tool)
         (verb field before after : string) (args : value) (s : string),
    BASELINE_API_KEY st <> "" ->
    ToString rt (resolveApiKey rt st) = inr token ->
    identifier_route name = Some (verb, field, before, after) ->
    get_prop args field = inr (VStr s) ->
    s <> "" -> only_removed s = true ->
    fst (toolHandlers rt st name args)
    = [request_for rt st token verb (before ++ after) VUndefined].
Proof.
  intros rt st token name verb field before after args s
         Hkey Htoken Hroute Hget Hs Hrem.
  rewrite (identifier_route_taken rt st token Hkey Htoken name verb field
             before after args s Hroute Hget (removed_not_blank s Hrem Hs)).
  assert (sanitizeText_spec s = "") as ->; [|reflexivity].
  assert (H := sanitizeString_refines s).
  rewrite (removed_sanitised_away s Hrem) in H. now injection H as <-.
Qed.

Lemma removed_identifier_reaches_upstream_witness :
  fst (toolHandlers (canned_runtime no_content) plain_config T_deleteTask
         (VObj [("taskId", VStr "<>")]))
  = [mkRequest "DELETE" "https://api.test/task/"
       [ ("Authorization", "Token secret-token");
         ("Content-Type", "application/json");
         ("Accept", "application/json") ] None].
Proof.
  refine (removed_identifier_reaches_upstream
            (canned_runtime no_content) plain_config "secret-token"
            T_deleteTask "DELETE" "taskId" "/task/" ""
            (VObj [("taskId", VStr "<>")]) "<>"
            _ eq_refl eq_refl eq_refl _ eq_refl); discriminate.
Defined.

(* ===================================================================== *)
(** * Registration of the tools *)
(* ===================================================================== *)

(** X20.  [init] throws ["BASELINE_API_KEY environment variable is
    required"] exactly when the binding is absent or empty, and then
    registers nothing.  Otherwise it stores the binding as the credential,
    leaves the base URL alone, and registers every tool definition, none
    skipped, in the order of [toolDefinitions]: each under its own name,
    with the shape of its schema, and with the handler of the same
    name. *)
Theorem init_registers_every_tool :
  forall (env_key : option string) (st : config),
    match init env_key st with
    | inl t =>
        (env_key = None \/ env_key = Some "")
        /\ t = ErrorObj "BASELINE_API_KEY environment variable is required"
    | inr (st', regs) =>
        env_key = Some (BASELINE_API_KEY st')
        /\ BASELINE_API_KEY st' <> ""
        /\ BASELINE_API_URL st' = BASELINE_API_URL st
        /\ map reg_name regs = map tool_name toolDefinitions
        /\ map reg_shape regs
           = map (fun d => shape_of (tool_inputSchema d)) toolDefinitions
        /\ map (fun r => (reg_name r, reg_handler r)) regs = tool_names
    end.
Proof.
  intros [[|c k]|] st; unfold init; cbn [truthy negb String.eqb].
  - split; [now right | reflexivity].
  - cbn -[register_tools toolDefinitions tool_names].
    split; [reflexivity|]. split; [discriminate|]. split; [reflexivity|].
    split; [|split]; vm_compute; reflexivity.
  - split; [now left | reflexivity].
Qed.

(** X21.  For every tool but [createLoan], the arguments its handler
    insists on are exactly the fields that its input schema does not
    mark optional, in the same order. *)
Theorem handlers_require_the_mandatory_fields :
  forall (d : tool_definition) (t : tool),
    In d toolDefinitions ->
    handler_named (tool_name d) = Some t ->
    t <> T_createLoan ->
    required t = mandatory_fields (shape_of (tool_inputSchema d)).
Proof.
  intros d t Hd Hh Ht.
  assert (Hc := definition_cases d t Hd Hh). clear Hd Hh.
  cbn [toolDefinitions tool_names map snd combine In] in Hc.
  repeat (destruct Hc as [Hc'|Hc];
          [injection Hc' as <- <-; try contradiction; reflexivity|]).
  contradiction.
Qed.

Lemma handlers_require_the_mandatory_fields_witness :
  required T_disconnectInvestors = ["investorId"; "disconnectFromInvestorId"]
  /\ required T_disconnectInvestors
     = mandatory_fields (shape_of (tool_inputSchema def_disconnectInvestors)).
Proof.
  assert (In def_disconnectInvestors toolDefinitions) as Hd
    by (cbn [toolDefinitions In]; tauto).
  assert (T_disconnectInvestors <> T_createLoan) as Ht by discriminate.
  split; [reflexivity|].
  exact (handlers_require_the_mandatory_fields
           def_disconnectInvestors T_disconnectInvestors Hd eq_refl Ht).
Defined.

Lemma assoc_absent (k : string) (props : list (string * value)) :
  ~ In k (map fst props) -> assoc k props = None.
Proof.
  induction props as [|[k' v] props IH]; simpl; [reflexivity|].
  intros H. destruct (String.eqb_spec k k') as [->|_]; [tauto|].
  apply IH. tauto.
Qed.

(** X22.  The schema of [createLoan] has the fields of a loan at its top
    level and no field [loanData], while its handler reads everything
    from [args.loanData].  So an argument object that carries only
    fields of the schema, whatever their values, never reaches the
    upstream: the handler sends nothing and returns ["Error creating
    loan: Missing required argument: loanData"]. *)
Theorem createLoan_rejects_its_schema :
  forall (rt : runtime) (st : config) (props : list (string * value)),
    incl (map fst props) (map fst (shape_of (tool_inputSchema def_createLoan))) ->
    toolHandlers rt st T_createLoan (VObj props)
    = ([], inr (text_result
              "Error creating loan: Missing required argument: loanData" true)).
Proof.
  intros rt st props Hincl.
  assert (assoc "loanData" props = None) as Ha.
  { apply assoc_absent. intros Hin. apply Hincl in Hin.
    cbn in Hin. repeat (destruct Hin as [Hin|Hin]; [discriminate Hin|]).
    contradiction. }
  unfold toolHandlers, createLoan. cbn [validateRequiredArgs truthy negb].
  unfold get_prop. rewrite Ha. reflexivity.
Qed.

Lemma createLoan_rejects_its_schema_witness :
  toolHandlers (canned_runtime no_content) plain_config T_createLoan
    (VObj [("Name", VStr "123 Main St Property"); ("Status", VStr "lead");
           ("Borrower_Name", VStr "John Doe")])
  = ([], inr (text_result
            "Error creating loan: Missing required argument: loanData" true)).
Proof.
  apply (createLoan_rejects_its_schema (canned_runtime no_content) plain_config
           [("Name", VStr "123 Main St Property"); ("Status", VStr "lead");
            ("Borrower_Name", VStr "John Doe")]).
  intros k Hk. cbn in Hk. cbn.
  destruct Hk as [<-|[<-|[<-|[]]]]; tauto.
Defined.

(* ===================================================================== *)
(** * The JSON schema of a zod schema *)
(* ===================================================================== *)

Lemma description_of_field (key : string) (schema : zod) :
  match zod_description schema with
  | Some d => if truthy (VStr d) then d else key
  | None => key
  end = field_description key schema.
Proof.
  unfold field_description. destruct (zod_description schema) as [[|c d]|]; reflexivity.
Qed.

Lemma plain_names_cons (k : string) (rest : list string) :
  plain_names (k :: rest) = true ->
  (k =? "__proto__")%string = false
  /\ existsb (String.eqb k) rest = false
  /\ plain_names rest = true.
Proof.
  simpl. intros H. apply andb_true_iff in H as [H Hrest].
  apply andb_true_iff in H as [Hp Hk].
  apply negb_true_iff in Hp. apply negb_true_iff in Hk. now repeat split.
Qed.

Lemma existsb_eqb_false (k : string) (l : list string) (k' : string) :
  existsb (String.eqb k) l = false -> In k' l -> (k' =? k)%string = false.
Proof.
  intros H Hin. apply String.eqb_neq. intros ->.
  assert (existsb (String.eqb k) l = true) as Hc.
  { apply existsb_exists. exists k. split; [exact Hin | apply String.eqb_refl]. }
  congruence.
Qed.

Lemma convert_entries_spec (shape : list (string * zod)) :
  forall (properties : list (string * value)) (required : list value),
    plain_names (map fst shape) = true ->
    (forall k, In k (map fst shape) ->
               existsb (String.eqb k) (map fst properties) = false) ->
    convert_entries shape properties required
    = ((properties ++ schema_properties shape)%list,
       (required ++ map VStr (schema_required shape))%list).
Proof.
  induction shape as [|[key schema] rest IH]; intros properties required Hplain Hfresh.
  - simpl. now rewrite !app_nil_r.
  - cbn [map fst] in Hplain.
    destruct (plain_names_cons _ _ Hplain) as (Hp & Hk & Hrest).
    assert (Hf := Hfresh key (or_introl eq_refl)).
    assert (forall x k, In k (map fst rest) ->
              existsb (String.eqb k) (map fst (properties ++ [(key, x)])%list) = false)
      as Hnext.
    { intros x k Hin. rewrite map_app, existsb_app.
      rewrite (Hfresh k (or_intror Hin)). simpl.
      now rewrite (existsb_eqb_false key _ k Hk Hin). }
    cbn [convert_entries]. rewrite description_of_field.
    unfold schema_properties, schema_required. cbn [flat_map fst snd].
    fold (schema_properties rest). fold (schema_required rest).
    assert (forall x,
              convert_entries rest (set_prop properties key x) required
              = ((properties ++ (key, x) :: schema_properties rest)%list,
                 (required ++ map VStr (schema_required rest))%list)) as Hopt.
    { intros x. rewrite (set_prop_fresh _ _ _ Hp Hf), (IH _ _ Hrest (Hnext x)).
      now rewrite <- app_assoc. }
    assert (forall x,
              convert_entries rest (set_prop properties key x) (required ++ [VStr key])
              = ((properties ++ (key, x) :: schema_properties rest)%list,
                 (required ++ VStr key :: map VStr (schema_required rest))%list))
      as Hreq.
    { intros x. rewrite (set_prop_fresh _ _ _ Hp Hf), (IH _ _ Hrest (Hnext x)).
      now rewrite <- !app_assoc. }
    assert (convert_entries rest properties required
            = ((properties ++ schema_properties rest)%list,
               (required ++ map VStr (schema_required rest))%list)) as Hskip.
    { apply IH; [exact Hrest|]. intros k Hin. apply Hfresh. now right. }
    destruct schema as [d|d|d|vs d|e d|sh d|inner d]; cbn [json_field app map];
      [ apply Hreq | apply Hreq | apply Hreq | exact Hskip | exact Hskip
      | apply Hreq | ].
    destruct inner as [d'|d'|d'|vs d'|e d'|sh d'|inner' d']; cbn [json_field app map];
      [ apply Hopt | apply Hopt | apply Hopt | exact Hskip | exact Hskip
      | apply Hopt | exact Hskip ].
Qed.

(** X23.  [convertZodSchemaToJsonSchema] on an object schema whose field
    names are distinct and none of them [__proto__]: the result is
    [{ type: "object", properties, required }] where [properties] has, in
    the order of the shape, one entry [{ type, description }] for each
    field that is a string, a number, a boolean or an object, optional or
    not, and none for a field of any other kind (an enumeration or an
    array is passed over, and so is an optional one); [required] lists
    the fields of the four kinds that are not optional; the description
    is that of the field, or its name when it has none. *)
Theorem convertZodSchemaToJsonSchema_fields :
  forall (shape : list (string * zod)) (d : option string),
    plain_names (map fst shape) = true ->
    convertZodSchemaToJsonSchema (Some (ZodObject shape d))
    = json_schema (schema_properties shape) (map VStr (schema_required shape)).
Proof.
  intros shape d Hplain. unfold convertZodSchemaToJsonSchema.
  cbn [typeName String.eqb Ascii.eqb Bool.eqb shape_of].
  now rewrite (convert_entries_spec shape [] [] Hplain (fun _ _ => eq_refl)).
Qed.

Lemma convertZodSchemaToJsonSchema_fields_witness :
  convertZodSchemaToJsonSchema (Some (tool_inputSchema def_createTask))
  = json_schema
      [ ("Name", json_property "string" "Task title/name");
        ("Description", json_property "string" "Task description");
        ("Date_Due", json_property "string" "Due date in YYYY-MM-DD format");
        ("Loan_Id", json_property "string" "ID of a loan to be associated with") ]
      [VStr "Name"].
Proof.
  exact (convertZodSchemaToJsonSchema_fields
           (shape_of (tool_inputSchema def_createTask)) None eq_refl).
Defined.
